(** * dodo: the desktop-switch tracker and the per-monitor overlays

    A shallow embedding of [dodo/dodo.py]: the classes [Monitor],
    [DesktopNumberOverlay], [DesktopNumberOverlayManager],
    [VirtualDesktopAccessor] and the two [DodoFrame] handlers [on_hotkey]
    and [on_close], with the end of [Dodo.run_loop] that [on_close] waits
    for.

    The Python methods return [None] and report what happened through
    [print]; they mutate [self], call into Windows (pyvda, win32gui, wx)
    and catch the exceptions of most of these calls.  The embedding
    therefore runs in a monad
    of state and exceptions in which a raised exception keeps the
    mutations made before it, and the state records, next to the Python
    objects, the lines printed, the OS calls made and the functions
    queued with [wx.CallAfter]. *)

From Stdlib Require Import ZArith DecimalString.
From stdpp Require Import base option list gmap strings.

Local Open Scope Z_scope.

(** ** Exceptions and the results of OS calls *)

(** A Python exception, kept as the text [print] would show for it. *)
Definition exn := string.

Inductive result (A : Type) : Type :=
| Ok (a : A)
| Raise (e : exn).
Arguments Ok {A} a.
Arguments Raise {A} e.

(** ** The operating system

    Everything the program asks of Windows.  A call takes the state of
    the world and gives a value or an exception together with the world
    after the call; nothing is assumed about what the world does. *)
Class Windows (W : Type) : Type := {
  (** [pyvda.VirtualDesktop.current().number] *)
  vd_current : W -> result Z * W;
  (** [pyvda.VirtualDesktop(number)] *)
  vd_desktop : Z -> W -> result unit * W;
  (** [desktop.go()] *)
  vd_go : Z -> W -> result unit * W;
  (** [win32gui.GetForegroundWindow()]; 0 when there is none *)
  get_foreground_window : W -> result Z * W;
  (** [win32gui.GetWindowText(hwnd)] *)
  get_window_text : Z -> W -> result string * W;
  (** [pyvda.AppView(hwnd)] *)
  app_view : Z -> W -> result unit * W;
  (** [app_view.move(target_desktop)] *)
  av_move : Z -> Z -> W -> result unit * W;
  (** [app_view.is_pinned()] *)
  av_is_pinned : Z -> W -> result bool * W;
  (** [app_view.pin()] *)
  av_pin : Z -> W -> result unit * W;
  (** [user32.EnumDisplayMonitors]: for every monitor, in the order of
      the callbacks, its handle and its rectangle (left, top, right,
      bottom) *)
  enum_display_monitors : W -> result (list (Z * (Z * Z * Z * Z))) * W;
  (** whether wx can build and show a frame for this desktop number at
      this position *)
  wx_create_frame : Z -> Z -> Z -> W -> result unit * W;
  (** whether wx closes the frame with this identity *)
  wx_close_frame : nat -> W -> result unit * W;
  (** [UnregisterHotKey(hotkey_id)] *)
  unregister_hot_key : Z -> W -> result unit * W;
  (** [self.dodo_thread.join(1.0)]: whether the scheduler lets the thread
      wake from its [time.sleep(1)] before the second is over *)
  join_thread : W -> result bool * W;
  (** [self.Destroy()] of the main frame *)
  wx_destroy_frame : W -> result unit * W
}.

(** The OS calls, as they are recorded in the order they are made. *)
Inductive Call : Type :=
| CurrentDesktop
| MakeDesktop (number : Z)
| Go (number : Z)
| GetForegroundWindow
| GetWindowText (hwnd : Z)
| MakeAppView (hwnd : Z)
| Move (hwnd number : Z)
| IsPinned (hwnd : Z)
| Pin (hwnd : Z)
| EnumDisplayMonitors
| CreateFrame (number x y : Z)
| CloseFrame (oid : nat)
| UnregisterHotKey (hotkey_id : Z)
| JoinThread
| DestroyFrame.

(** The lines the program prints, one constructor per [print]. *)
Inductive Msg : Type :=
| Invalid_desktop_number (number : Z)
| Already_on_desktop (number : Z)
| Error_switching (number : Z) (e : exn)
| Error_showing_overlay (e : exn)
| No_previous_desktop
| No_active_window
| Moving_window (title : string)
| Moved_window (number : Z)
| Error_moving (number : Z) (e : exn)
| Pinned_window (title : string)
| Window_already_pinned (title : string)
| Error_pinning (e : exn)
| Dodo_shutting_down.

(** ** The Python objects *)

Record Monitor : Type := {
  index : nat;
  handle : Z;
  left : Z;
  top : Z;
  width : Z;
  height : Z
}.

Definition right (m : Monitor) : Z := left m + width m.
Definition bottom (m : Monitor) : Z := top m + height m.

(** A [DesktopNumberOverlay] frame: its identity, the number it was
    built for and where [SetPosition] put it. *)
Record DesktopNumberOverlay : Type := {
  oid : nat;
  desktop_number : Z;
  position : Z * Z
}.

(** [str(n)] for a Python integer. *)
Definition str (n : Z) : string := NilZero.string_of_int (Z.to_int n).

(** The text measured in [__init__] and drawn by [on_paint]:
    ["0" if desktop_number == 10 else str(desktop_number)]. *)
Definition overlay_text (number : Z) : string :=
  if number =? 10 then "0"%string else str number.

Definition text (o : DesktopNumberOverlay) : string :=
  overlay_text (desktop_number o).

Record DesktopNumberOverlayManager : Type := {
  overlays : list DesktopNumberOverlay;
  timer : option nat
}.

(** A started [wx.Timer]: the manager whose [on_timer] is bound to it,
    the interval of [Start] and its one-shot flag. *)
Record Timer : Type := {
  owner : nat;
  interval : Z;
  one_shot : bool
}.

Record VirtualDesktopAccessor : Type := {
  current_desktop_number : option Z;
  previous_desktop_number : option Z;
  (** [if self.frame:] *)
  frame : bool
}.

(** The thread that runs [Dodo.run_loop]: in the loop
    [while self.running: time.sleep(1)], or past it. *)
Inductive Thread : Type := InLoop | Ended.

(** The frame, with the flag [running] of its [Dodo]; [dodo_thread] is
    [None] until the thread is made. *)
Record DodoFrame : Type := {
  hotkey_ids : list Z;
  hotkey_desktop_map : gmap Z Z;
  hotkey_move_map : gmap Z Z;
  hotkey_previous_desktop_id : option Z;
  hotkey_pin_id : option Z;
  running : bool;
  dodo_thread : option Thread;
  destroyed : bool
}.

(** ** The state of a run *)

Record State (W : Type) : Type := {
  world : W;
  vda : VirtualDesktopAccessor;
  gui : DodoFrame;
  (** the overlay frames that exist on the screen *)
  screen : list DesktopNumberOverlay;
  (** the overlay managers, by identity *)
  managers : gmap nat DesktopNumberOverlayManager;
  (** the timers that are running, by identity *)
  timers : gmap nat Timer;
  (** the identity of the next object *)
  next_id : nat;
  (** the desktop numbers [_show_desktop_overlay] is queued with *)
  call_after : list Z;
  calls : list Call;
  stdout : list Msg
}.
Arguments world {W} s.
Arguments vda {W} s.
Arguments gui {W} s.
Arguments screen {W} s.
Arguments managers {W} s.
Arguments timers {W} s.
Arguments next_id {W} s.
Arguments call_after {W} s.
Arguments calls {W} s.
Arguments stdout {W} s.

(** ** The monad of the methods

    A computation takes the state and gives a value or an exception
    together with the state it reached: what a method has assigned
    before it raises stays assigned. *)
Definition M (W A : Type) : Type := State W -> result A * State W.

Section Embedding.
Context {W : Type} `{Windows W}.

#[global] Instance M_ret : MRet (M W) := fun A a s => (Ok a, s).

#[global] Instance M_bind : MBind (M W) := fun A B f m s =>
  match m s with
  | (Ok a, s') => f a s'
  | (Raise e, s') => (Raise e, s')
  end.

Definition raise {A : Type} (e : exn) : M W A := fun s => (Raise e, s).

(** [try: body except Exception as e: handler]; a bare [except:] is
    written the same way, the calls raise nothing that only it would
    catch. *)
Definition try_except {A : Type} (body : M W A) (handler : exn -> M W A)
  : M W A := fun s =>
  match body s with
  | (Ok a, s') => (Ok a, s')
  | (Raise e, s') => handler e s'
  end.

(** [return] is written as the branch that holds the rest of the method;
    [pass] is [skip]. *)
Definition skip : M W unit := mret tt.

Definition set_world (w : W) (s : State W) : State W :=
  {| world := w; vda := vda s; gui := gui s; screen := screen s;
     managers := managers s; timers := timers s; next_id := next_id s;
     call_after := call_after s; calls := calls s; stdout := stdout s |}.

Definition set_vda (v : VirtualDesktopAccessor) (s : State W) : State W :=
  {| world := world s; vda := v; gui := gui s; screen := screen s;
     managers := managers s; timers := timers s; next_id := next_id s;
     call_after := call_after s; calls := calls s; stdout := stdout s |}.

Definition set_gui (g : DodoFrame) (s : State W) : State W :=
  {| world := world s; vda := vda s; gui := g; screen := screen s;
     managers := managers s; timers := timers s; next_id := next_id s;
     call_after := call_after s; calls := calls s; stdout := stdout s |}.

Definition set_screen (l : list DesktopNumberOverlay) (s : State W)
  : State W :=
  {| world := world s; vda := vda s; gui := gui s; screen := l;
     managers := managers s; timers := timers s; next_id := next_id s;
     call_after := call_after s; calls := calls s; stdout := stdout s |}.

Definition set_managers (ms : gmap nat DesktopNumberOverlayManager)
  (s : State W) : State W :=
  {| world := world s; vda := vda s; gui := gui s; screen := screen s;
     managers := ms; timers := timers s; next_id := next_id s;
     call_after := call_after s; calls := calls s; stdout := stdout s |}.

Definition set_timers (ts : gmap nat Timer) (s : State W) : State W :=
  {| world := world s; vda := vda s; gui := gui s; screen := screen s;
     managers := managers s; timers := ts; next_id := next_id s;
     call_after := call_after s; calls := calls s; stdout := stdout s |}.

Definition set_next_id (n : nat) (s : State W) : State W :=
  {| world := world s; vda := vda s; gui := gui s; screen := screen s;
     managers := managers s; timers := timers s; next_id := n;
     call_after := call_after s; calls := calls s; stdout := stdout s |}.

Definition set_call_after (q : list Z) (s : State W) : State W :=
  {| world := world s; vda := vda s; gui := gui s; screen := screen s;
     managers := managers s; timers := timers s; next_id := next_id s;
     call_after := q; calls := calls s; stdout := stdout s |}.

Definition set_calls (cs : list Call) (s : State W) : State W :=
  {| world := world s; vda := vda s; gui := gui s; screen := screen s;
     managers := managers s; timers := timers s; next_id := next_id s;
     call_after := call_after s; calls := cs; stdout := stdout s |}.

Definition set_stdout (out : list Msg) (s : State W) : State W :=
  {| world := world s; vda := vda s; gui := gui s; screen := screen s;
     managers := managers s; timers := timers s; next_id := next_id s;
     call_after := call_after s; calls := calls s; stdout := out |}.

(** Read and change the state. *)
Definition gets {A : Type} (f : State W -> A) : M W A :=
  fun s => (Ok (f s), s).

Definition modify (f : State W -> State W) : M W unit :=
  fun s => (Ok tt, f s).

(** An OS call: it is recorded, and the world answers. *)
Definition os {A : Type} (c : Call) (f : W -> result A * W) : M W A :=
  fun s =>
    let (r, w) := f (world s) in
    (r, set_world w (set_calls (calls s ++ [c]) s)).

Definition print (m : Msg) : M W unit :=
  modify (fun s => set_stdout (stdout s ++ [m]) s).

(** [wx.CallAfter(self._show_desktop_overlay, desktop_number)] *)
Definition wx_call_after (number : Z) : M W unit :=
  modify (fun s => set_call_after (call_after s ++ [number]) s).

(** A new object identity. *)
Definition fresh : M W nat :=
  fun s => (Ok (next_id s), set_next_id (S (next_id s)) s).

(** ** class VirtualDesktopAccessor *)

Definition set_current_desktop_number (n : option Z) : M W unit :=
  modify (fun s => set_vda
    {| current_desktop_number := n;
       previous_desktop_number := previous_desktop_number (vda s);
       frame := frame (vda s) |} s).

Definition set_previous_desktop_number (n : option Z) : M W unit :=
  modify (fun s => set_vda
    {| current_desktop_number := current_desktop_number (vda s);
       previous_desktop_number := n;
       frame := frame (vda s) |} s).

Definition switch_desktop_by_number (number : Z) : M W unit :=
  if (number <? 1) || (number >? 10) then
    print (Invalid_desktop_number number)
  else
    try_except
      (current_number ← os CurrentDesktop vd_current;
       set_current_desktop_number (Some current_number);;
       if current_number =? number then
         print (Already_on_desktop number)
       else
         os (MakeDesktop number) (vd_desktop number);;
         os (Go number) (vd_go number);;
         set_previous_desktop_number (Some current_number);;
         set_current_desktop_number (Some number);;
         has_frame ← gets (fun s => frame (vda s));
         if has_frame : bool then wx_call_after number else skip)
      (fun e => print (Error_switching number e)).

Definition switch_to_previous_desktop : M W unit :=
  previous ← gets (fun s => previous_desktop_number (vda s));
  match previous with
  | None => print No_previous_desktop
  | Some target => switch_desktop_by_number target
  end.

Definition move_window_to_desktop (number : Z) : M W unit :=
  if (number <? 1) || (number >? 10) then
    print (Invalid_desktop_number number)
  else
    try_except
      (hwnd ← os GetForegroundWindow get_foreground_window;
       if hwnd =? 0 then
         print No_active_window
       else
         window_title ← os (GetWindowText hwnd) (get_window_text hwnd);
         print (Moving_window window_title);;
         os (MakeAppView hwnd) (app_view hwnd);;
         os (MakeDesktop number) (vd_desktop number);;
         os (Move hwnd number) (av_move hwnd number);;
         print (Moved_window number))
      (fun e => print (Error_moving number e)).

Definition pin_window : M W unit :=
  try_except
    (hwnd ← os GetForegroundWindow get_foreground_window;
     if hwnd =? 0 then
       print No_active_window
     else
       window_title ← os (GetWindowText hwnd) (get_window_text hwnd);
       os (MakeAppView hwnd) (app_view hwnd);;
       pinned ← os (IsPinned hwnd) (av_is_pinned hwnd);
       if negb pinned then
         os (Pin hwnd) (av_pin hwnd);;
         print (Pinned_window window_title)
       else
         print (Window_already_pinned window_title))
    (fun e => print (Error_pinning e)).

(** ** class Monitor *)

(** The callback of [Monitor.get_all]: the monitor's index is the number
    of monitors seen so far. *)
Definition enum_monitors_callback (monitors : list Monitor)
  (hmonitor : Z) (rect : Z * Z * Z * Z) : list Monitor :=
  let '(rect_left, rect_top, rect_right, rect_bottom) := rect in
  monitors ++ [{| index := length monitors;
                  handle := hmonitor;
                  left := rect_left;
                  top := rect_top;
                  width := rect_right - rect_left;
                  height := rect_bottom - rect_top |}].

Definition get_all : M W (list Monitor) :=
  rects ← os EnumDisplayMonitors enum_display_monitors;
  mret (fold_left (fun monitors r => enum_monitors_callback monitors r.1 r.2)
                  rects []).

(** ** class DesktopNumberOverlay *)

(** [DesktopNumberOverlay(desktop_number, x, y)]: wx builds, places and
    shows the frame, or the constructor raises and leaves no frame. *)
Definition new_overlay (number x y : Z) : M W DesktopNumberOverlay :=
  os (CreateFrame number x y) (wx_create_frame number x y);;
  i ← fresh;
  let overlay := {| oid := i; desktop_number := number; position := (x, y) |} in
  modify (fun s => set_screen (screen s ++ [overlay]) s);;
  mret overlay.

(** [overlay.Close()] *)
Definition close (overlay : DesktopNumberOverlay) : M W unit :=
  os (CloseFrame (oid overlay)) (wx_close_frame (oid overlay));;
  modify (fun s =>
    set_screen (filter (fun o => oid o ≠ oid overlay) (screen s)) s).

(** ** class DesktopNumberOverlayManager *)

(** [for x in l: body] *)
Fixpoint for_each {A : Type} (l : list A) (body : A -> M W unit)
  : M W unit :=
  match l with
  | [] => skip
  | x :: l' => body x;; for_each l' body
  end.

Definition manager_overlays (self : nat) (s : State W)
  : list DesktopNumberOverlay :=
  from_option overlays [] (managers s !! self).

Definition manager_timer (self : nat) (s : State W) : option nat :=
  managers s !! self ≫= timer.

Definition set_overlays (self : nat) (l : list DesktopNumberOverlay)
  : M W unit :=
  modify (fun s => set_managers
    (alter (fun m => {| overlays := l; timer := timer m |}) self
           (managers s)) s).

Definition set_timer (self : nat) (t : option nat) : M W unit :=
  modify (fun s => set_managers
    (alter (fun m => {| overlays := overlays m; timer := t |}) self
           (managers s)) s).

(** [DesktopNumberOverlayManager(desktop_number)], giving the identity of
    the new manager. *)
Definition new_manager (number : Z) : M W nat :=
  self ← fresh;
  modify (fun s => set_managers
    (<[self := {| overlays := []; timer := None |}]> (managers s)) s);;
  monitors ← get_all;
  for_each monitors (fun monitor =>
    overlay ← new_overlay number (left monitor + 20) (top monitor + 20);
    l ← gets (manager_overlays self);
    set_overlays self (l ++ [overlay]));;
  l ← gets (manager_overlays self);
  match l with
  | [] => skip
  | _ :: _ =>
      t ← fresh;
      set_timer self (Some t);;
      modify (fun s => set_timers
        (<[t := {| owner := self; interval := 1500; one_shot := true |}]>
           (timers s)) s)
  end;;
  mret self.

Definition on_timer (self : nat) : M W unit :=
  l ← gets (manager_overlays self);
  for_each l (fun overlay => try_except (close overlay) (fun _ => skip));;
  set_overlays self [].

(** The event loop delivers [EVT_TIMER] of a running timer to the
    [on_timer] bound to it; a one-shot timer stops. *)
Definition fire_timer (t : nat) : M W unit :=
  running_timer ← gets (fun s => timers s !! t);
  match running_timer with
  | None => skip
  | Some tm =>
      (if one_shot tm
       then modify (fun s => set_timers (delete t (timers s)) s)
       else skip);;
      on_timer (owner tm)
  end.

(** [VirtualDesktopAccessor._show_desktop_overlay] *)
Definition show_desktop_overlay (number : Z) : M W unit :=
  try_except
    (new_manager number;; skip)
    (fun e => print (Error_showing_overlay e)).

(** The event loop runs the first function queued with [wx.CallAfter]. *)
Definition run_call_after : M W unit :=
  queue ← gets call_after;
  match queue with
  | [] => skip
  | number :: queue' =>
      modify (set_call_after queue');;
      show_desktop_overlay number
  end.

(** ** class DodoFrame *)

Definition on_hotkey (hotkey_id : Z) : M W unit :=
  f ← gets gui;
  match hotkey_desktop_map f !! hotkey_id with
  | Some desktop_num => switch_desktop_by_number desktop_num
  | None =>
      match hotkey_move_map f !! hotkey_id with
      | Some desktop_num => move_window_to_desktop desktop_num
      | None =>
          if bool_decide (Some hotkey_id = hotkey_previous_desktop_id f)
          then switch_to_previous_desktop
          else if bool_decide (Some hotkey_id = hotkey_pin_id f)
          then pin_window
          else skip
      end
  end.

(** ** class Dodo *)

(** [self.running = value] *)
Definition set_running (value : bool) : M W unit :=
  modify (fun s => set_gui
    {| hotkey_ids := hotkey_ids (gui s);
       hotkey_desktop_map := hotkey_desktop_map (gui s);
       hotkey_move_map := hotkey_move_map (gui s);
       hotkey_previous_desktop_id := hotkey_previous_desktop_id (gui s);
       hotkey_pin_id := hotkey_pin_id (gui s);
       running := value;
       dodo_thread := dodo_thread (gui s);
       destroyed := destroyed (gui s) |} s).

Definition set_dodo_thread (th : option Thread) : M W unit :=
  modify (fun s => set_gui
    {| hotkey_ids := hotkey_ids (gui s);
       hotkey_desktop_map := hotkey_desktop_map (gui s);
       hotkey_move_map := hotkey_move_map (gui s);
       hotkey_previous_desktop_id := hotkey_previous_desktop_id (gui s);
       hotkey_pin_id := hotkey_pin_id (gui s);
       running := running (gui s);
       dodo_thread := th;
       destroyed := destroyed (gui s) |} s).

Definition set_destroyed (value : bool) : M W unit :=
  modify (fun s => set_gui
    {| hotkey_ids := hotkey_ids (gui s);
       hotkey_desktop_map := hotkey_desktop_map (gui s);
       hotkey_move_map := hotkey_move_map (gui s);
       hotkey_previous_desktop_id := hotkey_previous_desktop_id (gui s);
       hotkey_pin_id := hotkey_pin_id (gui s);
       running := running (gui s);
       dodo_thread := dodo_thread (gui s);
       destroyed := value |} s).

(** [Dodo.cleanup] *)
Definition cleanup : M W unit := print Dodo_shutting_down.

(** [Dodo.run_loop] from the moment its thread wakes from
    [time.sleep(1)]: while [running] holds it sleeps again; once it does
    not, the loop is left, the [finally] clause runs [cleanup] and the
    thread ends.  A thread that has ended, or was never made, does
    nothing. *)
Definition run_loop_wakes : M W unit :=
  f ← gets gui;
  match dodo_thread f with
  | Some InLoop =>
      if running f then skip
      else cleanup;; set_dodo_thread (Some Ended)
  | _ => skip
  end.

(** [self.dodo_thread.join(1.0)]: when the thread wakes within the
    second it runs on before the join returns; otherwise the join returns
    with the thread still asleep. *)
Definition join : M W unit :=
  woke ← os JoinThread join_thread;
  if woke : bool then run_loop_wakes else skip.

(** ** class DodoFrame: shutdown *)

(** [on_close]: the hotkeys are unregistered, each call under its own
    [try]; the loop of [Dodo] is told to stop and its thread, when alive,
    is joined; [cleanup] prints its line and the frame is destroyed.  The
    join and [Destroy] are under no [try]. *)
Definition on_close : M W unit :=
  ids ← gets (fun s => hotkey_ids (gui s));
  for_each ids (fun hotkey_id =>
    try_except
      (os (UnregisterHotKey hotkey_id) (unregister_hot_key hotkey_id))
      (fun _ => skip));;
  set_running false;;
  th ← gets (fun s => dodo_thread (gui s));
  match th with
  | Some InLoop => join
  | _ => skip
  end;;
  cleanup;;
  os DestroyFrame wx_destroy_frame;;
  set_destroyed true.

End Embedding.

(** ** A world to run the program in

    The active desktop, the foreground window and the pinned windows
    behave as Windows documents them; the remaining fields say which
    calls raise. *)
Module Sim.

Record World : Type := {
  desktop : Z;
  go_error : option exn;
  foreground : Z;
  pinned : list Z;
  move_error : option exn;
  rects : list (Z * (Z * Z * Z * Z));
  (** the position at which no frame can be built *)
  frame_error : option (Z * Z);
  (** the frames that cannot be closed *)
  close_error : list nat
}.

Definition go (number : Z) (w : World) : result unit * World :=
  match go_error w with
  | Some e => (Raise e, w)
  | None =>
      (Ok tt,
       {| desktop := number; go_error := go_error w;
          foreground := foreground w; pinned := pinned w;
          move_error := move_error w; rects := rects w;
          frame_error := frame_error w; close_error := close_error w |})
  end.

Definition pin (hwnd : Z) (w : World) : result unit * World :=
  (Ok tt,
   {| desktop := desktop w; go_error := go_error w;
      foreground := foreground w; pinned := hwnd :: pinned w;
      move_error := move_error w; rects := rects w;
      frame_error := frame_error w; close_error := close_error w |}).

Definition move (w : World) : result unit * World :=
  match move_error w with
  | Some e => (Raise e, w)
  | None => (Ok tt, w)
  end.

Definition create_frame (x y : Z) (w : World) : result unit * World :=
  if bool_decide (frame_error w = Some (x, y))
  then (Raise "wx: cannot create the frame"%string, w)
  else (Ok tt, w).

Definition close_frame (i : nat) (w : World) : result unit * World :=
  if bool_decide (i ∈ close_error w)
  then (Raise "wx: cannot close the frame"%string, w)
  else (Ok tt, w).

#[global] Instance windows : Windows World := {|
  vd_current w := (Ok (desktop w), w);
  vd_desktop _ w := (Ok tt, w);
  vd_go := go;
  get_foreground_window w := (Ok (foreground w), w);
  get_window_text _ w := (Ok "Notepad"%string, w);
  app_view _ w := (Ok tt, w);
  av_move _ _ := move;
  av_is_pinned hwnd w := (Ok (bool_decide (hwnd ∈ pinned w)), w);
  av_pin := pin;
  enum_display_monitors w := (Ok (rects w), w);
  wx_create_frame _ := create_frame;
  wx_close_frame := close_frame;
  unregister_hot_key _ w := (Ok tt, w);
  join_thread w := (Ok true, w);
  wx_destroy_frame w := (Ok tt, w)
|}.

(** The program just started on this desktop, with one monitor at the
    origin and a healthy system. *)
Definition world0 (active : Z) : World :=
  {| desktop := active; go_error := None; foreground := 42; pinned := [];
     move_error := None; rects := [(1, (0, 0, 1920, 1080))];
     frame_error := None; close_error := [] |}.

(** As [world0], but [desktop.go()] raises. *)
Definition stuck (active : Z) : World :=
  {| desktop := active; go_error := Some "go: element not found"%string;
     foreground := 42; pinned := []; move_error := None;
     rects := [(1, (0, 0, 1920, 1080))];
     frame_error := None; close_error := [] |}.

(** As [world0], but the foreground window is pinned. *)
Definition pinned42 (active : Z) : World :=
  {| desktop := active; go_error := None; foreground := 42; pinned := [42];
     move_error := None; rects := [(1, (0, 0, 1920, 1080))];
     frame_error := None; close_error := [] |}.

(** As [world0], but wx cannot close the frame with this identity. *)
Definition jammed (active : Z) (i : nat) : World :=
  {| desktop := active; go_error := None; foreground := 42; pinned := [];
     move_error := None; rects := [(1, (0, 0, 1920, 1080))];
     frame_error := None; close_error := [i] |}.

(** Two monitors side by side; no frame can be built at [bad]. *)
Definition two_monitors (bad : option (Z * Z)) : World :=
  {| desktop := 3; go_error := None; foreground := 42; pinned := [];
     move_error := None;
     rects := [(1, (0, 0, 1920, 1080)); (2, (1920, 0, 3840, 1080))];
     frame_error := bad; close_error := [] |}.

Definition frame0 : DodoFrame :=
  {| hotkey_ids := [100; 110; 121];
     hotkey_desktop_map := {[100 := 1]};
     hotkey_move_map := {[111 := 1]};
     hotkey_previous_desktop_id := Some 110;
     hotkey_pin_id := Some 121;
     running := true;
     dodo_thread := Some InLoop;
     destroyed := false |}.

Definition start (w : World) (current : option Z) : State World :=
  {| world := w;
     vda := {| current_desktop_number := current;
               previous_desktop_number := None;
               frame := true |};
     gui := frame0; screen := []; managers := ∅; timers := ∅;
     next_id := 0; call_after := []; calls := []; stdout := [] |}.

End Sim.

(** ** What the claims assume of Windows *)

Section Cooperation.
Context {W : Type} `{Windows W}.

(** Asked in world [w], Windows reports [c] as the current desktop, then
    builds desktop [n] and goes to it, which leaves world [w']. *)
Definition os_switches (w : W) (c n : Z) (w' : W) : Prop :=
  ∃ w1 w2, vd_current w = (Ok c, w1) ∧
           vd_desktop n w1 = (Ok tt, w2) ∧
           vd_go n w2 = (Ok tt, w').

(** Asked in world [w], Windows reports [c] as the current desktop, and
    then building desktop [n] or going to it raises [e], which leaves
    world [w']. *)
Definition os_switch_fails (w : W) (c n : Z) (e : exn) (w' : W) : Prop :=
  ∃ w1, vd_current w = (Ok c, w1) ∧
        (vd_desktop n w1 = (Raise e, w') ∨
         ∃ w2, vd_desktop n w1 = (Ok tt, w2) ∧ vd_go n w2 = (Raise e, w')).

(** Asked in world [w], Windows names [hwnd] as the foreground window,
    gives its title and its view and says whether it is pinned, which
    leaves world [w']. *)
Definition os_inspects (w : W) (hwnd : Z) (title : string) (pinned : bool)
  (w' : W) : Prop :=
  ∃ w1 w2 w3, get_foreground_window w = (Ok hwnd, w1) ∧
              get_window_text hwnd w1 = (Ok title, w2) ∧
              app_view hwnd w2 = (Ok tt, w3) ∧
              av_is_pinned hwnd w3 = (Ok pinned, w').

(** The state after a method that changed only the world, the accessor,
    the queue of [wx.CallAfter], the calls made and the lines printed. *)
Definition after (s : State W) (w : W) (v : VirtualDesktopAccessor)
  (queued : list Z) (made : list Call) (printed : list Msg) : State W :=
  {| world := w; vda := v; gui := gui s; screen := screen s;
     managers := managers s; timers := timers s; next_id := next_id s;
     call_after := call_after s ++ queued;
     calls := calls s ++ made;
     stdout := stdout s ++ printed |}.

(** The monitors [Monitor.get_all] builds from the rectangles Windows
    enumerates. *)
Definition enumerated (rects : list (Z * (Z * Z * Z * Z))) : list Monitor :=
  fold_left (fun monitors r => enum_monitors_callback monitors r.1 r.2)
            rects [].

(** From world [w], wx builds the frames of desktop [number] for these
    monitors, one after the other, which leaves world [w']. *)
Fixpoint os_creates (number : Z) (monitors : list Monitor) (w w' : W)
  : Prop :=
  match monitors with
  | [] => w' = w
  | monitor :: rest =>
      ∃ w1, wx_create_frame number (left monitor + 20) (top monitor + 20) w
              = (Ok tt, w1) ∧
            os_creates number rest w1 w'
  end.

(** From world [w], wx closes these frames, one after the other, which
    leaves world [w']. *)
Fixpoint os_closes (l : list DesktopNumberOverlay) (w w' : W) : Prop :=
  match l with
  | [] => w' = w
  | overlay :: rest =>
      ∃ w1, wx_close_frame (oid overlay) w = (Ok tt, w1) ∧
            os_closes rest w1 w'
  end.

(** The overlays of one batch: one per monitor, in the order of the
    monitors, with consecutive identities from [first]. *)
Fixpoint batch (number : Z) (first : nat) (monitors : list Monitor)
  : list DesktopNumberOverlay :=
  match monitors with
  | [] => []
  | monitor :: rest =>
      {| oid := first; desktop_number := number;
         position := (left monitor + 20, top monitor + 20) |}
      :: batch number (S first) rest
  end.

Definition create_call (number : Z) (monitor : Monitor) : Call :=
  CreateFrame number (left monitor + 20) (top monitor + 20).

(** The one-character string of a decimal digit. *)
Definition digit (d : Z) : string :=
  String (Ascii.ascii_of_N (48 + Z.to_N d)) EmptyString.

(** The overlay side of the state: the frames on the screen, the
    managers and the running timers. *)
Definition overlay_state (s : State W)
  : list DesktopNumberOverlay * gmap nat DesktopNumberOverlayManager
    * gmap nat Timer :=
  (screen s, managers s, timers s).

(** A computation that leaves the overlay side as it found it, whatever
    Windows answers. *)
Definition keeps_overlays {A : Type} (m : M W A) : Prop :=
  ∀ s, overlay_state (m s).2 = overlay_state s.

Definition is_pin (c : Call) : bool :=
  match c with
  | Pin _ => true
  | _ => false
  end.

Definition is_go (c : Call) : bool :=
  match c with
  | Go _ | MakeDesktop _ => true
  | _ => false
  end.

End Cooperation.

(** ** The rest of the program: geometry, events, startup *)

(** *** class DesktopNumberOverlay: the size of the frame and the place
    of the text *)

(** [margin = 20] *)
Definition margin : Z := 20.

(** [window_width = text_width + margin * 2] and the same for the height,
    from the extent [GetTextExtent] measured. *)
Definition window_size (text_extent : Z * Z) : Z * Z :=
  (text_extent.1 + margin * 2, text_extent.2 + margin * 2).

(** [on_paint]: [x = (width - text_width) // 2] and
    [y = (height - text_height) // 2], from the client size and the
    extent of the text. *)
Definition text_origin (client_size text_extent : Z * Z) : Z * Z :=
  ((client_size.1 - text_extent.1) `div` 2,
   (client_size.2 - text_extent.2) `div` 2).

Section Events.
Context {W : Type} `{Windows W}.

(** A computation that leaves the part [f] of the state as it found it,
    whatever Windows answers. *)
Definition keeps {A B : Type} (f : State W → B) (m : M W A) : Prop :=
  ∀ s, f (m s).2 = f s.

(** The event loop hands these hotkey events to [on_hotkey], one after
    the other. *)
Definition on_hotkeys (hotkey_ids : list Z) : M W unit :=
  for_each hotkey_ids on_hotkey.

(** The frames [on_timer] takes off the screen: wx is asked to close each
    overlay of the list in turn, from world [w]; those it closes go, those
    for which it raises stay. *)
Fixpoint closed (l : list DesktopNumberOverlay) (w : W) : list nat :=
  match l with
  | [] => []
  | overlay :: rest =>
      match wx_close_frame (oid overlay) w with
      | (Ok _, w1) => oid overlay :: closed rest w1
      | (Raise _, w1) => closed rest w1
      end
  end.

(** The world after [on_close] has asked to unregister each of these
    identities in turn, from world [w], whatever the answers were. *)
Fixpoint unregistered (ids : list Z) (w : W) : W :=
  match ids with
  | [] => w
  | hotkey_id :: rest => unregistered rest (unregister_hot_key hotkey_id w).2
  end.

(** The state [on_close] leaves of [s]: every hotkey of [s] was passed to
    [UnregisterHotKey] and then the calls [made] were made, the lines
    [said] were printed, the world is [w], the thread is [th] and the
    frame is destroyed or not; [running] is off, and the tables of the
    frame, the accessor, the overlays and the queue are those of [s]. *)
Definition closing (s : State W) (w : W) (made : list Call)
  (said : list Msg) (th : option Thread) (gone : bool) : State W :=
  {| world := w; vda := vda s;
     gui := {| hotkey_ids := hotkey_ids (gui s);
               hotkey_desktop_map := hotkey_desktop_map (gui s);
               hotkey_move_map := hotkey_move_map (gui s);
               hotkey_previous_desktop_id :=
                 hotkey_previous_desktop_id (gui s);
               hotkey_pin_id := hotkey_pin_id (gui s);
               running := false;
               dodo_thread := th;
               destroyed := gone |};
     screen := screen s; managers := managers s; timers := timers s;
     next_id := next_id s; call_after := call_after s;
     calls := calls s ++ (UnregisterHotKey <$> hotkey_ids (gui s)) ++ made;
     stdout := stdout s ++ said |}.

(** The identities in use are below [next_id]: the frames on the screen,
    the managers and the timers. *)
Definition fresh_ids (s : State W) : Prop :=
  (∀ o, o ∈ screen s → (oid o < next_id s)%nat) ∧
  (∀ i, is_Some (managers s !! i) → (i < next_id s)%nat) ∧
  (∀ i, is_Some (timers s !! i) → (i < next_id s)%nat).

End Events.

(** ** A world with more faults

    The simulated world of [Sim], to which are added the faults the
    claims did not need: the desktop query or the enumeration of the
    monitors raising, and a number of pin calls that raise before one
    succeeds. *)
Module Faulty.

Record World : Type := {
  base : Sim.World;
  query_error : option exn;
  enum_error : option exn;
  pin_failures : nat
}.

Definition on_base {A : Type} (f : Sim.World → result A * Sim.World)
  (w : World) : result A * World :=
  let (r, b) := f (base w) in
  (r, {| base := b; query_error := query_error w;
         enum_error := enum_error w; pin_failures := pin_failures w |}).

Definition current (w : World) : result Z * World :=
  match query_error w with
  | Some e => (Raise e, w)
  | None => on_base vd_current w
  end.

Definition monitors (w : World)
  : result (list (Z * (Z * Z * Z * Z))) * World :=
  match enum_error w with
  | Some e => (Raise e, w)
  | None => on_base enum_display_monitors w
  end.

Definition pin (hwnd : Z) (w : World) : result unit * World :=
  match pin_failures w with
  | O => on_base (av_pin hwnd) w
  | S n =>
      (Raise "pin: access denied"%string,
       {| base := base w; query_error := query_error w;
          enum_error := enum_error w; pin_failures := n |})
  end.

#[global] Instance windows : Windows World := {|
  vd_current := current;
  vd_desktop n := on_base (vd_desktop n);
  vd_go n := on_base (vd_go n);
  get_foreground_window := on_base get_foreground_window;
  get_window_text hwnd := on_base (get_window_text hwnd);
  app_view hwnd := on_base (app_view hwnd);
  av_move hwnd n := on_base (av_move hwnd n);
  av_is_pinned hwnd := on_base (av_is_pinned hwnd);
  av_pin := pin;
  enum_display_monitors := monitors;
  wx_create_frame number x y := on_base (wx_create_frame number x y);
  wx_close_frame i := on_base (wx_close_frame i);
  unregister_hot_key hotkey_id := on_base (unregister_hot_key hotkey_id);
  join_thread := on_base join_thread;
  wx_destroy_frame := on_base wx_destroy_frame
|}.

(** The healthy world of [Sim] on this desktop, with these faults. *)
Definition make (active : Z) (query enum : option exn) (pins : nat)
  : World :=
  {| base := Sim.world0 active; query_error := query;
     enum_error := enum; pin_failures := pins |}.

(** The state the program starts in, in this world. *)
Definition start (w : World) (current : option Z) : State World :=
  {| world := w;
     vda := {| current_desktop_number := current;
               previous_desktop_number := None;
               frame := true |};
     gui := Sim.frame0; screen := []; managers := ∅; timers := ∅;
     next_id := 0; call_after := []; calls := []; stdout := [] |}.

End Faulty.

(** ** A world for the shutdown

    The simulated world of [Sim] with the answers to the join of the
    thread and to [Destroy]. *)
Module Exit.

Record World : Type := {
  sim : Sim.World;
  join_answer : result bool;
  destroy_error : option exn
}.

Definition on_sim {A : Type} (f : Sim.World → result A * Sim.World)
  (w : World) : result A * World :=
  let (r, b) := f (sim w) in
  (r, {| sim := b; join_answer := join_answer w;
         destroy_error := destroy_error w |}).

Definition destroy (w : World) : result unit * World :=
  match destroy_error w with
  | Some e => (Raise e, w)
  | None => (Ok tt, w)
  end.

#[global] Instance windows : Windows World := {|
  vd_current := on_sim vd_current;
  vd_desktop n := on_sim (vd_desktop n);
  vd_go n := on_sim (vd_go n);
  get_foreground_window := on_sim get_foreground_window;
  get_window_text hwnd := on_sim (get_window_text hwnd);
  app_view hwnd := on_sim (app_view hwnd);
  av_move hwnd n := on_sim (av_move hwnd n);
  av_is_pinned hwnd := on_sim (av_is_pinned hwnd);
  av_pin hwnd := on_sim (av_pin hwnd);
  enum_display_monitors := on_sim enum_display_monitors;
  wx_create_frame number x y := on_sim (wx_create_frame number x y);
  wx_close_frame i := on_sim (wx_close_frame i);
  unregister_hot_key hotkey_id := on_sim (unregister_hot_key hotkey_id);
  join_thread w := (join_answer w, w);
  wx_destroy_frame := destroy
|}.

(** The healthy world of [Sim] on desktop 3, with these answers. *)
Definition make (join : result bool) (destroy : option exn) : World :=
  {| sim := Sim.world0 3; join_answer := join; destroy_error := destroy |}.

(** The running program in this world: the hotkeys are registered and
    the thread is in its loop. *)
Definition start (w : World) : State World :=
  {| world := w;
     vda := {| current_desktop_number := Some 3;
               previous_desktop_number := None;
               frame := true |};
     gui := Sim.frame0; screen := []; managers := ∅; timers := ∅;
     next_id := 0; call_after := []; calls := []; stdout := [] |}.

End Exit.

(** The healthy world of [Sim] with no foreground window. *)
Definition no_window : Sim.World :=
  {| Sim.desktop := 3; Sim.go_error := None; Sim.foreground := 0;
     Sim.pinned := []; Sim.move_error := None;
     Sim.rects := [(1, (0, 0, 1920, 1080))];
     Sim.frame_error := None; Sim.close_error := [] |}.

(** ** Startup: the accessor's constructor and the hotkeys

    [VirtualDesktopAccessor.__init__], [ensure_ten_desktops] and
    [DodoFrame.register_hotkeys] ask Windows for more than the handlers
    do and print lines of their own.  They run in the same kind of monad
    over the state of the handlers together with a journal of these calls
    and lines. *)

(** [win32con.MOD_ALT] and [win32con.MOD_ALT | win32con.MOD_SHIFT] *)
Inductive Modifiers : Type := MOD_ALT | MOD_ALT_SHIFT.

(** [ord(str(i))] for a digit [i], [wx.WXK_F17], and 192 ([VK_OEM_3]) *)
Inductive Key : Type :=
| Digit (d : Z)
| WXK_F17
| VK_OEM_3.

Class Startup (W : Type) : Type := {
  (** [pyvda.get_virtual_desktops()] *)
  get_virtual_desktops : W → result (list Z) * W;
  (** [pyvda.VirtualDesktop.create()] *)
  vd_create : W → result unit * W;
  (** [self.RegisterHotKey(hotkey_id, modifiers, key)] *)
  register_hot_key : Z → Modifiers → Key → W → result bool * W
}.

(** The calls of the startup code; a registration is recorded with what
    Windows answered ([None] when the call raised). *)
Inductive StartupCall : Type :=
| GetVirtualDesktops
| CreateDesktop
| RegisterHotKey (hotkey_id : Z) (modifiers : Modifiers) (key : Key)
    (answer : option bool).

(** The lines of the startup code. *)
Inductive StartupMsg : Type :=
| Manager_initialized (number : Z)
| Failed_to_initialize (e : exn)
| Requires_windows
| Creating_desktops (missing current_count : nat)
| Now_have_ten
| Already_have (current_count : nat)
| Error_ensuring (e : exn)
| Registered_desktop (i : Z)
| Registered_previous
| Registered_move (i : Z)
| Registered_pin
| Registered_total (n : nat)
| No_hotkeys_registered
| Error_registering (e : exn).

Record App (W : Type) : Type := {
  core : State W;
  startup_calls : list StartupCall;
  startup_out : list StartupMsg;
  (** [self.Bind(wx.EVT_HOTKEY, self.on_hotkey)] has been done *)
  hotkey_bound : bool
}.
Arguments core {W} a.
Arguments startup_calls {W} a.
Arguments startup_out {W} a.
Arguments hotkey_bound {W} a.

Definition B (W A : Type) : Type := App W → result A * App W.

Section StartupCode.
Context {W : Type} `{Windows W} `{Startup W}.

#[global] Instance B_ret : MRet (B W) := fun A x a => (Ok x, a).

#[global] Instance B_bind : MBind (B W) := fun A C f m a =>
  match m a with
  | (Ok x, a') => f x a'
  | (Raise e, a') => (Raise e, a')
  end.

(** [try: body except Exception as e: handler] in the startup code *)
Definition guarded {A : Type} (body : B W A) (handler : exn → B W A)
  : B W A := fun a =>
  match body a with
  | (Ok x, a') => (Ok x, a')
  | (Raise e, a') => handler e a'
  end.

Definition set_core (s : State W) (a : App W) : App W :=
  {| core := s; startup_calls := startup_calls a;
     startup_out := startup_out a; hotkey_bound := hotkey_bound a |}.

(** A computation of the handlers, run on their part of the state. *)
Definition lift {A : Type} (m : M W A) : B W A := fun a =>
  let (r, s) := m (core a) in (r, set_core s a).

(** A call of the startup code that is recorded as made. *)
Definition ask {A : Type} (c : StartupCall) (f : W → result A * W)
  : B W A := fun a =>
  let (r, w) := f (world (core a)) in
  (r, {| core := set_world w (core a);
         startup_calls := startup_calls a ++ [c];
         startup_out := startup_out a;
         hotkey_bound := hotkey_bound a |}).

Definition say (m : StartupMsg) : B W unit := fun a =>
  (Ok tt, {| core := core a; startup_calls := startup_calls a;
             startup_out := startup_out a ++ [m];
             hotkey_bound := hotkey_bound a |}).

Definition pass : B W unit := mret tt.

(** [for x in l: body] in the startup code *)
Fixpoint repeat_for {A : Type} (l : list A) (body : A → B W unit)
  : B W unit :=
  match l with
  | [] => pass
  | x :: l' => body x;; repeat_for l' body
  end.

(** *** class VirtualDesktopAccessor: the constructor *)

Definition ensure_ten_desktops : B W unit :=
  guarded
    (desktops ← ask GetVirtualDesktops get_virtual_desktops;
     let current_count := length desktops in
     if (current_count <? 10)%nat then
       say (Creating_desktops (10 - current_count) current_count);;
       repeat_for (seq 0 (10 - current_count))
         (fun _ => ask CreateDesktop vd_create);;
       say Now_have_ten
     else
       say (Already_have current_count))
    (fun e => say (Error_ensuring e)).

(** [VirtualDesktopAccessor(frame)] *)
Definition new_accessor (has_frame : bool) : B W unit :=
  lift (modify (set_vda {| current_desktop_number := None;
                           previous_desktop_number := None;
                           frame := has_frame |}));;
  guarded
    (number ← lift (os CurrentDesktop vd_current);
     lift (set_current_desktop_number (Some number));;
     say (Manager_initialized number);;
     ensure_ten_desktops)
    (fun e => say (Failed_to_initialize e);; say Requires_windows).

(** *** class DodoFrame: the registration of the hotkeys *)

Definition with_desktop_hotkey (hotkey_id i : Z) (f : DodoFrame)
  : DodoFrame :=
  {| hotkey_ids := hotkey_ids f;
     hotkey_desktop_map := <[hotkey_id := i]> (hotkey_desktop_map f);
     hotkey_move_map := hotkey_move_map f;
     hotkey_previous_desktop_id := hotkey_previous_desktop_id f;
     hotkey_pin_id := hotkey_pin_id f;
     running := running f; dodo_thread := dodo_thread f;
     destroyed := destroyed f |}.

Definition with_move_hotkey (hotkey_id i : Z) (f : DodoFrame) : DodoFrame :=
  {| hotkey_ids := hotkey_ids f;
     hotkey_desktop_map := hotkey_desktop_map f;
     hotkey_move_map := <[hotkey_id := i]> (hotkey_move_map f);
     hotkey_previous_desktop_id := hotkey_previous_desktop_id f;
     hotkey_pin_id := hotkey_pin_id f;
     running := running f; dodo_thread := dodo_thread f;
     destroyed := destroyed f |}.

Definition with_previous_hotkey (hotkey_id : Z) (f : DodoFrame) : DodoFrame :=
  {| hotkey_ids := hotkey_ids f;
     hotkey_desktop_map := hotkey_desktop_map f;
     hotkey_move_map := hotkey_move_map f;
     hotkey_previous_desktop_id := Some hotkey_id;
     hotkey_pin_id := hotkey_pin_id f;
     running := running f; dodo_thread := dodo_thread f;
     destroyed := destroyed f |}.

Definition with_pin_hotkey (hotkey_id : Z) (f : DodoFrame) : DodoFrame :=
  {| hotkey_ids := hotkey_ids f;
     hotkey_desktop_map := hotkey_desktop_map f;
     hotkey_move_map := hotkey_move_map f;
     hotkey_previous_desktop_id := hotkey_previous_desktop_id f;
     hotkey_pin_id := Some hotkey_id;
     running := running f; dodo_thread := dodo_thread f;
     destroyed := destroyed f |}.

(** [self.hotkey_ids.append(hotkey_id)] *)
Definition with_hotkey_id (hotkey_id : Z) (f : DodoFrame) : DodoFrame :=
  {| hotkey_ids := hotkey_ids f ++ [hotkey_id];
     hotkey_desktop_map := hotkey_desktop_map f;
     hotkey_move_map := hotkey_move_map f;
     hotkey_previous_desktop_id := hotkey_previous_desktop_id f;
     hotkey_pin_id := hotkey_pin_id f;
     running := running f; dodo_thread := dodo_thread f;
     destroyed := destroyed f |}.

Definition change_frame (g : DodoFrame → DodoFrame) : B W unit :=
  lift (modify (fun s => set_gui (g (gui s)) s)).

(** [if self.RegisterHotKey(hotkey_id, modifiers, key): body] *)
Definition if_registered (hotkey_id : Z) (modifiers : Modifiers) (key : Key)
  (body : B W unit) : B W unit := fun a =>
  let (r, w) := register_hot_key hotkey_id modifiers key (world (core a)) in
  let answer := match r with Ok b => Some b | Raise _ => None end in
  let a' := {| core := set_world w (core a);
               startup_calls :=
                 startup_calls a
                   ++ [RegisterHotKey hotkey_id modifiers key answer];
               startup_out := startup_out a;
               hotkey_bound := hotkey_bound a |} in
  match r with
  | Ok true => body a'
  | Ok false => (Ok tt, a')
  | Raise e => (Raise e, a')
  end.

(** [for i in l: body; hotkey_id += 1], giving the last [hotkey_id] *)
Fixpoint for_hotkeys (l : list Z) (hotkey_id : Z) (body : Z → Z → B W unit)
  : B W Z :=
  match l with
  | [] => mret hotkey_id
  | i :: l' => body i hotkey_id;; for_hotkeys l' (hotkey_id + 1) body
  end.

(** [range(1, 10)] *)
Definition one_to_nine : list Z := [1; 2; 3; 4; 5; 6; 7; 8; 9].

Definition register_desktop (i hotkey_id : Z) (key : Key) : B W unit :=
  if_registered hotkey_id MOD_ALT key
    (change_frame (with_desktop_hotkey hotkey_id i);;
     change_frame (with_hotkey_id hotkey_id);;
     say (Registered_desktop i)).

Definition register_move (i hotkey_id : Z) (key : Key) : B W unit :=
  if_registered hotkey_id MOD_ALT_SHIFT key
    (change_frame (with_move_hotkey hotkey_id i);;
     change_frame (with_hotkey_id hotkey_id);;
     say (Registered_move i)).

Definition register_hotkeys : B W unit :=
  guarded
    (hotkey_id ← for_hotkeys one_to_nine 100
       (fun i hotkey_id => register_desktop i hotkey_id (Digit i));
     register_desktop 10 hotkey_id (Digit 0);;
     let hotkey_id := hotkey_id + 1 in
     if_registered hotkey_id MOD_ALT WXK_F17
       (change_frame (with_previous_hotkey hotkey_id);;
        change_frame (with_hotkey_id hotkey_id);;
        say Registered_previous);;
     let hotkey_id := hotkey_id + 1 in
     hotkey_id ← for_hotkeys one_to_nine hotkey_id
       (fun i hotkey_id => register_move i hotkey_id (Digit i));
     register_move 10 hotkey_id (Digit 0);;
     let hotkey_id := hotkey_id + 1 in
     if_registered hotkey_id MOD_ALT_SHIFT VK_OEM_3
       (change_frame (with_pin_hotkey hotkey_id);;
        change_frame (with_hotkey_id hotkey_id);;
        say Registered_pin);;
     (fun a => (Ok tt, {| core := core a; startup_calls := startup_calls a;
                          startup_out := startup_out a;
                          hotkey_bound := true |}));;
     ids ← lift (gets (fun s => hotkey_ids (gui s)));
     match ids with
     | [] => say No_hotkeys_registered
     | _ :: _ => say (Registered_total (length ids))
     end)
    (fun e => say (Error_registering e)).

(** The event loop hands a hotkey event to [on_hotkey] once the handler
    is bound. *)
Definition deliver_hotkey (hotkey_id : Z) : B W unit :=
  fun a => if hotkey_bound a then lift (on_hotkey hotkey_id) a else (Ok tt, a).

(** [DodoFrame.on_close], in the state with the journal *)
Definition close_frame : B W unit := lift on_close.

End StartupCode.

(** *** What the startup code is measured against *)

(** The fixed scheme of hotkeys, in the order [register_hotkeys] asks for
    them: identity, modifiers and key. *)
Definition plan : list (Z * Modifiers * Key) :=
  ((fun i => (99 + i, MOD_ALT, Digit i)) <$> one_to_nine)
  ++ [(109, MOD_ALT, Digit 0); (110, MOD_ALT, WXK_F17)]
  ++ ((fun i => (110 + i, MOD_ALT_SHIFT, Digit i)) <$> one_to_nine)
  ++ [(120, MOD_ALT_SHIFT, Digit 0); (121, MOD_ALT_SHIFT, VK_OEM_3)].

(** The registrations asked for, in order. *)
Fixpoint attempts (log : list StartupCall) : list (Z * Modifiers * Key) :=
  match log with
  | [] => []
  | RegisterHotKey hotkey_id modifiers key _ :: log' =>
      (hotkey_id, modifiers, key) :: attempts log'
  | _ :: log' => attempts log'
  end.

(** The identities Windows granted, in order. *)
Fixpoint granted (log : list StartupCall) : list Z :=
  match log with
  | [] => []
  | RegisterHotKey hotkey_id _ _ (Some true) :: log' =>
      hotkey_id :: granted log'
  | _ :: log' => granted log'
  end.

(** Some registration raised. *)
Fixpoint raised (log : list StartupCall) : bool :=
  match log with
  | [] => false
  | RegisterHotKey _ _ _ None :: _ => true
  | _ :: log' => raised log'
  end.

(** The number of desktops created. *)
Fixpoint created (log : list StartupCall) : nat :=
  match log with
  | [] => 0
  | CreateDesktop :: log' => S (created log')
  | _ :: log' => created log'
  end.

(** The tables of the frame bind an identity only to what the scheme
    gives it: 100..109 switch to desktops 1..10, 110 goes back, 111..120
    move to desktops 1..10, 121 pins; and [hotkey_ids] lists exactly the
    identities that are bound. *)
Definition tables_ok (f : DodoFrame) : Prop :=
  (∀ hotkey_id d, hotkey_desktop_map f !! hotkey_id = Some d →
                  1 <= d <= 10 ∧ hotkey_id = 99 + d) ∧
  (∀ hotkey_id d, hotkey_move_map f !! hotkey_id = Some d →
                  1 <= d <= 10 ∧ hotkey_id = 110 + d) ∧
  (∀ hotkey_id, hotkey_previous_desktop_id f = Some hotkey_id →
                hotkey_id = 110) ∧
  (∀ hotkey_id, hotkey_pin_id f = Some hotkey_id → hotkey_id = 121) ∧
  (∀ hotkey_id,
     hotkey_id ∈ hotkey_ids f ↔
     is_Some (hotkey_desktop_map f !! hotkey_id) ∨
     is_Some (hotkey_move_map f !! hotkey_id) ∨
     hotkey_previous_desktop_id f = Some hotkey_id ∨
     hotkey_pin_id f = Some hotkey_id).

(** A frame that has registered nothing yet. *)
Definition no_hotkeys (f : DodoFrame) : Prop :=
  hotkey_ids f = [] ∧ hotkey_desktop_map f = ∅ ∧ hotkey_move_map f = ∅ ∧
  hotkey_previous_desktop_id f = None ∧ hotkey_pin_id f = None.

Section StartupMeasures.
Context {W : Type} `{Windows W} `{Startup W}.

(** What the scheme means an identity to do. *)
Definition intended (hotkey_id : Z) : M W unit :=
  if (100 <=? hotkey_id) && (hotkey_id <=? 109)
  then switch_desktop_by_number (hotkey_id - 99)
  else if hotkey_id =? 110 then switch_to_previous_desktop
  else if (111 <=? hotkey_id) && (hotkey_id <=? 120)
  then move_window_to_desktop (hotkey_id - 110)
  else if hotkey_id =? 121 then pin_window
  else skip.

(** The registration left everything but the tables and the world as it
    was in [a0]. *)
Definition only_tables (a0 a : App W) : Prop :=
  vda (core a) = vda (core a0) ∧
  overlay_state (core a) = overlay_state (core a0) ∧
  next_id (core a) = next_id (core a0) ∧
  call_after (core a) = call_after (core a0) ∧
  calls (core a) = calls (core a0) ∧
  stdout (core a) = stdout (core a0) ∧
  running (gui (core a)) = running (gui (core a0)) ∧
  destroyed (gui (core a)) = destroyed (gui (core a0)) ∧
  dodo_thread (gui (core a)) = dodo_thread (gui (core a0)).

(** Where the registration stands after [k] hotkeys of the scheme, none
    of which raised. *)
Definition registering (a0 : App W) (k : nat) (a : App W) : Prop :=
  attempts (startup_calls a) = take k plan ∧
  raised (startup_calls a) = false ∧
  hotkey_ids (gui (core a)) = granted (startup_calls a) ∧
  tables_ok (gui (core a)) ∧
  hotkey_bound a = hotkey_bound a0 ∧
  startup_out a0 `prefix_of` startup_out a ∧
  only_tables a0 a.

(** Where it stands when a registration has raised. *)
Definition registration_raised (a0 : App W) (a : App W) : Prop :=
  (∃ k, attempts (startup_calls a) = take k plan) ∧
  raised (startup_calls a) = true ∧
  hotkey_ids (gui (core a)) = granted (startup_calls a) ∧
  tables_ok (gui (core a)) ∧
  hotkey_bound a = hotkey_bound a0 ∧
  startup_out a0 `prefix_of` startup_out a ∧
  only_tables a0 a.

(** How [register_hotkeys] ends, whatever Windows answers: with every
    hotkey of the scheme asked for and the handler bound, or, when a
    registration raised, with the error printed and the handler not
    bound; in both cases [hotkey_ids] lists the identities granted and the
    tables stay within the scheme. *)
Definition register_ended (a0 a : App W) : Prop :=
  hotkey_ids (gui (core a)) = granted (startup_calls a) ∧
  tables_ok (gui (core a)) ∧
  only_tables a0 a ∧
  ((raised (startup_calls a) = false ∧
    attempts (startup_calls a) = plan ∧
    hotkey_bound a = true ∧
    last (startup_out a) =
      Some (match hotkey_ids (gui (core a)) with
            | [] => No_hotkeys_registered
            | _ :: _ =>
                Registered_total (length (hotkey_ids (gui (core a))))
            end)) ∨
   (raised (startup_calls a) = true ∧
    (∃ k, attempts (startup_calls a) = take k plan) ∧
    hotkey_bound a = hotkey_bound a0 ∧
    ∃ e, last (startup_out a) = Some (Error_registering e))).

(** From world [w], Windows creates [k] desktops, one after the other,
    which leaves world [w']. *)
Fixpoint os_creates_desktops (k : nat) (w w' : W) : Prop :=
  match k with
  | O => w' = w
  | S k' => ∃ w1, vd_create w = (Ok tt, w1) ∧ os_creates_desktops k' w1 w'
  end.

(** From states in [P], the computation ends in [Q] when it returns and
    in [E] when it raises. *)
Definition triple {A : Type} (P : App W → Prop) (m : B W A)
  (Q : A → App W → Prop) (E : exn → App W → Prop) : Prop :=
  ∀ a, P a →
    match m a with
    | (Ok x, a') => Q x a'
    | (Raise e, a') => E e a'
    end.

End StartupMeasures.

(** ** A world for the startup code

    The world of [Faulty] with the list of virtual desktops and the
    answers to the registrations: the identities Windows refuses and the
    identities for which the call raises. *)
Module Desk.

Record World : Type := {
  faulty : Faulty.World;
  desktops : list Z;
  create_error : option exn;
  refused : list Z;
  raising : list Z
}.

Definition on_faulty {A : Type}
  (f : Faulty.World → result A * Faulty.World) (w : World)
  : result A * World :=
  let (r, b) := f (faulty w) in
  (r, {| faulty := b; desktops := desktops w;
         create_error := create_error w; refused := refused w;
         raising := raising w |}).

#[global] Instance windows : Windows World := {|
  vd_current := on_faulty vd_current;
  vd_desktop n := on_faulty (vd_desktop n);
  vd_go n := on_faulty (vd_go n);
  get_foreground_window := on_faulty get_foreground_window;
  get_window_text hwnd := on_faulty (get_window_text hwnd);
  app_view hwnd := on_faulty (app_view hwnd);
  av_move hwnd n := on_faulty (av_move hwnd n);
  av_is_pinned hwnd := on_faulty (av_is_pinned hwnd);
  av_pin hwnd := on_faulty (av_pin hwnd);
  enum_display_monitors := on_faulty enum_display_monitors;
  wx_create_frame number x y := on_faulty (wx_create_frame number x y);
  wx_close_frame i := on_faulty (wx_close_frame i);
  unregister_hot_key hotkey_id := on_faulty (unregister_hot_key hotkey_id);
  join_thread := on_faulty join_thread;
  wx_destroy_frame := on_faulty wx_destroy_frame
|}.

Definition create (w : World) : result unit * World :=
  match create_error w with
  | Some e => (Raise e, w)
  | None =>
      (Ok tt,
       {| faulty := faulty w;
          desktops := desktops w ++ [Z.of_nat (S (length (desktops w)))];
          create_error := create_error w; refused := refused w;
          raising := raising w |})
  end.

Definition register (hotkey_id : Z) (w : World) : result bool * World :=
  if bool_decide (hotkey_id ∈ raising w)
  then (Raise "RegisterHotKey: invalid window"%string, w)
  else (Ok (bool_decide (hotkey_id ∉ refused w)), w).

#[global] Instance startup : Startup World := {|
  get_virtual_desktops w := (Ok (desktops w), w);
  vd_create := create;
  register_hot_key hotkey_id _ _ := register hotkey_id
|}.

(** Desktop 3 of four is active; these registrations are refused and
    these raise. *)
Definition make (refuse raise : list Z) : World :=
  {| faulty := Faulty.make 3 None None 0; desktops := [1; 2; 3; 4];
     create_error := None; refused := refuse; raising := raise |}.

(** The frame before [register_hotkeys]. *)
Definition blank : DodoFrame :=
  {| hotkey_ids := []; hotkey_desktop_map := ∅; hotkey_move_map := ∅;
     hotkey_previous_desktop_id := None; hotkey_pin_id := None;
     running := true; dodo_thread := None; destroyed := false |}.

(** The program before [register_hotkeys], in this world. *)
Definition boot (w : World) : App World :=
  {| core :=
       {| world := w;
          vda := {| current_desktop_number := Some 3;
                    previous_desktop_number := None;
                    frame := true |};
          gui := blank; screen := []; managers := ∅; timers := ∅;
          next_id := 0; call_after := []; calls := []; stdout := [] |};
     startup_calls := []; startup_out := []; hotkey_bound := false |}.

End Desk.

(** * The desktop-switch tracker *)

Section Tracker.
Context {W : Type} `{Windows W}.

Implicit Types (s : State W) (n m c : Z).

Lemma in_range_test n : 1 <= n <= 10 → (n <? 1) || (n >? 10) = false.
Proof.
  intros [? ?]. rewrite Z.gtb_ltb.
  destruct (Z.ltb_spec n 1), (Z.ltb_spec 10 n); simpl; lia || reflexivity.
Qed.

Lemma out_of_range_test n : n < 1 ∨ n > 10 → (n <? 1) || (n >? 10) = true.
Proof.
  intros ?. rewrite Z.gtb_ltb.
  destruct (Z.ltb_spec n 1), (Z.ltb_spec 10 n); simpl; lia || reflexivity.
Qed.

(** Unfold the monad down to functions on the state. *)
Ltac run :=
  unfold switch_to_previous_desktop, switch_desktop_by_number,
    move_window_to_desktop, pin_window, try_except, os, print, wx_call_after,
    set_current_desktop_number, set_previous_desktop_number, modify, gets,
    skip, after;
  unfold mbind, mret, M_bind, M_ret; cbn.

(** A switch that Windows carries out. *)
Lemma switch_ok n c s w' :
  1 <= n <= 10 → c ≠ n → os_switches (world s) c n w' →
  switch_desktop_by_number n s =
    (Ok tt, after s w'
       {| current_desktop_number := Some n;
          previous_desktop_number := Some c;
          frame := frame (vda s) |}
       (if frame (vda s) then [n] else [])
       [CurrentDesktop; MakeDesktop n; Go n] []).
Proof.
  intros Hn Hc (w1 & w2 & H1 & H2 & H3). run.
  rewrite (in_range_test n Hn), H1. cbn.
  destruct (Z.eqb_spec c n) as [|_]; [done|]. cbn.
  rewrite H2. cbn. rewrite H3. cbn.
  destruct (frame (vda s)); cbn; by rewrite <- ?app_assoc, ?app_nil_r.
Qed.

(** A switch to the desktop Windows reports as current. *)
Lemma switch_already n s w1 :
  1 <= n <= 10 → vd_current (world s) = (Ok n, w1) →
  switch_desktop_by_number n s =
    (Ok tt, after s w1
       {| current_desktop_number := Some n;
          previous_desktop_number := previous_desktop_number (vda s);
          frame := frame (vda s) |}
       [] [CurrentDesktop] [Already_on_desktop n]).
Proof.
  intros Hn H1. run. rewrite (in_range_test n Hn), H1. cbn.
  rewrite Z.eqb_refl. cbn. by rewrite !app_nil_r.
Qed.

(** A switch in which building the desktop or going to it raises. *)
Lemma switch_fails n c e s w' :
  1 <= n <= 10 → c ≠ n → os_switch_fails (world s) c n e w' →
  ∃ made,
    switch_desktop_by_number n s =
      (Ok tt, after s w'
         {| current_desktop_number := Some c;
            previous_desktop_number := previous_desktop_number (vda s);
            frame := frame (vda s) |}
         [] made [Error_switching n e]) ∧
    (made = [CurrentDesktop; MakeDesktop n] ∨
     made = [CurrentDesktop; MakeDesktop n; Go n]).
Proof.
  intros Hn Hc (w1 & H1 & [H2 | (w2 & H2 & H3)]).
  - exists [CurrentDesktop; MakeDesktop n]. split; [|by left]. run.
    rewrite (in_range_test n Hn), H1. cbn.
    destruct (Z.eqb_spec c n) as [|_]; [done|]. cbn.
    rewrite H2. cbn. by rewrite <- ?app_assoc, ?app_nil_r.
  - exists [CurrentDesktop; MakeDesktop n; Go n]. split; [|by right]. run.
    rewrite (in_range_test n Hn), H1. cbn.
    destruct (Z.eqb_spec c n) as [|_]; [done|]. cbn.
    rewrite H2. cbn. rewrite H3. cbn. by rewrite <- ?app_assoc, ?app_nil_r.
Qed.

(** With a previous desktop recorded, [switch_to_previous_desktop] is a
    switch to that desktop. *)
Lemma previous_delegates s target :
  previous_desktop_number (vda s) = Some target →
  switch_to_previous_desktop s = switch_desktop_by_number target s.
Proof.
  intros Hp. unfold switch_to_previous_desktop, gets.
  unfold mbind, M_bind. cbn. by rewrite Hp.
Qed.

(** A pin request for a window that Windows reports as pinned. *)
Lemma pin_already s hwnd title w' :
  hwnd ≠ 0 → os_inspects (world s) hwnd title true w' →
  pin_window s =
    (Ok tt, after s w' (vda s) []
       [GetForegroundWindow; GetWindowText hwnd; MakeAppView hwnd;
        IsPinned hwnd]
       [Window_already_pinned title]).
Proof.
  intros Hh (w1 & w2 & w3 & H1 & H2 & H3 & H4). run. rewrite H1. cbn.
  destruct (Z.eqb_spec hwnd 0) as [|_]; [done|]. cbn.
  rewrite H2. cbn. rewrite H3. cbn. rewrite H4. cbn.
  destruct s; cbn. by rewrite <- ?app_assoc, ?app_nil_r.
Qed.

(** A pin request for a window that is not pinned, carried out. *)
Lemma pin_ok s hwnd title wa wb :
  hwnd ≠ 0 → os_inspects (world s) hwnd title false wa →
  av_pin hwnd wa = (Ok tt, wb) →
  pin_window s =
    (Ok tt, after s wb (vda s) []
       [GetForegroundWindow; GetWindowText hwnd; MakeAppView hwnd;
        IsPinned hwnd; Pin hwnd]
       [Pinned_window title]).
Proof.
  intros Hh (w1 & w2 & w3 & H1 & H2 & H3 & H4) H5. run. rewrite H1. cbn.
  destruct (Z.eqb_spec hwnd 0) as [|_]; [done|]. cbn.
  rewrite H2. cbn. rewrite H3. cbn. rewrite H4. cbn. rewrite H5. cbn.
  destruct s; cbn. by rewrite <- ?app_assoc, ?app_nil_r.
Qed.

(** C1.  For distinct desktops [m] and [n] in 1..10: when Windows
    reports [m] as current and carries the switch to [n] out, [previous]
    is [m] and [current] is [n] afterwards.  A following
    [switch_to_previous_desktop] is the switch to [m], and when Windows
    carries it out [previous] is [n] and [current] is [m]; one more goes
    back to [n], so the calls toggle between the two desktops.  No line is
    printed: no call fails. *)
Theorem switch_then_previous_toggles m n s wa wb wc :
  1 <= m <= 10 → 1 <= n <= 10 → m ≠ n →
  os_switches (world s) m n wa →
  os_switches wa n m wb →
  os_switches wb m n wc →
  ∃ s1 s2 s3,
    switch_desktop_by_number n s = (Ok tt, s1) ∧
    previous_desktop_number (vda s1) = Some m ∧
    current_desktop_number (vda s1) = Some n ∧
    switch_to_previous_desktop s1 = switch_desktop_by_number m s1 ∧
    switch_to_previous_desktop s1 = (Ok tt, s2) ∧
    previous_desktop_number (vda s2) = Some n ∧
    current_desktop_number (vda s2) = Some m ∧
    switch_to_previous_desktop s2 = switch_desktop_by_number n s2 ∧
    switch_to_previous_desktop s2 = (Ok tt, s3) ∧
    previous_desktop_number (vda s3) = Some m ∧
    current_desktop_number (vda s3) = Some n ∧
    stdout s3 = stdout s ∧
    calls s3 = calls s ++ [CurrentDesktop; MakeDesktop n; Go n;
                           CurrentDesktop; MakeDesktop m; Go m;
                           CurrentDesktop; MakeDesktop n; Go n].
Proof.
  intros Hm Hn Hmn Ha Hb Hc.
  pose proof (switch_ok n m s wa Hn Hmn Ha) as E1.
  set (s1 := after s wa _ _ _ _) in E1.
  assert (previous_desktop_number (vda s1) = Some m) as P1 by done.
  pose proof (switch_ok m n s1 wb Hm (not_eq_sym Hmn) Hb) as E2.
  set (s2 := after s1 wb _ _ _ _) in E2.
  assert (previous_desktop_number (vda s2) = Some n) as P2 by done.
  pose proof (switch_ok n m s2 wc Hn Hmn Hc) as E3.
  set (s3 := after s2 wc _ _ _ _) in E3.
  exists s1, s2, s3.
  rewrite (previous_delegates s1 m P1), (previous_delegates s2 n P2).
  repeat split; try done.
  - subst s3 s2 s1. cbn. by rewrite !app_nil_r.
  - subst s3 s2 s1. cbn. by rewrite <- !app_assoc.
Qed.

(** C2, as the code has it.  For [n] in 1..10: when building the desktop
    or going to it raises during [switch_desktop_by_number n], the method
    prints the error line, queues no overlay and leaves [previous] as it
    was; [current] holds the desktop Windows reported at the start of the
    call, so the accessor is unchanged exactly when the cached number was
    that desktop. *)
Theorem failed_switch_keeps_previous n c e s w' :
  1 <= n <= 10 → c ≠ n → os_switch_fails (world s) c n e w' →
  ∃ s',
    switch_desktop_by_number n s = (Ok tt, s') ∧
    stdout s' = stdout s ++ [Error_switching n e] ∧
    call_after s' = call_after s ∧
    previous_desktop_number (vda s') = previous_desktop_number (vda s) ∧
    current_desktop_number (vda s') = Some c ∧
    (vda s' = vda s ↔ current_desktop_number (vda s) = Some c).
Proof.
  intros Hn Hc Hf.
  destruct (switch_fails n c e s w' Hn Hc Hf) as (made & E & _).
  eexists. split; [exact E|]. cbn. rewrite app_nil_r.
  repeat split; try done.
  - intros <-. done.
  - intros Hcur. destruct (vda s) as [cur prev fr]. cbn in *. by subst cur.
Qed.

(** C4.  For [n] in 1..10: when Windows reports [n] as the current
    desktop, [switch_desktop_by_number n] prints that it is already
    there, asks Windows nothing else (no desktop is built or gone to),
    queues no overlay and does not change [previous]; a second such call
    leaves the accessor as the first left it. *)
Theorem switch_to_current_is_noop n s w1 w2 :
  1 <= n <= 10 →
  vd_current (world s) = (Ok n, w1) →
  vd_current w1 = (Ok n, w2) →
  ∃ s1 s2,
    switch_desktop_by_number n s = (Ok tt, s1) ∧
    stdout s1 = stdout s ++ [Already_on_desktop n] ∧
    previous_desktop_number (vda s1) = previous_desktop_number (vda s) ∧
    calls s1 = calls s ++ [CurrentDesktop] ∧
    call_after s1 = call_after s ∧
    screen s1 = screen s ∧
    switch_desktop_by_number n s1 = (Ok tt, s2) ∧
    vda s2 = vda s1 ∧
    calls s2 = calls s1 ++ [CurrentDesktop] ∧
    call_after s2 = call_after s ∧
    screen s2 = screen s ∧
    List.filter is_go (calls s2) = List.filter is_go (calls s).
Proof.
  intros Hn H1 H2.
  pose proof (switch_already n s w1 Hn H1) as E1.
  set (s1 := after s w1 _ _ _ _) in E1.
  pose proof (switch_already n s1 w2 Hn H2) as E2.
  set (s2 := after s1 w2 _ _ _ _) in E2.
  exists s1, s2. subst s2 s1. cbn. rewrite !app_nil_r.
  repeat split; try done.
  rewrite !List.filter_app. cbn. by rewrite !app_nil_r.
Qed.

(** C6.  For every [n] outside 1..10, [switch_desktop_by_number n] and
    [move_window_to_desktop n] print that the number is invalid and
    change nothing else: no OS call is made and the accessor keeps
    [current] and [previous]. *)
Theorem invalid_number_changes_nothing n s :
  n < 1 ∨ n > 10 →
  switch_desktop_by_number n s =
    (Ok tt, after s (world s) (vda s) [] [] [Invalid_desktop_number n]) ∧
  move_window_to_desktop n s =
    (Ok tt, after s (world s) (vda s) [] [] [Invalid_desktop_number n]).
Proof.
  intros Hn. run. rewrite (out_of_range_test n Hn). cbn.
  by rewrite !app_nil_r.
Qed.

(** C7.  In every state in which [previous_desktop_number] is [None],
    [switch_to_previous_desktop] prints that no previous desktop is
    recorded and changes nothing else. *)
Theorem no_previous_desktop_changes_nothing s :
  previous_desktop_number (vda s) = None →
  switch_to_previous_desktop s =
    (Ok tt, after s (world s) (vda s) [] [] [No_previous_desktop]).
Proof.
  intros Hp. run. rewrite Hp. cbn. by rewrite !app_nil_r.
Qed.

(** C8, as the code has it.  When there is a foreground window that
    Windows reports as not pinned, the pin call succeeds and Windows then
    reports the window as pinned, two calls of [pin_window] in a row print
    "pinned" and then "already pinned", the pin primitive is called once,
    by the first, and the second does not call it. *)
Theorem pin_twice_pins_once s hwnd title title' wa wb wc :
  hwnd ≠ 0 →
  os_inspects (world s) hwnd title false wa →
  av_pin hwnd wa = (Ok tt, wb) →
  os_inspects wb hwnd title' true wc →
  ∃ s1 s2,
    pin_window s = (Ok tt, s1) ∧
    stdout s1 = stdout s ++ [Pinned_window title] ∧
    pin_window s1 = (Ok tt, s2) ∧
    stdout s2 = stdout s1 ++ [Window_already_pinned title'] ∧
    List.filter is_pin (calls s1) = List.filter is_pin (calls s) ++ [Pin hwnd] ∧
    List.filter is_pin (calls s2) = List.filter is_pin (calls s1).
Proof.
  intros Hh Ha Hb Hc.
  pose proof (pin_ok s hwnd title wa wb Hh Ha Hb) as E1.
  set (s1 := after s wb _ _ _ _) in E1.
  pose proof (pin_already s1 hwnd title' wc Hh Hc) as E2.
  set (s2 := after s1 wc _ _ _ _) in E2.
  exists s1, s2. subst s2 s1. cbn.
  repeat split; try done.
  - by rewrite List.filter_app.
  - rewrite List.filter_app. cbn. by rewrite app_nil_r.
Qed.

(** C9.  For [n] in 1..10, whatever Windows answers,
    [move_window_to_desktop n] returns with the accessor, and so [current]
    and [previous], as it found them and with nothing queued for an
    overlay, and no overlay appears; it prints that no window is active,
    or that the window was moved, or an error of the move. *)
Theorem move_keeps_tracker n s :
  1 <= n <= 10 →
  ∃ s' printed,
    move_window_to_desktop n s = (Ok tt, s') ∧
    vda s' = vda s ∧
    call_after s' = call_after s ∧
    screen s' = screen s ∧
    managers s' = managers s ∧
    timers s' = timers s ∧
    stdout s' = stdout s ++ printed ∧
    (printed = [No_active_window] ∨
     (∃ title, printed = [Moving_window title; Moved_window n]) ∨
     (∃ e, printed = [Error_moving n e]) ∨
     (∃ title e, printed = [Moving_window title; Error_moving n e])).
Proof.
  intros Hn. run. rewrite (in_range_test n Hn).
  destruct (get_foreground_window (world s)) as [[hwnd|e] w1]; cbn;
    [|eexists _, [_]; repeat split; eauto].
  destruct (Z.eqb_spec hwnd 0) as [_|_]; cbn;
    [eexists _, [_]; repeat split; eauto|].
  destruct (get_window_text hwnd w1) as [[title|e] w2]; cbn;
    [|eexists _, [_]; repeat split; eauto].
  destruct (app_view hwnd w2) as [[[]|e] w3]; cbn;
    [|eexists _, [_; _]; repeat split; rewrite <- ?app_assoc; eauto 7].
  destruct (vd_desktop n w3) as [[[]|e] w4]; cbn;
    [|eexists _, [_; _]; repeat split; rewrite <- ?app_assoc; eauto 7].
  destruct (av_move hwnd n w4) as [[[]|e] w5]; cbn;
    eexists _, [_; _]; repeat split; rewrite <- ?app_assoc; eauto 7.
Qed.

(** C10.  For [n] in 1..10, a [switch_desktop_by_number n] that got the
    current desktop from Windows leaves that live number in [current] on
    the path that finds it is already there and on the path where
    building the desktop or going to it raises, whatever number was
    cached before; [previous] keeps its value on both paths. *)
Theorem switch_refreshes_current n s :
  1 <= n <= 10 →
  (∀ w1, vd_current (world s) = (Ok n, w1) →
     ∃ s', switch_desktop_by_number n s = (Ok tt, s') ∧
           stdout s' = stdout s ++ [Already_on_desktop n] ∧
           current_desktop_number (vda s') = Some n ∧
           previous_desktop_number (vda s') =
             previous_desktop_number (vda s)) ∧
  (∀ c e w', c ≠ n → os_switch_fails (world s) c n e w' →
     ∃ s', switch_desktop_by_number n s = (Ok tt, s') ∧
           stdout s' = stdout s ++ [Error_switching n e] ∧
           current_desktop_number (vda s') = Some c ∧
           previous_desktop_number (vda s') =
             previous_desktop_number (vda s)).
Proof.
  intros Hn. split.
  - intros w1 H1. eexists. split; [by apply switch_already|done].
  - intros c e w' Hc Hf.
    destruct (switch_fails n c e s w' Hn Hc Hf) as (made & E & _).
    eexists. split; [exact E|done].
Qed.

End Tracker.

(** * The overlays *)

Section Overlays.
Context {W : Type} `{Windows W}.

Implicit Types (s : State W) (number : Z) (self : nat).

Ltac run_gui :=
  unfold show_desktop_overlay, new_manager, on_timer, fire_timer, get_all,
    new_overlay, close, set_overlays, set_timer, fresh, try_except, os, print,
    modify, gets, skip;
  unfold mbind, mret, M_bind, M_ret; cbn.

Lemma alter_present {A : Type} (f : A → A) (m : gmap nat A) i x :
  m !! i = Some x → alter f i m = <[i := f x]> m.
Proof.
  intros Hx. apply map_eq. intros j. rewrite lookup_alter, lookup_insert.
  case_decide; [subst j; by rewrite Hx|done].
Qed.

(** *** Methods that do not touch the overlays *)

Lemma keeps_ret {A : Type} (a : A) : keeps_overlays (mret a : M W A).
Proof. by intros s. Qed.

Lemma keeps_bind {A B : Type} (m : M W A) (f : A → M W B) :
  keeps_overlays m → (∀ a, keeps_overlays (f a)) → keeps_overlays (m ≫= f).
Proof.
  intros Hm Hf s. unfold mbind, M_bind. specialize (Hm s).
  destruct (m s) as [[a|e] s1]; cbn in *; [|done].
  by rewrite Hf.
Qed.

Lemma keeps_try {A : Type} (body : M W A) (handler : exn → M W A) :
  keeps_overlays body → (∀ e, keeps_overlays (handler e)) →
  keeps_overlays (try_except body handler).
Proof.
  intros Hb Hh s. unfold try_except. specialize (Hb s).
  destruct (body s) as [[a|e] s1]; cbn in *; [done|].
  by rewrite Hh.
Qed.

Lemma keeps_os {A : Type} (c : Call) (f : W → result A * W) :
  keeps_overlays (os c f).
Proof. intros s. unfold os. by destruct (f (world s)). Qed.

Lemma keeps_gets {A : Type} (f : State W → A) : keeps_overlays (gets f).
Proof. by intros s. Qed.

Lemma keeps_modify (f : State W → State W) :
  (∀ s, overlay_state (f s) = overlay_state s) → keeps_overlays (modify f).
Proof. intros Hf s. apply Hf. Qed.

Lemma keeps_for_each {A : Type} (l : list A) (body : A → M W unit) :
  (∀ x, keeps_overlays (body x)) → keeps_overlays (for_each l body).
Proof.
  intros Hb. induction l as [|x l IH]; cbn; [apply keeps_ret|].
  apply keeps_bind; [apply Hb|by intros _].
Qed.

(** Take a method apart along its binds, handlers and branches. *)
Ltac keep :=
  repeat first
    [ apply keeps_ret
    | apply keeps_os
    | apply keeps_gets
    | apply keeps_modify; done
    | apply keeps_bind; [|intros ?]
    | apply keeps_try; [|intros ?]
    | apply keeps_for_each; intros ?
    | match goal with
      | |- keeps_overlays (if ?b then _ else _) => destruct b
      | |- keeps_overlays (match ?x with _ => _ end) => destruct x
      end ].

Lemma switch_keeps_overlays number :
  keeps_overlays (switch_desktop_by_number number).
Proof.
  unfold switch_desktop_by_number, print, wx_call_after, skip,
    set_current_desktop_number, set_previous_desktop_number.
  keep.
Qed.

Lemma move_keeps_overlays number :
  keeps_overlays (move_window_to_desktop number).
Proof. unfold move_window_to_desktop, print. keep. Qed.

Lemma pin_keeps_overlays : keeps_overlays pin_window.
Proof. unfold pin_window, print. keep. Qed.

Lemma previous_keeps_overlays : keeps_overlays switch_to_previous_desktop.
Proof.
  unfold switch_to_previous_desktop, print. keep.
  apply switch_keeps_overlays.
Qed.

Lemma on_hotkey_keeps_overlays hotkey_id : keeps_overlays (on_hotkey hotkey_id).
Proof.
  unfold on_hotkey, skip. keep;
    auto using switch_keeps_overlays, move_keeps_overlays,
      previous_keeps_overlays, pin_keeps_overlays.
Qed.

Lemma on_close_keeps_overlays : keeps_overlays on_close.
Proof.
  unfold on_close, join, run_loop_wakes, cleanup, print, skip,
    set_running, set_dodo_thread, set_destroyed.
  keep.
Qed.

(** *** The batch of one manager *)

Lemma batch_length number first monitors :
  length (batch number first monitors) = length monitors.
Proof.
  revert first. induction monitors as [|m ms IH]; intros first; cbn;
    [done|by rewrite IH].
Qed.

(** The loop of [__init__] when every frame can be built. *)
Lemma create_loop number self monitors : ∀ s acc tm w',
  managers s !! self = Some {| overlays := acc; timer := tm |} →
  os_creates number monitors (world s) w' →
  for_each monitors (fun monitor =>
    overlay ← new_overlay number (left monitor + 20) (top monitor + 20);
    l ← gets (manager_overlays self);
    set_overlays self (l ++ [overlay])) s =
  (Ok tt,
   {| world := w'; vda := vda s; gui := gui s;
      screen := screen s ++ batch number (next_id s) monitors;
      managers :=
        <[self := {| overlays := acc ++ batch number (next_id s) monitors;
                     timer := tm |}]> (managers s);
      timers := timers s;
      next_id := (next_id s + length monitors)%nat;
      call_after := call_after s;
      calls := calls s ++ (create_call number <$> monitors);
      stdout := stdout s |}).
Proof.
  induction monitors as [|m ms IH]; intros s acc tm w' Hself Hos.
  - cbn in Hos. subst w'. cbn. unfold skip, mret, M_ret.
    rewrite !app_nil_r, Nat.add_0_r, (insert_id _ _ _ Hself).
    by destruct s.
  - destruct Hos as (w1 & Hm & Hms). cbn [for_each].
    unfold mbind at 1. unfold M_bind at 1.
    run_gui. rewrite Hm. cbn. unfold manager_overlays. cbn.
    rewrite Hself. cbn.
    erewrite IH; [|cbn; rewrite (alter_present _ _ _ _ Hself);
                    apply lookup_insert_eq|exact Hms].
    cbn. rewrite (alter_present _ _ _ _ Hself), insert_insert_eq.
    unfold create_call at 2.
    by rewrite <- !app_assoc, Nat.add_succ_r.
Qed.

(** The loop of [__init__] when the frame of one monitor cannot be
    built: the exception leaves the loop at that monitor. *)
Lemma create_loop_fails number self before bad rest e : ∀ s acc tm w1 w2,
  managers s !! self = Some {| overlays := acc; timer := tm |} →
  os_creates number before (world s) w1 →
  wx_create_frame number (left bad + 20) (top bad + 20) w1 = (Raise e, w2) →
  for_each (before ++ bad :: rest) (fun monitor =>
    overlay ← new_overlay number (left monitor + 20) (top monitor + 20);
    l ← gets (manager_overlays self);
    set_overlays self (l ++ [overlay])) s =
  (Raise e,
   {| world := w2; vda := vda s; gui := gui s;
      screen := screen s ++ batch number (next_id s) before;
      managers :=
        <[self := {| overlays := acc ++ batch number (next_id s) before;
                     timer := tm |}]> (managers s);
      timers := timers s;
      next_id := (next_id s + length before)%nat;
      call_after := call_after s;
      calls := calls s ++ (create_call number <$> before ++ [bad]);
      stdout := stdout s |}).
Proof.
  induction before as [|m ms IH]; intros s acc tm w1 w2 Hself Hos Hbad.
  - cbn in Hos. subst w1. cbn [app for_each].
    unfold mbind at 1. unfold M_bind at 1.
    run_gui. rewrite Hbad. cbn.
    rewrite !app_nil_r, Nat.add_0_r, (insert_id _ _ _ Hself).
    by destruct s.
  - destruct Hos as (w0 & Hm & Hms). cbn [app for_each].
    unfold mbind at 1. unfold M_bind at 1.
    run_gui. rewrite Hm. cbn. unfold manager_overlays. cbn.
    rewrite Hself. cbn.
    erewrite IH; [|cbn; rewrite (alter_present _ _ _ _ Hself);
                    apply lookup_insert_eq|exact Hms|exact Hbad].
    cbn. rewrite (alter_present _ _ _ _ Hself), insert_insert_eq.
    unfold create_call at 3.
    by rewrite <- !app_assoc, Nat.add_succ_r.
Qed.

(** [DesktopNumberOverlayManager(number)] when every frame can be
    built. *)
Lemma new_manager_ok number s rects w1 w2 :
  enum_display_monitors (world s) = (Ok rects, w1) →
  os_creates number (enumerated rects) w1 w2 →
  let self := next_id s in
  let monitors := enumerated rects in
  let created := batch number (S self) monitors in
  let t := (S self + length monitors)%nat in
  new_manager number s =
  (Ok self,
   {| world := w2; vda := vda s; gui := gui s;
      screen := screen s ++ created;
      managers :=
        <[self := {| overlays := created;
                     timer := match monitors with
                              | [] => None
                              | _ :: _ => Some t
                              end |}]> (managers s);
      timers :=
        match monitors with
        | [] => timers s
        | _ :: _ =>
            <[t := {| owner := self; interval := 1500; one_shot := true |}]>
              (timers s)
        end;
      next_id := match monitors with
                 | [] => t
                 | _ :: _ => S t
                 end;
      call_after := call_after s;
      calls := calls s ++ EnumDisplayMonitors :: (create_call number <$> monitors);
      stdout := stdout s |}).
Proof.
  intros Henum Hos self monitors created t.
  unfold new_manager. unfold mbind at 1. unfold M_bind at 1.
  unfold fresh at 1. cbn beta iota.
  unfold mbind at 1. unfold M_bind at 1. unfold modify at 1. cbn beta iota.
  unfold mbind at 1. unfold M_bind at 1.
  unfold get_all, os at 1. unfold mbind at 1. unfold M_bind at 1.
  cbn. rewrite Henum. cbn. fold (enumerated rects). fold monitors.
  unfold mbind at 1. unfold M_bind at 1.
  erewrite create_loop; [|cbn; apply lookup_insert_eq|exact Hos].
  cbn. unfold mbind, M_bind, gets, manager_overlays. cbn.
  rewrite lookup_insert_eq, insert_insert_eq. cbn.
  fold self monitors created.
  destruct monitors as [|m ms] eqn:Hmon.
  - subst created t. cbn. unfold skip, mret, M_ret. cbn.
    by rewrite Nat.add_0_r, <- !app_assoc.
  - subst created. cbn [batch]. unfold set_timer, modify, mret, M_ret. cbn.
    rewrite (alter_present _ _ _ _ (lookup_insert_eq _ _ _)), insert_insert_eq.
    cbn. subst t. cbn [length].
    unfold set_timers, set_managers, set_next_id. cbn.
    by rewrite <- !app_assoc.
Qed.

(** [Monitor.get_all] makes one monitor per enumerated rectangle, in
    order, and numbers them from 0. *)
Lemma enumerated_from acc rects :
  fold_left (fun monitors r => enum_monitors_callback monitors r.1 r.2)
            rects acc =
  acc ++ imap (fun i r =>
                 {| index := length acc + i; handle := r.1;
                    left := r.2.1.1.1; top := r.2.1.1.2;
                    width := r.2.1.2 - r.2.1.1.1;
                    height := r.2.2 - r.2.1.1.2 |}) rects.
Proof.
  revert acc. induction rects as [|[h [[[l t] r] b]] rects IH]; intros acc.
  - cbn. by rewrite app_nil_r.
  - cbn [fold_left]. rewrite IH. unfold enum_monitors_callback. cbn.
    rewrite <- app_assoc. cbn. rewrite Nat.add_0_r. do 2 f_equal.
    apply imap_ext. intros i x _. cbn. rewrite length_app. cbn.
    f_equal. lia.
Qed.

Lemma enumerated_length rects : length (enumerated rects) = length rects.
Proof.
  unfold enumerated. rewrite enumerated_from. cbn. by rewrite length_imap.
Qed.

Lemma overlay_text_digit number :
  1 <= number <= 10 → overlay_text number = digit (number mod 10).
Proof.
  intros Hn.
  assert (number = 1 ∨ number = 2 ∨ number = 3 ∨ number = 4 ∨ number = 5 ∨
          number = 6 ∨ number = 7 ∨ number = 8 ∨ number = 9 ∨ number = 10)
    as Hcases by lia.
  repeat (destruct Hcases as [->|Hcases]; [reflexivity|]).
  by subst number.
Qed.

Lemma batch_shape number first monitors :
  Forall2 (fun monitor overlay =>
             position overlay = (left monitor + 20, top monitor + 20) ∧
             desktop_number overlay = number)
          monitors (batch number first monitors).
Proof.
  revert first. induction monitors as [|m ms IH]; intros first; cbn;
    constructor; [done|apply IH].
Qed.

(** The loop of [on_timer]: every overlay of the list is asked to close
    and a failure is passed over, so the loop ends and only removes frames
    from the screen. *)
Lemma close_loop_best_effort l : ∀ s,
  ∃ s', for_each l (fun overlay =>
          try_except (close overlay) (fun _ => skip)) s = (Ok tt, s') ∧
        managers s' = managers s ∧ timers s' = timers s ∧
        vda s' = vda s ∧ call_after s' = call_after s ∧
        stdout s' = stdout s ∧
        (∀ o, o ∈ screen s' → o ∈ screen s).
Proof.
  induction l as [|x l IH]; intros s.
  - exists s. by cbn.
  - cbn [for_each]. unfold mbind at 1. unfold M_bind at 1. run_gui.
    destruct (wx_close_frame (oid x) (world s)) as [[[]|e] w1]; cbn.
    + edestruct IH as (s' & -> & ? & ? & ? & ? & ? & Hscr).
      eexists. repeat split; try done.
      intros o Ho. apply Hscr in Ho. cbn in Ho.
      by apply list_elem_of_filter in Ho as [_ ?].
    + edestruct IH as (s' & -> & ? & ? & ? & ? & ? & Hscr).
      eexists. repeat split; try done.
Qed.

(** The loop of [on_timer] when every frame closes: no frame of the list
    is left on the screen. *)
Lemma close_loop_ok l : ∀ s w',
  os_closes l (world s) w' →
  ∃ s', for_each l (fun overlay =>
          try_except (close overlay) (fun _ => skip)) s = (Ok tt, s') ∧
        world s' = w' ∧
        calls s' = calls s ++ (CloseFrame ∘ oid <$> l) ∧
        (∀ o, o ∈ screen s' ↔ o ∈ screen s ∧ oid o ∉ oid <$> l).
Proof.
  induction l as [|x l IH]; intros s w' Hos.
  - cbn in Hos. subst w'. exists s. cbn. rewrite app_nil_r.
    split_and!; try done. intros o. split; [|by intros [? _]].
    intros Ho. split; [done|apply not_elem_of_nil].
  - destruct Hos as (w1 & Hx & Hl).
    cbn [for_each]. unfold mbind at 1. unfold M_bind at 1. run_gui.
    rewrite Hx. cbn.
    edestruct IH as (s' & -> & Hw & Hc & Hscr); [exact Hl|].
    eexists. split_and!; try done.
    + rewrite Hc. cbn. by rewrite <- app_assoc.
    + intros o. rewrite Hscr. cbn.
      rewrite list_elem_of_filter, not_elem_of_cons. tauto.
Qed.

(** [on_timer] empties the list of the manager whatever wx answers, and
    when every frame closes none of them is left on the screen. *)
Lemma on_timer_clears self s :
  ∃ s', on_timer self s = (Ok tt, s') ∧
        manager_overlays self s' = [] ∧
        timers s' = timers s ∧
        (∀ o, o ∈ screen s' → o ∈ screen s) ∧
        (∀ w', os_closes (manager_overlays self s) (world s) w' →
           ∀ o, o ∈ screen s' → oid o ∉ oid <$> manager_overlays self s).
Proof.
  unfold on_timer. unfold mbind at 1. unfold M_bind at 1.
  unfold gets at 1. cbn beta iota.
  unfold mbind at 1. unfold M_bind at 1.
  destruct (close_loop_best_effort (manager_overlays self s) s)
    as (s1 & E1 & Hman & Htim & _ & _ & _ & Hscr).
  rewrite E1. unfold set_overlays, modify. cbn.
  eexists. split_and!; try done.
  - unfold manager_overlays. cbn. rewrite lookup_alter_eq.
    by destruct (managers s1 !! self).
  - intros w' Hos o Ho. cbn in Ho.
    destruct (close_loop_ok _ s w' Hos) as (s2 & E2 & _ & _ & Hscr2).
    rewrite E1 in E2. injection E2 as <-. by apply Hscr2 in Ho as [_ ?].
Qed.

(** C3, as the code has it.  The loop of
    [DesktopNumberOverlayManager.__init__] has no handler of its own: when
    the overlay of one monitor cannot be built, the overlays of the
    monitors enumerated before it are on the screen, no overlay is asked
    for that monitor's successors, and [_show_desktop_overlay] prints the
    error. *)
Theorem failed_overlay_ends_batch number s rects before bad rest e w1 w2 w3 :
  enum_display_monitors (world s) = (Ok rects, w1) →
  enumerated rects = before ++ bad :: rest →
  os_creates number before w1 w2 →
  wx_create_frame number (left bad + 20) (top bad + 20) w2 = (Raise e, w3) →
  ∃ s',
    show_desktop_overlay number s = (Ok tt, s') ∧
    stdout s' = stdout s ++ [Error_showing_overlay e] ∧
    screen s' = screen s ++ batch number (S (next_id s)) before ∧
    calls s' = calls s ++ EnumDisplayMonitors
                 :: (create_call number <$> before ++ [bad]).
Proof.
  intros Henum Hsplit Hos Hbad.
  unfold show_desktop_overlay, try_except, new_manager.
  unfold mbind at 1. unfold M_bind at 1.
  unfold mbind at 1. unfold M_bind at 1.
  unfold fresh at 1. cbn beta iota.
  unfold mbind at 1. unfold M_bind at 1. unfold modify at 1. cbn beta iota.
  unfold mbind at 1. unfold M_bind at 1.
  unfold get_all, os at 1. unfold mbind at 1. unfold M_bind at 1.
  cbn. rewrite Henum. cbn. fold (enumerated rects). rewrite Hsplit.
  unfold mbind at 1. unfold M_bind at 1.
  erewrite create_loop_fails;
    [|cbn; apply lookup_insert_eq|exact Hos|exact Hbad].
  cbn. eexists. split_and!; try done.
  by rewrite <- !app_assoc.
Qed.

(** C5, as the code has it.  For every list of monitors Windows
    enumerates and every desktop number in 1..10, when wx builds every
    frame, [DesktopNumberOverlayManager(number)] puts on the screen one
    overlay per monitor, at the monitor's left and top plus 20, showing
    "0" for 10 and the digit of the number otherwise, and, when there is a
    monitor, starts one one-shot timer of 1500 ms for the batch.  When
    that timer fires, the manager's list is empty and the timer is gone,
    no frame has been added to the screen, and when wx closes every frame
    none of the batch remains on it.  Nothing cancels a batch early: the
    manager has no other method, and neither [on_close] nor any hotkey
    touches the screen, the managers or the timers. *)
Theorem overlays_created_and_expire number s rects w1 w2 :
  1 <= number <= 10 →
  enum_display_monitors (world s) = (Ok rects, w1) →
  os_creates number (enumerated rects) w1 w2 →
  ∃ self s' created,
    new_manager number s = (Ok self, s') ∧
    manager_overlays self s' = created ∧
    screen s' = screen s ++ created ∧
    length created = length rects ∧
    Forall2 (fun monitor overlay =>
               position overlay = (left monitor + 20, top monitor + 20) ∧
               text overlay = digit (number mod 10))
            (enumerated rects) created ∧
    (created = [] → manager_timer self s' = None ∧ timers s' = timers s) ∧
    (created ≠ [] →
       ∃ t, manager_timer self s' = Some t ∧
            timers s' =
              <[t := {| owner := self; interval := 1500; one_shot := true |}]>
                (timers s)) ∧
    (∀ t st,
       timers st !! t =
         Some {| owner := self; interval := 1500; one_shot := true |} →
       manager_overlays self st = created →
       ∃ st',
         fire_timer t st = (Ok tt, st') ∧
         manager_overlays self st' = [] ∧
         timers st' !! t = None ∧
         (∀ o, o ∈ screen st' → o ∈ screen st) ∧
         (∀ w', os_closes created (world st) w' →
            ∀ o, o ∈ screen st' → oid o ∉ oid <$> created)) ∧
    keeps_overlays (on_close (W := W)) ∧
    (∀ hotkey_id, keeps_overlays (on_hotkey (W := W) hotkey_id)).
Proof.
  intros Hn Henum Hos.
  pose proof (new_manager_ok number s rects w1 w2 Henum Hos) as E.
  cbn zeta in E.
  eexists _, _, (batch number (S (next_id s)) (enumerated rects)).
  split; [exact E|]. split_and!.
  - unfold manager_overlays. cbn. by rewrite lookup_insert_eq.
  - done.
  - by rewrite batch_length, enumerated_length.
  - eapply Forall2_impl; [apply batch_shape|].
    intros m o [Hpos Hnum]. split; [done|].
    unfold text. rewrite Hnum. by apply overlay_text_digit.
  - intros Hnil. unfold manager_timer. cbn. rewrite lookup_insert_eq. cbn.
    by destruct (enumerated rects).
  - intros Hne. unfold manager_timer. cbn. rewrite lookup_insert_eq. cbn.
    destruct (enumerated rects); [done|]. by eexists.
  - intros t st Ht Hst. unfold fire_timer.
    unfold mbind at 1. unfold M_bind at 1. unfold gets at 1. cbn beta iota.
    rewrite Ht. cbn [one_shot owner].
    unfold mbind at 1. unfold M_bind at 1. unfold modify at 1. cbn beta iota.
    destruct (on_timer_clears (next_id s) (set_timers (delete t (timers st)) st))
      as (st' & -> & Hclear & Htim & Hscr & Hgone).
    exists st'. split_and!; try done.
    + rewrite Htim. cbn. apply lookup_delete_eq.
    + intros w' Hc o Ho. rewrite <- Hst. eapply Hgone; [|done].
      unfold manager_overlays in *. cbn. by rewrite Hst.
  - apply on_close_keeps_overlays.
  - apply on_hotkey_keeps_overlays.
Qed.

End Overlays.

(** * The theorems at work in the simulated world *)

(** C1 at desktops 3 and 5. *)
Lemma switch_then_previous_toggles_witness :
  ∃ s1 s2 s3,
    switch_desktop_by_number 5 (Sim.start (Sim.world0 3) (Some 3))
      = (Ok tt, s1) ∧
    previous_desktop_number (vda s1) = Some 3 ∧
    current_desktop_number (vda s1) = Some 5 ∧
    switch_to_previous_desktop s1 = switch_desktop_by_number 3 s1 ∧
    switch_to_previous_desktop s1 = (Ok tt, s2) ∧
    previous_desktop_number (vda s2) = Some 5 ∧
    current_desktop_number (vda s2) = Some 3 ∧
    switch_to_previous_desktop s2 = switch_desktop_by_number 5 s2 ∧
    switch_to_previous_desktop s2 = (Ok tt, s3) ∧
    previous_desktop_number (vda s3) = Some 3 ∧
    current_desktop_number (vda s3) = Some 5 ∧
    stdout s3 = [] ∧
    calls s3 = [CurrentDesktop; MakeDesktop 5; Go 5;
                CurrentDesktop; MakeDesktop 3; Go 3;
                CurrentDesktop; MakeDesktop 5; Go 5].
Proof.
  apply (switch_then_previous_toggles 3 5 (Sim.start (Sim.world0 3) (Some 3))
           (Sim.world0 5) (Sim.world0 3) (Sim.world0 5)).
  - lia.
  - lia.
  - lia.
  - exists (Sim.world0 3), (Sim.world0 3). repeat split; reflexivity.
  - exists (Sim.world0 5), (Sim.world0 5). repeat split; reflexivity.
  - exists (Sim.world0 3), (Sim.world0 3). repeat split; reflexivity.
Defined.

(** C2 refuted as written: desktop 3 is active while the accessor still
    caches 2, and [desktop.go()] raises during the switch to 5.  The error
    is printed and [current] has changed from 2 to 3. *)
Lemma failed_switch_changes_current :
  let s := Sim.start (Sim.stuck 3) (Some 2) in
  let s' := (switch_desktop_by_number 5 s).2 in
  stdout s' = [Error_switching 5 "go: element not found"] ∧
  calls s' = [CurrentDesktop; MakeDesktop 5; Go 5] ∧
  previous_desktop_number (vda s') = previous_desktop_number (vda s) ∧
  current_desktop_number (vda s) = Some 2 ∧
  current_desktop_number (vda s') = Some 3 ∧
  current_desktop_number (vda s') ≠ current_desktop_number (vda s).
Proof. cbn. repeat split; try reflexivity. discriminate. Qed.

(** C2 as amended, at the same input. *)
Lemma failed_switch_keeps_previous_witness :
  ∃ s',
    switch_desktop_by_number 5 (Sim.start (Sim.stuck 3) (Some 2))
      = (Ok tt, s') ∧
    stdout s' = [Error_switching 5 "go: element not found"] ∧
    call_after s' = [] ∧
    previous_desktop_number (vda s') = None ∧
    current_desktop_number (vda s') = Some 3 ∧
    (vda s' = vda (Sim.start (Sim.stuck 3) (Some 2)) ↔ Some 2 = Some 3).
Proof.
  apply (failed_switch_keeps_previous 5 3 "go: element not found"
           (Sim.start (Sim.stuck 3) (Some 2)) (Sim.stuck 3)).
  - lia.
  - lia.
  - exists (Sim.stuck 3). split; [reflexivity|].
    right. exists (Sim.stuck 3). split; reflexivity.
Defined.

(** C4 on desktop 3. *)
Lemma switch_to_current_is_noop_witness :
  ∃ s1 s2,
    switch_desktop_by_number 3 (Sim.start (Sim.world0 3) (Some 3))
      = (Ok tt, s1) ∧
    stdout s1 = [Already_on_desktop 3] ∧
    previous_desktop_number (vda s1) = None ∧
    calls s1 = [CurrentDesktop] ∧
    call_after s1 = [] ∧
    screen s1 = [] ∧
    switch_desktop_by_number 3 s1 = (Ok tt, s2) ∧
    vda s2 = vda s1 ∧
    calls s2 = calls s1 ++ [CurrentDesktop] ∧
    call_after s2 = [] ∧
    screen s2 = [] ∧
    List.filter is_go (calls s2) = [].
Proof.
  apply (switch_to_current_is_noop 3 (Sim.start (Sim.world0 3) (Some 3))
           (Sim.world0 3) (Sim.world0 3)).
  - lia.
  - reflexivity.
  - reflexivity.
Defined.

(** C6 at the numbers 0 and 11. *)
Lemma invalid_number_changes_nothing_witness :
  (switch_desktop_by_number 0 (Sim.start (Sim.world0 3) (Some 3))).2
    = after (Sim.start (Sim.world0 3) (Some 3)) (Sim.world0 3)
        (vda (Sim.start (Sim.world0 3) (Some 3))) [] []
        [Invalid_desktop_number 0] ∧
  (move_window_to_desktop 11 (Sim.start (Sim.world0 3) (Some 3))).2
    = after (Sim.start (Sim.world0 3) (Some 3)) (Sim.world0 3)
        (vda (Sim.start (Sim.world0 3) (Some 3))) [] []
        [Invalid_desktop_number 11].
Proof.
  split.
  - destruct (invalid_number_changes_nothing 0
                (Sim.start (Sim.world0 3) (Some 3))) as [E _].
    + left. lia.
    + rewrite E. reflexivity.
  - destruct (invalid_number_changes_nothing 11
                (Sim.start (Sim.world0 3) (Some 3))) as [_ E].
    + right. lia.
    + rewrite E. reflexivity.
Defined.

(** C7 in the state the program starts in. *)
Lemma no_previous_desktop_changes_nothing_witness :
  switch_to_previous_desktop (Sim.start (Sim.world0 3) (Some 3)) =
    (Ok tt, after (Sim.start (Sim.world0 3) (Some 3)) (Sim.world0 3)
              (vda (Sim.start (Sim.world0 3) (Some 3))) [] []
              [No_previous_desktop]).
Proof.
  apply (no_previous_desktop_changes_nothing
           (Sim.start (Sim.world0 3) (Some 3))).
  reflexivity.
Defined.

(** C8 refuted as written: there is a foreground window, it is pinned
    already, and the first call prints "already pinned", not "pinned". *)
Lemma first_pin_call_already_pinned :
  let s := Sim.start (Sim.pinned42 3) (Some 3) in
  let s' := (pin_window s).2 in
  Sim.foreground (world s) ≠ 0 ∧
  stdout s' = [Window_already_pinned "Notepad"] ∧
  stdout s' ≠ [Pinned_window "Notepad"] ∧
  calls s' = [GetForegroundWindow; GetWindowText 42; MakeAppView 42;
              IsPinned 42].
Proof. cbn. repeat split; try reflexivity; discriminate. Qed.

(** C8 as amended, for window 42 of the healthy world. *)
Lemma pin_twice_pins_once_witness :
  ∃ s1 s2,
    pin_window (Sim.start (Sim.world0 3) (Some 3)) = (Ok tt, s1) ∧
    stdout s1 = [Pinned_window "Notepad"] ∧
    pin_window s1 = (Ok tt, s2) ∧
    stdout s2 = stdout s1 ++ [Window_already_pinned "Notepad"] ∧
    List.filter is_pin (calls s1) = [Pin 42] ∧
    List.filter is_pin (calls s2) = List.filter is_pin (calls s1).
Proof.
  apply (pin_twice_pins_once (Sim.start (Sim.world0 3) (Some 3)) 42
           "Notepad" "Notepad" (Sim.world0 3) (Sim.pinned42 3)
           (Sim.pinned42 3)).
  - lia.
  - exists (Sim.world0 3), (Sim.world0 3), (Sim.world0 3).
    repeat split; reflexivity.
  - reflexivity.
  - exists (Sim.pinned42 3), (Sim.pinned42 3), (Sim.pinned42 3).
    repeat split; reflexivity.
Defined.

(** C9 for a move to desktop 4. *)
Lemma move_keeps_tracker_witness :
  ∃ s' printed,
    move_window_to_desktop 4 (Sim.start (Sim.world0 3) (Some 3))
      = (Ok tt, s') ∧
    vda s' = vda (Sim.start (Sim.world0 3) (Some 3)) ∧
    call_after s' = [] ∧
    screen s' = [] ∧
    managers s' = ∅ ∧
    timers s' = ∅ ∧
    stdout s' = printed ∧
    (printed = [No_active_window] ∨
     (∃ title, printed = [Moving_window title; Moved_window 4]) ∨
     (∃ e, printed = [Error_moving 4 e]) ∨
     (∃ title e, printed = [Moving_window title; Error_moving 4 e])).
Proof.
  apply (move_keeps_tracker 4 (Sim.start (Sim.world0 3) (Some 3))).
  lia.
Defined.

(** C10 with 2 cached while desktop 3 is active: asked for 3, and asked
    for 5 when [desktop.go()] raises. *)
Lemma switch_refreshes_current_witness :
  (∃ s', switch_desktop_by_number 3 (Sim.start (Sim.world0 3) (Some 2))
           = (Ok tt, s') ∧
         stdout s' = [Already_on_desktop 3] ∧
         current_desktop_number (vda s') = Some 3 ∧
         previous_desktop_number (vda s') = None) ∧
  (∃ s', switch_desktop_by_number 5 (Sim.start (Sim.stuck 3) (Some 2))
           = (Ok tt, s') ∧
         stdout s' = [Error_switching 5 "go: element not found"] ∧
         current_desktop_number (vda s') = Some 3 ∧
         previous_desktop_number (vda s') = None).
Proof.
  split.
  - refine (proj1 (switch_refreshes_current 3
                     (Sim.start (Sim.world0 3) (Some 2)) _)
                  (Sim.world0 3) _); [lia|reflexivity].
  - refine (proj2 (switch_refreshes_current 5
                     (Sim.start (Sim.stuck 3) (Some 2)) _)
                  3 "go: element not found"%string (Sim.stuck 3) _ _);
      [lia|lia|].
    exists (Sim.stuck 3). split; [reflexivity|].
    right. exists (Sim.stuck 3). split; reflexivity.
Defined.

(** C3 refuted as written: of two monitors, the frame of the first cannot
    be built.  The second monitor's frame could be built, yet it is never
    asked for and the screen stays empty. *)
Lemma failed_overlay_starves_next_monitor :
  let s := Sim.start (Sim.two_monitors (Some (20, 20))) (Some 3) in
  let s' := (show_desktop_overlay 7 s).2 in
  (position <$> batch 7 1 (enumerated (Sim.rects (world s))))
    = [(20, 20); (1940, 20)] ∧
  (wx_create_frame 7 1940 20 (world s')).1 = Ok tt ∧
  stdout s' = [Error_showing_overlay "wx: cannot create the frame"] ∧
  calls s' = [EnumDisplayMonitors; CreateFrame 7 20 20] ∧
  screen s' = [].
Proof. vm_compute. repeat split; reflexivity. Qed.

(** C3 as amended, when it is the second of the two monitors whose frame
    cannot be built. *)
Lemma failed_overlay_ends_batch_witness :
  ∃ s',
    show_desktop_overlay 7
      (Sim.start (Sim.two_monitors (Some (1940, 20))) (Some 3))
      = (Ok tt, s') ∧
    stdout s' = [Error_showing_overlay "wx: cannot create the frame"] ∧
    screen s' = [{| oid := 1; desktop_number := 7; position := (20, 20) |}] ∧
    calls s' = [EnumDisplayMonitors; CreateFrame 7 20 20;
                CreateFrame 7 1940 20].
Proof.
  apply (failed_overlay_ends_batch 7
           (Sim.start (Sim.two_monitors (Some (1940, 20))) (Some 3))
           [(1, (0, 0, 1920, 1080)); (2, (1920, 0, 3840, 1080))]
           [{| index := 0; handle := 1; left := 0; top := 0;
               width := 1920; height := 1080 |}]
           {| index := 1; handle := 2; left := 1920; top := 0;
              width := 1920; height := 1080 |}
           []
           "wx: cannot create the frame"
           (Sim.two_monitors (Some (1940, 20)))
           (Sim.two_monitors (Some (1940, 20)))
           (Sim.two_monitors (Some (1940, 20)))).
  - reflexivity.
  - reflexivity.
  - exists (Sim.two_monitors (Some (1940, 20))). split; reflexivity.
  - reflexivity.
Defined.

(** C5 refuted as written: wx cannot close the frame of the overlay of
    desktop 7.  The batch's one timer fires, [on_timer] returns, the timer
    is gone and the manager's list is empty, yet the overlay is still on
    the screen, and nothing is left that would close it. *)
Lemma failed_close_leaves_overlay :
  let s := (show_desktop_overlay 7 (Sim.start (Sim.jammed 3 1) (Some 3))).2 in
  let s' := (fire_timer 2 s).2 in
  screen s = [{| oid := 1; desktop_number := 7; position := (20, 20) |}] ∧
  manager_overlays 0 s = screen s ∧
  timers s = {[2%nat := {| owner := 0; interval := 1500; one_shot := true |}]} ∧
  (fire_timer 2 s).1 = Ok tt ∧
  calls s' = [EnumDisplayMonitors; CreateFrame 7 20 20; CloseFrame 1] ∧
  timers s' = ∅ ∧
  manager_overlays 0 s' = [] ∧
  screen s' = [{| oid := 1; desktop_number := 7; position := (20, 20) |}].
Proof. vm_compute. repeat split; reflexivity. Qed.

(** C5 as amended, for desktop 10 on two monitors. *)
Lemma overlays_created_and_expire_witness :
  ∃ self s' created,
    new_manager 10 (Sim.start (Sim.two_monitors None) (Some 3))
      = (Ok self, s') ∧
    manager_overlays self s' = created ∧
    screen s' = created ∧
    length created = 2%nat ∧
    Forall2 (fun monitor overlay =>
               position overlay = (left monitor + 20, top monitor + 20) ∧
               text overlay = "0")
            [{| index := 0; handle := 1; left := 0; top := 0;
                width := 1920; height := 1080 |};
             {| index := 1; handle := 2; left := 1920; top := 0;
                width := 1920; height := 1080 |}]
            created ∧
    (created = [] → manager_timer self s' = None ∧ timers s' = ∅) ∧
    (created ≠ [] →
       ∃ t, manager_timer self s' = Some t ∧
            timers s' =
              {[t := {| owner := self; interval := 1500; one_shot := true |}]}) ∧
    (∀ t (st : State Sim.World),
       timers st !! t =
         Some {| owner := self; interval := 1500; one_shot := true |} →
       manager_overlays self st = created →
       ∃ st',
         fire_timer t st = (Ok tt, st') ∧
         manager_overlays self st' = [] ∧
         timers st' !! t = None ∧
         (∀ o, o ∈ screen st' → o ∈ screen st) ∧
         (∀ w', os_closes created (world st) w' →
            ∀ o, o ∈ screen st' → oid o ∉ oid <$> created)) ∧
    keeps_overlays (on_close (W := Sim.World)) ∧
    (∀ hotkey_id, keeps_overlays (on_hotkey (W := Sim.World) hotkey_id)).
Proof.
  apply (overlays_created_and_expire 10
           (Sim.start (Sim.two_monitors None) (Some 3))
           [(1, (0, 0, 1920, 1080)); (2, (1920, 0, 3840, 1080))]
           (Sim.two_monitors None) (Sim.two_monitors None)).
  - lia.
  - reflexivity.
  - exists (Sim.two_monitors None). split; [reflexivity|].
    exists (Sim.two_monitors None). split; reflexivity.
Defined.

(** * Further properties of the tracker and of the dispatch *)

Section TrackerMore.
Context {W : Type} `{Windows W}.

Implicit Types (s : State W) (n c hwnd : Z).

Ltac step :=
  unfold switch_to_previous_desktop, switch_desktop_by_number,
    move_window_to_desktop, pin_window, try_except, os, print, wx_call_after,
    set_current_desktop_number, set_previous_desktop_number, modify, gets,
    skip, after;
  unfold mbind, mret, M_bind, M_ret; cbn.

(** X1.  When the query for the current desktop itself raises, a switch
    to a desktop in 1..10 prints the error and changes nothing in the
    accessor: [current] is not refreshed, [previous] is kept, no desktop
    is built or gone to and no overlay is queued. *)
Theorem switch_query_fails_changes_nothing n e s w1 :
  1 <= n <= 10 →
  vd_current (world s) = (Raise e, w1) →
  switch_desktop_by_number n s =
    (Ok tt, after s w1 (vda s) [] [CurrentDesktop] [Error_switching n e]).
Proof.
  intros Hn H1. step. rewrite (in_range_test n Hn), H1. cbn.
  by rewrite !app_nil_r.
Qed.

(** X2.  Whatever Windows answers and whatever number is asked for, a
    switch queues at most one overlay, and it queues one only when the
    accessor has a frame and the switch was carried out: then the overlay
    is for the desktop asked for, [current] is that desktop and no error
    was printed. *)
Theorem overlay_only_after_switch n s :
  ∃ s', switch_desktop_by_number n s = (Ok tt, s') ∧
        (call_after s' = call_after s ∨
         (call_after s' = call_after s ++ [n] ∧
          frame (vda s) = true ∧
          1 <= n <= 10 ∧
          current_desktop_number (vda s') = Some n ∧
          stdout s' = stdout s ∧
          ∃ c, c ≠ n ∧ previous_desktop_number (vda s') = Some c ∧
               calls s' = calls s ++ [CurrentDesktop; MakeDesktop n; Go n])).
Proof.
  step. destruct ((n <? 1) || (n >? 10)) eqn:Hr; cbn; [eauto|].
  assert (1 <= n <= 10) as Hn.
  { rewrite Z.gtb_ltb in Hr. apply orb_false_iff in Hr as [? ?]. lia. }
  destruct (vd_current (world s)) as [[c|e] w1]; cbn; [|eauto].
  destruct (Z.eqb_spec c n) as [_|Hc]; cbn; [eauto|].
  destruct (vd_desktop n w1) as [[[]|e] w2]; cbn; [|eauto].
  destruct (vd_go n w2) as [[[]|e] w3]; cbn; [|eauto].
  destruct (frame (vda s)); cbn; [|eauto].
  eexists. split; [done|]. right. split_and!; try done; try lia.
  exists c. by rewrite <- !app_assoc.
Qed.

(** X3.  [previous] records whatever number Windows reported, also one
    beyond 10.  After a switch away from such a desktop,
    [switch_to_previous_desktop] cannot go back: it prints that the number
    is invalid and changes nothing else. *)
Theorem no_return_beyond_ten c n s w' :
  c < 1 ∨ c > 10 → 1 <= n <= 10 →
  os_switches (world s) c n w' →
  ∃ s1,
    switch_desktop_by_number n s = (Ok tt, s1) ∧
    previous_desktop_number (vda s1) = Some c ∧
    switch_to_previous_desktop s1 =
      (Ok tt, after s1 (world s1) (vda s1) [] []
                [Invalid_desktop_number c]).
Proof.
  intros Hc Hn Hsw.
  assert (c ≠ n) as Hcn by lia.
  eexists. split; [by apply (switch_ok n c s w')|]. split; [done|].
  step. rewrite (out_of_range_test c Hc). cbn. by rewrite !app_nil_r.
Qed.

(** X4.  With no foreground window ([GetForegroundWindow] gives 0),
    moving to a desktop in 1..10 and pinning both print that no window is
    active and ask Windows nothing further. *)
Theorem no_window_no_action n s w1 :
  1 <= n <= 10 →
  get_foreground_window (world s) = (Ok 0, w1) →
  move_window_to_desktop n s =
    (Ok tt, after s w1 (vda s) [] [GetForegroundWindow] [No_active_window]) ∧
  pin_window s =
    (Ok tt, after s w1 (vda s) [] [GetForegroundWindow] [No_active_window]).
Proof.
  intros Hn H1. step. rewrite (in_range_test n Hn), H1. cbn.
  destruct s; cbn. by rewrite !app_nil_r.
Qed.

(** X5.  A move that Windows carries out: the window moved is the
    foreground window Windows named, the desktop is the one asked for, and
    the two lines of the move are printed. *)
Theorem move_moves_foreground_window n hwnd title s w1 w2 w3 w4 w5 :
  1 <= n <= 10 → hwnd ≠ 0 →
  get_foreground_window (world s) = (Ok hwnd, w1) →
  get_window_text hwnd w1 = (Ok title, w2) →
  app_view hwnd w2 = (Ok tt, w3) →
  vd_desktop n w3 = (Ok tt, w4) →
  av_move hwnd n w4 = (Ok tt, w5) →
  move_window_to_desktop n s =
    (Ok tt, after s w5 (vda s) []
       [GetForegroundWindow; GetWindowText hwnd; MakeAppView hwnd;
        MakeDesktop n; Move hwnd n]
       [Moving_window title; Moved_window n]).
Proof.
  intros Hn Hh H1 H2 H3 H4 H5. step. rewrite (in_range_test n Hn), H1. cbn.
  destruct (Z.eqb_spec hwnd 0) as [|_]; [done|]. cbn.
  rewrite H2. cbn. rewrite H3. cbn. rewrite H4. cbn. rewrite H5. cbn.
  destruct s; cbn. by rewrite <- ?app_assoc, ?app_nil_r.
Qed.

(** A pin request for which [app_view.pin()] raises. *)
Lemma pin_raises hwnd title e s wa wb :
  hwnd ≠ 0 →
  os_inspects (world s) hwnd title false wa →
  av_pin hwnd wa = (Raise e, wb) →
  pin_window s =
    (Ok tt, after s wb (vda s) []
       [GetForegroundWindow; GetWindowText hwnd; MakeAppView hwnd;
        IsPinned hwnd; Pin hwnd]
       [Error_pinning e]).
Proof.
  intros Hh (w1 & w2 & w3 & H1 & H2 & H3 & H4) H5. step. rewrite H1. cbn.
  destruct (Z.eqb_spec hwnd 0) as [Hz|_]; [destruct (Hh Hz)|]. cbn.
  rewrite H2. cbn. rewrite H3. cbn. rewrite H4. cbn. rewrite H5. cbn.
  destruct s; cbn. by rewrite <- ?app_assoc, ?app_nil_r.
Qed.

(** X6.  Nothing remembers a failed pin: when [app_view.pin()] raises the
    error is printed, and a second call, once Windows pins, pins the
    window as if the first had not been made. *)
Theorem failed_pin_can_be_retried hwnd title title' e s wa wb wc wd :
  hwnd ≠ 0 →
  os_inspects (world s) hwnd title false wa →
  av_pin hwnd wa = (Raise e, wb) →
  os_inspects wb hwnd title' false wc →
  av_pin hwnd wc = (Ok tt, wd) →
  ∃ s1 s2,
    pin_window s = (Ok tt, s1) ∧
    stdout s1 = stdout s ++ [Error_pinning e] ∧
    vda s1 = vda s ∧
    pin_window s1 = (Ok tt, s2) ∧
    stdout s2 = stdout s1 ++ [Pinned_window title'] ∧
    List.filter is_pin (calls s2) =
      List.filter is_pin (calls s) ++ [Pin hwnd; Pin hwnd].
Proof.
  intros Hh Ha Hb Hc Hd.
  pose proof (pin_raises hwnd title e s wa wb Hh Ha Hb) as E1.
  set (s1 := after s wb _ _ _ _) in E1.
  pose proof (pin_ok s1 hwnd title' wc wd Hh Hc Hd) as E2.
  exists s1. eexists. split_and!; [exact E1|done|done|exact E2|done|].
  subst s1. cbn. rewrite !List.filter_app. cbn. by rewrite <- !app_assoc.
Qed.

End TrackerMore.

Section Dispatch.
Context {W : Type} `{Windows W}.

Implicit Types (s : State W).

(** *** Parts of the state a method leaves alone *)

Lemma keeps_mret {A B : Type} (f : State W → B) (a : A) :
  keeps f (mret a : M W A).
Proof. by intros s. Qed.

Lemma keeps_mbind {A B C : Type} (f : State W → C) (m : M W A)
  (k : A → M W B) :
  keeps f m → (∀ a, keeps f (k a)) → keeps f (m ≫= k).
Proof.
  intros Hm Hk s. unfold mbind, M_bind. specialize (Hm s).
  destruct (m s) as [[a|e] s1]; cbn in *; [|done].
  by rewrite Hk.
Qed.

Lemma keeps_handler {A B : Type} (f : State W → B) (body : M W A)
  (handler : exn → M W A) :
  keeps f body → (∀ e, keeps f (handler e)) →
  keeps f (try_except body handler).
Proof.
  intros Hb Hh s. unfold try_except. specialize (Hb s).
  destruct (body s) as [[a|e] s1]; cbn in *; [done|].
  by rewrite Hh.
Qed.

Lemma keeps_call {A B : Type} (f : State W → B) (c : Call)
  (g : W → result A * W) :
  (∀ s w cs, f (set_world w (set_calls cs s)) = f s) → keeps f (os c g).
Proof. intros Hf s. unfold os. destruct (g (world s)). apply Hf. Qed.

Lemma keeps_read {A B : Type} (f : State W → B) (g : State W → A) :
  keeps f (gets g).
Proof. by intros s. Qed.

Lemma keeps_change {B : Type} (f : State W → B) (g : State W → State W) :
  (∀ s, f (g s) = f s) → keeps f (modify g).
Proof. intros Hg s. apply Hg. Qed.

Lemma keeps_loop {A B : Type} (f : State W → B) (l : list A)
  (body : A → M W unit) :
  (∀ x, keeps f (body x)) → keeps f (for_each l body).
Proof.
  intros Hb. induction l as [|x l IH]; cbn; [apply keeps_mret|].
  apply keeps_mbind; [apply Hb|by intros _].
Qed.

Ltac frame_rule :=
  repeat first
    [ apply keeps_mret
    | apply keeps_call; done
    | apply keeps_read
    | apply keeps_change; done
    | apply keeps_mbind; [|intros ?]
    | apply keeps_handler; [|intros ?]
    | apply keeps_loop; intros ?
    | match goal with
      | |- keeps _ (if ?b then _ else _) => destruct b
      | |- keeps _ (match ?x with _ => _ end) => destruct x
      end ].

Lemma switch_keeps_gui number :
  keeps (λ s, (gui s, next_id s)) (switch_desktop_by_number number).
Proof.
  unfold switch_desktop_by_number, print, wx_call_after, skip,
    set_current_desktop_number, set_previous_desktop_number.
  frame_rule.
Qed.

Lemma on_hotkey_keeps_gui hotkey_id :
  keeps (λ s, (gui s, next_id s)) (on_hotkey hotkey_id).
Proof.
  unfold on_hotkey, switch_to_previous_desktop, move_window_to_desktop,
    pin_window, print, skip.
  frame_rule; apply switch_keeps_gui.
Qed.

(** X7.  A hotkey event whose identity is in neither map and is neither
    the recorded "previous" nor the recorded "pin" identity is ignored:
    [on_hotkey] returns with the state as it was, no call made and no line
    printed. *)
Theorem unknown_hotkey_is_ignored hotkey_id s :
  hotkey_desktop_map (gui s) !! hotkey_id = None →
  hotkey_move_map (gui s) !! hotkey_id = None →
  hotkey_previous_desktop_id (gui s) ≠ Some hotkey_id →
  hotkey_pin_id (gui s) ≠ Some hotkey_id →
  on_hotkey hotkey_id s = (Ok tt, s).
Proof.
  intros Hd Hm Hp Hpin. unfold on_hotkey, gets, skip.
  unfold mbind, mret, M_bind, M_ret. cbn. rewrite Hd, Hm.
  rewrite !bool_decide_eq_false_2; done.
Qed.

(** X8.  No sequence of hotkey events changes the frame's tables: after
    any events, whatever Windows answered, the maps, the recorded
    identities and the flags of the frame are as before, so every hotkey
    keeps its binding; and no object has been created. *)
Theorem hotkeys_never_change_bindings (hotkey_ids : list Z) s :
  gui (on_hotkeys hotkey_ids s).2 = gui s ∧
  next_id (on_hotkeys hotkey_ids s).2 = next_id s ∧
  overlay_state (on_hotkeys hotkey_ids s).2 = overlay_state s.
Proof.
  assert (keeps (λ s, (gui s, next_id s)) (on_hotkeys hotkey_ids)) as Hg.
  { apply keeps_loop. intros x. apply on_hotkey_keeps_gui. }
  assert (keeps overlay_state (on_hotkeys hotkey_ids)) as Ho.
  { apply keeps_loop. intros x. apply on_hotkey_keeps_overlays. }
  specialize (Hg s). specialize (Ho s). cbn in Hg.
  injection Hg as Hg1 Hg2. done.
Qed.

(** The loop of [on_close]: every identity is passed to
    [UnregisterHotKey], in order, whether or not an earlier one raised. *)
Lemma unregister_loop (ids : list Z) : ∀ s,
  for_each ids (fun hotkey_id =>
    try_except
      (os (UnregisterHotKey hotkey_id) (unregister_hot_key hotkey_id))
      (fun _ => skip)) s =
  (Ok tt, set_world (unregistered ids (world s))
            (set_calls (calls s ++ (UnregisterHotKey <$> ids)) s)).
Proof.
  induction ids as [|x ids IH]; intros s.
  - cbn. rewrite app_nil_r. by destruct s.
  - cbn [for_each unregistered]. unfold mbind at 1. unfold M_bind at 1.
    unfold try_except, os, skip, mret, M_ret.
    destruct (unregister_hot_key x (world s)) as [[[]|e] w1]; cbn.
    all: rewrite IH; cbn; by rewrite <- app_assoc.
Qed.

(** [on_close] up to the point where the thread is looked at. *)
Lemma on_close_loop s :
  on_close s =
    (match dodo_thread (gui s) with
     | Some InLoop => join
     | _ => skip
     end;;
     cleanup;;
     os DestroyFrame wx_destroy_frame;;
     set_destroyed true)
      (closing s (unregistered (hotkey_ids (gui s)) (world s)) [] []
         (dodo_thread (gui s)) (destroyed (gui s))).
Proof.
  unfold on_close. unfold mbind at 1. unfold M_bind at 1.
  unfold gets at 1. cbn beta iota.
  unfold mbind at 1. unfold M_bind at 1. rewrite unregister_loop.
  unfold mbind at 1. unfold M_bind at 1.
  unfold set_running at 1, modify at 1. cbn beta iota.
  unfold mbind at 1. unfold M_bind at 1. unfold gets at 1. cbn beta iota.
  unfold closing. cbn. by rewrite !app_nil_r.
Qed.

(** The calls of [on_close]: the hotkeys, then the join and [Destroy] as
    far as it gets. *)
Lemma on_close_calls s :
  ∃ r s' rest,
    on_close s = (r, s') ∧
    calls s' =
      calls s ++ (UnregisterHotKey <$> hotkey_ids (gui s)) ++ rest ∧
    (rest = [JoinThread] ∨ rest = [JoinThread; DestroyFrame] ∨
     rest = [DestroyFrame]).
Proof.
  rewrite on_close_loop.
  unfold join, run_loop_wakes, cleanup, print, set_dodo_thread,
    set_destroyed, os, modify, gets, skip, closing.
  unfold mbind, mret, M_bind, M_ret.
  assert (∀ (l1 l2 l3 : list Call), (l1 ++ l2 ++ []) ++ l3 = l1 ++ l2 ++ l3)
    as Happ by (intros; by rewrite app_nil_r, <- app_assoc).
  destruct (dodo_thread (gui s)) as [[|]|]; cbn.
  - destruct (join_thread _) as [[[|]|e] w2]; cbn.
    1,2: destruct (wx_destroy_frame w2) as [[[]|e] w3]; cbn.
    1-4: eexists _, _, [JoinThread; DestroyFrame]; split; [done|]; cbn;
      rewrite <- !app_assoc; cbn; rewrite ?app_nil_r; split; [done|tauto].
    eexists _, _, [JoinThread]; split; [done|]; cbn.
    rewrite ?app_nil_r, <- ?app_assoc. split; [done|tauto].
  - destruct (wx_destroy_frame _) as [[[]|e] w3]; cbn.
    all: eexists _, _, [DestroyFrame]; split; [done|]; cbn;
      rewrite <- !app_assoc; cbn; rewrite ?app_nil_r; split; [done|tauto].
  - destruct (wx_destroy_frame _) as [[[]|e] w3]; cbn.
    all: eexists _, _, [DestroyFrame]; split; [done|]; cbn;
      rewrite <- !app_assoc; cbn; rewrite ?app_nil_r; split; [done|tauto].
Qed.

(** X9.  [on_close], whatever Windows answers.  [UnregisterHotKey] is
    called once for every identity in [hotkey_ids], in order, and an
    exception of one does not stop the rest; then [running] is turned off.
    A thread that is alive is joined: when it wakes in time it prints the
    shutdown line itself and ends, so that with the line of [on_close] it
    is printed twice; when it does not, it is printed once and the thread
    is still alive.  Then the frame is destroyed.  An exception of the
    join ends [on_close] before anything is printed, one of [Destroy]
    after the lines, and both reach the caller.  The tables of the frame,
    the accessor, the overlays and the queue are not touched. *)
Theorem on_close_unregisters_every_hotkey s :
  let w1 := unregistered (hotkey_ids (gui s)) (world s) in
  let line := Dodo_shutting_down in
  let was := destroyed (gui s) in
  match dodo_thread (gui s) with
  | Some InLoop =>
      match join_thread w1 with
      | (Raise e, w2) =>
          on_close s =
            (Raise e, closing s w2 [JoinThread] [] (Some InLoop) was)
      | (Ok woke, w2) =>
          let said := if woke then [line; line] else [line] in
          let th := Some (if woke then Ended else InLoop) in
          match wx_destroy_frame w2 with
          | (Ok _, w3) =>
              on_close s =
                (Ok tt, closing s w3 [JoinThread; DestroyFrame] said th true)
          | (Raise e, w3) =>
              on_close s =
                (Raise e, closing s w3 [JoinThread; DestroyFrame] said th was)
          end
      end
  | th =>
      match wx_destroy_frame w1 with
      | (Ok _, w3) =>
          on_close s = (Ok tt, closing s w3 [DestroyFrame] [line] th true)
      | (Raise e, w3) =>
          on_close s = (Raise e, closing s w3 [DestroyFrame] [line] th was)
      end
  end.
Proof.
  cbn zeta. rewrite on_close_loop.
  unfold join, run_loop_wakes, cleanup, print, set_dodo_thread,
    set_destroyed, os, modify, gets, skip, closing.
  unfold mbind, mret, M_bind, M_ret.
  destruct (dodo_thread (gui s)) as [[|]|]; cbn.
  - destruct (join_thread _) as [[[|]|e] w2]; cbn.
    + destruct (wx_destroy_frame w2) as [[[]|e] w3]; cbn;
        by rewrite ?app_nil_r, <- ?app_assoc.
    + destruct (wx_destroy_frame w2) as [[[]|e] w3]; cbn;
        by rewrite ?app_nil_r, <- ?app_assoc.
    + by rewrite ?app_nil_r, <- ?app_assoc.
  - destruct (wx_destroy_frame _) as [[[]|e] w3]; cbn;
      by rewrite ?app_nil_r, <- ?app_assoc.
  - destruct (wx_destroy_frame _) as [[[]|e] w3]; cbn;
      by rewrite ?app_nil_r, <- ?app_assoc.
Qed.

(** X25.  The shutdown line is printed twice.  When [on_close] finds the
    thread alive and the join does not raise, the thread prints the line
    from the [finally] of [run_loop] and [on_close] prints it through
    [cleanup]: when the thread wakes within the second of the join both
    lines are there as [on_close] ends, and otherwise the second comes
    with the thread's next wake-up.  After that the thread has ended and
    a further wake-up prints nothing.  This holds as well when [Destroy]
    raises. *)
Theorem shutdown_line_is_printed_twice s (woke : bool) w2 :
  dodo_thread (gui s) = Some InLoop →
  join_thread (unregistered (hotkey_ids (gui s)) (world s)) = (Ok woke, w2) →
  ∃ r s1 s2,
    on_close s = (r, s1) ∧
    run_loop_wakes s1 = (Ok tt, s2) ∧
    stdout s1 =
      stdout s ++ (if woke then [Dodo_shutting_down; Dodo_shutting_down]
                   else [Dodo_shutting_down]) ∧
    dodo_thread (gui s1) = Some (if woke then Ended else InLoop) ∧
    stdout s2 = stdout s ++ [Dodo_shutting_down; Dodo_shutting_down] ∧
    dodo_thread (gui s2) = Some Ended ∧
    run_loop_wakes s2 = (Ok tt, s2).
Proof.
  intros Hth Hjoin. rewrite on_close_loop, Hth.
  unfold join, run_loop_wakes, cleanup, print, set_dodo_thread,
    set_destroyed, os, modify, gets, skip, closing.
  unfold mbind, mret, M_bind, M_ret. cbn. rewrite Hjoin.
  destruct woke; cbn.
  all: destruct (wx_destroy_frame w2) as [[[]|e] w3]; cbn.
  all: eexists _, _, _; split_and!; try done; cbn;
    by rewrite ?app_nil_r, <- ?app_assoc.
Qed.

End Dispatch.

(** * Further properties of the overlays *)

Section OverlaysMore.
Context {W : Type} `{Windows W}.

Implicit Types (s : State W) (number : Z) (self t : nat).

Lemma filter_all {A : Type} (P : A → Prop) `{!∀ x, Decision (P x)}
  (l : list A) :
  (∀ x, x ∈ l → P x) → filter P l = l.
Proof.
  induction l as [|x l IH]; intros Hall; [done|].
  rewrite filter_cons_True by (apply Hall; left).
  f_equal. apply IH. intros y Hy. apply Hall. by right.
Qed.

Lemma filter_none {A : Type} (P : A → Prop) `{!∀ x, Decision (P x)}
  (l : list A) :
  (∀ x, x ∈ l → ¬ P x) → filter P l = [].
Proof.
  induction l as [|x l IH]; intros Hnone; [done|].
  rewrite filter_cons_False by (apply Hnone; left).
  apply IH. intros y Hy. apply Hnone. by right.
Qed.

(** When wx closes every frame of the list, all of them are taken off. *)
Lemma closed_all (l : list DesktopNumberOverlay) : ∀ (w w' : W),
  os_closes l w w' → closed l w = oid <$> l.
Proof.
  induction l as [|x l IH]; intros w w' Hos; [done|].
  destruct Hos as (w1 & Hx & Hl). cbn. rewrite Hx. f_equal. by eapply IH.
Qed.

(** The loop of [on_timer], whatever wx answers. *)
Lemma close_loop (l : list DesktopNumberOverlay) : ∀ s,
  ∃ w',
    for_each l (fun overlay =>
      try_except (close overlay) (fun _ => skip)) s =
    (Ok tt,
     set_screen (filter (λ o, oid o ∉ closed l (world s)) (screen s))
       (set_world w' (set_calls (calls s ++ (CloseFrame ∘ oid <$> l)) s))).
Proof.
  induction l as [|x l IH]; intros s.
  - exists (world s). cbn. unfold skip, mret, M_ret. f_equal.
    rewrite app_nil_r. destruct s; unfold set_screen; cbn. f_equal.
    symmetry. apply filter_all. intros o _. apply not_elem_of_nil.
  - cbn [for_each]. unfold mbind at 1. unfold M_bind at 1.
    unfold try_except, close, os, modify, skip.
    unfold mbind, mret, M_bind, M_ret. cbn.
    destruct (wx_close_frame (oid x) (world s)) as [[[]|e] w1]; cbn.
    + edestruct IH as (w' & ->). exists w'. cbn. f_equal.
      unfold set_screen. cbn. rewrite <- app_assoc. cbn. f_equal.
      rewrite list_filter_filter. apply list_filter_iff. intros o.
      rewrite not_elem_of_cons. tauto.
    + edestruct IH as (w' & ->). exists w'. cbn. f_equal.
      unfold set_screen. cbn. by rewrite <- app_assoc.
Qed.

(** [on_timer], whatever wx answers. *)
Lemma on_timer_runs self s :
  ∃ s',
    on_timer self s = (Ok tt, s') ∧
    calls s' = calls s ++ (CloseFrame ∘ oid <$> manager_overlays self s) ∧
    screen s' =
      filter (λ o, oid o ∉ closed (manager_overlays self s) (world s))
             (screen s) ∧
    managers s' =
      alter (λ m, {| overlays := []; timer := timer m |}) self (managers s) ∧
    timers s' = timers s ∧
    vda s' = vda s ∧
    gui s' = gui s ∧
    next_id s' = next_id s ∧
    call_after s' = call_after s ∧
    stdout s' = stdout s.
Proof.
  unfold on_timer. unfold mbind at 1. unfold M_bind at 1.
  unfold gets at 1. cbn beta iota.
  unfold mbind at 1. unfold M_bind at 1.
  destruct (close_loop (manager_overlays self s) s) as (w' & ->).
  unfold set_overlays, modify. cbn.
  eexists. split_and!; done.
Qed.

Lemma manager_cleared self (ms : gmap nat DesktopNumberOverlayManager) :
  from_option overlays []
    (alter (λ m, {| overlays := []; timer := timer m |}) self ms !! self)
  = [].
Proof. rewrite lookup_alter_eq. by destruct (ms !! self). Qed.

(** X10.  [on_timer] closes best-effort and cannot fail: whatever wx
    answers, every overlay of the manager is asked to close, once and in
    order, also after one of them raised; exactly the frames wx closed
    leave the screen, and the manager's list is emptied all the same. *)
Theorem on_timer_closes_best_effort self s :
  ∃ s',
    on_timer self s = (Ok tt, s') ∧
    calls s' = calls s ++ (CloseFrame ∘ oid <$> manager_overlays self s) ∧
    screen s' =
      filter (λ o, oid o ∉ closed (manager_overlays self s) (world s))
             (screen s) ∧
    manager_overlays self s' = [] ∧
    timers s' = timers s ∧
    vda s' = vda s ∧
    stdout s' = stdout s.
Proof.
  destruct (on_timer_runs self s)
    as (s' & E & Hc & Hscr & Hm & Ht & Hv & _ & _ & _ & Ho).
  exists s'. split_and!; try done.
  unfold manager_overlays. rewrite Hm. apply manager_cleared.
Qed.

(** X12.  [Monitor.get_all] keeps the rectangle of every monitor: the
    [i]-th rectangle Windows enumerates becomes the monitor of index [i],
    with the same handle, left and top, and its [right] and [bottom] are
    again the right and bottom of the rectangle. *)
Theorem monitor_keeps_rectangle rects (i : nat)
  (hmonitor rect_left rect_top rect_right rect_bottom : Z) :
  rects !! i =
    Some (hmonitor, (rect_left, rect_top, rect_right, rect_bottom)) →
  ∃ m, enumerated rects !! i = Some m ∧
       index m = i ∧ handle m = hmonitor ∧
       left m = rect_left ∧ top m = rect_top ∧
       right m = rect_right ∧ bottom m = rect_bottom ∧
       width m = rect_right - rect_left ∧
       height m = rect_bottom - rect_top.
Proof.
  intros Hi. unfold enumerated. rewrite enumerated_from. cbn.
  rewrite list_lookup_imap, Hi. cbn. eexists. split; [done|].
  unfold right, bottom. cbn. split_and!; try done; lia.
Qed.

(** X13.  On the desktops 1..10 the text of the overlay tells the
    desktops apart: two numbers with the same text are the same number
    (10 shows "0", which no other desktop of the ten shows). *)
Theorem overlay_text_tells_desktops_apart (a b : Z) :
  1 <= a <= 10 → 1 <= b <= 10 →
  overlay_text a = overlay_text b → a = b.
Proof.
  intros Ha Hb.
  assert (a = 1 ∨ a = 2 ∨ a = 3 ∨ a = 4 ∨ a = 5 ∨
          a = 6 ∨ a = 7 ∨ a = 8 ∨ a = 9 ∨ a = 10) as Hca by lia.
  assert (b = 1 ∨ b = 2 ∨ b = 3 ∨ b = 4 ∨ b = 5 ∨
          b = 6 ∨ b = 7 ∨ b = 8 ∨ b = 9 ∨ b = 10) as Hcb by lia.
  clear Ha Hb.
  repeat (destruct Hca as [->|Hca]); try subst a;
    repeat (destruct Hcb as [->|Hcb]); try subst b;
    first [reflexivity | (vm_compute; discriminate)].
Qed.

(** X14.  The frame is sized to the text plus 20 on each side, and
    [on_paint] centres the text in the client area: when the client area
    is the size [__init__] set, the text starts 20 from the left and 20
    from the top; for any client area the gaps left and right of the
    text, and above and below it, differ by at most one. *)
Theorem text_is_centred (text_extent client_size : Z * Z) :
  text_origin (window_size text_extent) text_extent = (20, 20) ∧
  (let x := (text_origin client_size text_extent).1 in
   let gap := client_size.1 - text_extent.1 - x in
   x <= gap <= x + 1) ∧
  (let y := (text_origin client_size text_extent).2 in
   let gap := client_size.2 - text_extent.2 - y in
   y <= gap <= y + 1).
Proof.
  destruct text_extent as [tw th], client_size as [cw ch].
  unfold text_origin, window_size, margin. cbn. split_and!.
  - f_equal.
    + replace (tw + 20 * 2 - tw) with 40 by lia. reflexivity.
    + replace (th + 20 * 2 - th) with 40 by lia. reflexivity.
  - pose proof (Z.div_mod (cw - tw) 2).
    pose proof (Z.mod_pos_bound (cw - tw) 2). lia.
  - pose proof (Z.div_mod (cw - tw) 2).
    pose proof (Z.mod_pos_bound (cw - tw) 2). lia.
  - pose proof (Z.div_mod (ch - th) 2).
    pose proof (Z.mod_pos_bound (ch - th) 2). lia.
  - pose proof (Z.div_mod (ch - th) 2).
    pose proof (Z.mod_pos_bound (ch - th) 2). lia.
Qed.

(** X16.  When the enumeration of the monitors itself raises,
    [_show_desktop_overlay] prints the error; no frame is asked for, the
    screen and the timers stay as they were. *)
Theorem failed_enumeration_shows_nothing number e s w1 :
  enum_display_monitors (world s) = (Raise e, w1) →
  ∃ s',
    show_desktop_overlay number s = (Ok tt, s') ∧
    stdout s' = stdout s ++ [Error_showing_overlay e] ∧
    calls s' = calls s ++ [EnumDisplayMonitors] ∧
    screen s' = screen s ∧
    timers s' = timers s ∧
    vda s' = vda s.
Proof.
  intros Henum.
  unfold show_desktop_overlay, new_manager, get_all, try_except, fresh, os,
    modify, print.
  unfold mbind, mret, M_bind, M_ret. cbn. rewrite Henum. cbn.
  eexists. split_and!; done.
Qed.

(** X17.  From the hotkey to the overlay: a switch that Windows carries
    out, made by an accessor with a frame, puts nothing on the screen
    itself; it queues one call, and when the event loop runs it (and wx
    builds the frames) the overlays of the desktop switched to are on
    every monitor, the queue is empty again and nothing was printed. *)
Theorem switch_then_overlay n c s rects w' w1 w2 :
  1 <= n <= 10 → c ≠ n →
  frame (vda s) = true → call_after s = [] →
  os_switches (world s) c n w' →
  enum_display_monitors w' = (Ok rects, w1) →
  os_creates n (enumerated rects) w1 w2 →
  ∃ s1 s2,
    switch_desktop_by_number n s = (Ok tt, s1) ∧
    screen s1 = screen s ∧
    call_after s1 = [n] ∧
    run_call_after s1 = (Ok tt, s2) ∧
    call_after s2 = [] ∧
    screen s2 = screen s ++ batch n (S (next_id s)) (enumerated rects) ∧
    current_desktop_number (vda s2) = Some n ∧
    previous_desktop_number (vda s2) = Some c ∧
    stdout s2 = stdout s.
Proof.
  intros Hn Hc Hf Hq Hsw Henum Hcr.
  pose proof (switch_ok n c s w' Hn Hc Hsw) as E1.
  set (s1 := after s w' _ _ _ _) in E1.
  assert (call_after s1 = [n]) as Hq1.
  { subst s1. cbn. by rewrite Hq, Hf. }
  exists s1.
  pose proof (new_manager_ok n (set_call_after [] s1) rects w1 w2
                Henum Hcr) as E2.
  cbn zeta in E2.
  eexists. split_and!; [exact E1|done|exact Hq1| |..].
  - unfold run_call_after, gets.
    unfold mbind at 1. unfold M_bind at 1. cbn beta iota. rewrite Hq1.
    unfold mbind at 1. unfold M_bind at 1. unfold modify at 1.
    cbn beta iota.
    unfold show_desktop_overlay, try_except.
    unfold mbind at 1. unfold M_bind at 1. rewrite E2.
    unfold skip, mret, M_ret. reflexivity.
  - done.
  - done.
  - done.
  - done.
  - subst s1. cbn. by rewrite app_nil_r.
Qed.

(** *** Two batches at once *)

Lemma batch_ids number (first : nat) monitors o :
  o ∈ batch number first monitors →
  (first ≤ oid o < first + length monitors)%nat.
Proof.
  revert first. induction monitors as [|m ms IH]; intros first Ho; cbn in *.
  - by apply elem_of_nil in Ho.
  - apply elem_of_cons in Ho as [->|Ho]; cbn; [lia|].
    apply IH in Ho. lia.
Qed.

Lemma batch_ids_fmap number (first : nat) monitors (i : nat) :
  i ∈ oid <$> batch number first monitors →
  (first ≤ i < first + length monitors)%nat.
Proof.
  intros (o & -> & Ho)%list_elem_of_fmap. by eapply batch_ids.
Qed.

(** Closing one batch sifts the screen: what was there before the batch
    and what came after it stay. *)
Lemma sift_batch number (first : nat) monitors
  (before after : list DesktopNumberOverlay) :
  (∀ o, o ∈ before → (oid o < first)%nat) →
  (∀ o, o ∈ after → (first + length monitors ≤ oid o)%nat) →
  filter (λ o, oid o ∉ oid <$> batch number first monitors)
         (before ++ batch number first monitors ++ after)
  = before ++ after.
Proof.
  intros Hb Ha. rewrite !filter_app.
  rewrite (filter_all _ before), (filter_none _ (batch _ _ _)),
    (filter_all _ after); [done|..].
  - intros o Ho Hin. apply batch_ids_fmap in Hin. apply Ha in Ho. lia.
  - intros o Ho Hnot. apply Hnot. apply list_elem_of_fmap. by exists o.
  - intros o Ho Hin. apply batch_ids_fmap in Hin. apply Hb in Ho. lia.
Qed.

(** X18.  Two batches shown one after the other live side by side: the
    second display cancels nothing, so the screen holds the overlays of
    both; when the timer of the first fires (and wx closes its frames)
    exactly the first batch leaves the screen, and the second batch, its
    manager and its timer are untouched. *)
Theorem overlapping_batches_are_independent d1 d2 s rects1 rects2
  w1 w2 w3 w4 :
  fresh_ids s →
  rects1 ≠ [] →
  enum_display_monitors (world s) = (Ok rects1, w1) →
  os_creates d1 (enumerated rects1) w1 w2 →
  enum_display_monitors w2 = (Ok rects2, w3) →
  os_creates d2 (enumerated rects2) w3 w4 →
  ∃ m1 s1 m2 s2 t1 b1 b2,
    new_manager d1 s = (Ok m1, s1) ∧
    new_manager d2 s1 = (Ok m2, s2) ∧
    manager_overlays m1 s2 = b1 ∧
    manager_overlays m2 s2 = b2 ∧
    length b1 = length rects1 ∧
    length b2 = length rects2 ∧
    screen s2 = screen s ++ b1 ++ b2 ∧
    manager_timer m1 s2 = Some t1 ∧
    ∀ w5, os_closes b1 w4 w5 →
      ∃ s3,
        fire_timer t1 s2 = (Ok tt, s3) ∧
        screen s3 = screen s ++ b2 ∧
        manager_overlays m1 s3 = [] ∧
        manager_overlays m2 s3 = b2 ∧
        manager_timer m2 s3 = manager_timer m2 s2 ∧
        timers s3 = delete t1 (timers s2).
Proof.
  intros (Hfresh & _ & _) Hne Henum1 Hcr1 Henum2 Hcr2.
  pose proof (new_manager_ok d1 s rects1 w1 w2 Henum1 Hcr1) as E1.
  cbn zeta in E1.
  set (k := next_id s) in *.
  set (M1 := enumerated rects1) in *.
  set (M2 := enumerated rects2) in *.
  assert (length M1 = length rects1) as HL1 by apply enumerated_length.
  assert (length M2 = length rects2) as HL2 by apply enumerated_length.
  destruct M1 as [|mon1 M1'] eqn:HM1.
  { destruct rects1; [done|discriminate]. }
  rewrite <- HM1 in *. clear HM1.
  set (b1 := batch d1 (S k) M1) in *.
  set (t1 := (S k + length M1)%nat) in *.
  match type of E1 with _ = (_, ?x) => set (s1 := x) in * end.
  pose proof (new_manager_ok d2 s1 rects2 w3 w4 Henum2 Hcr2) as E2.
  cbn zeta in E2. fold M2 in E2.
  change (next_id s1) with (S t1) in E2.
  set (m2 := S t1) in *.
  set (b2 := batch d2 (S m2) M2) in *.
  set (t2 := (S m2 + length M2)%nat) in *.
  match type of E2 with _ = (_, ?x) => set (s2 := x) in * end.
  assert (k ≠ m2) as Hkm by (subst m2 t1; lia).
  assert (t1 ≠ t2) as Htt by (subst t2 m2 t1; lia).
  assert (managers s2 !! k = Some {| overlays := b1; timer := Some t1 |})
    as Hm1.
  { subst s2 s1. cbn. rewrite lookup_insert_ne by done.
    by rewrite lookup_insert_eq. }
  assert (timers s2 !! t1 =
            Some {| owner := k; interval := 1500; one_shot := true |})
    as Ht1.
  { subst s2 s1. cbn. destruct M2; [|rewrite lookup_insert_ne by done];
      by rewrite lookup_insert_eq. }
  exists k, s1, m2, s2, t1, b1, b2. split_and!.
  - exact E1.
  - exact E2.
  - unfold manager_overlays. by rewrite Hm1.
  - unfold manager_overlays. subst s2. cbn. by rewrite lookup_insert_eq.
  - subst b1. by rewrite batch_length.
  - subst b2. by rewrite batch_length.
  - subst s2 s1. cbn. by rewrite <- app_assoc.
  - unfold manager_timer. by rewrite Hm1.
  - intros w5 Hcl. unfold fire_timer.
    unfold mbind at 1. unfold M_bind at 1. unfold gets at 1. cbn beta iota.
    rewrite Ht1. cbn [one_shot owner].
    unfold mbind at 1. unfold M_bind at 1. unfold modify at 1.
    cbn beta iota.
    destruct (on_timer_runs k (set_timers (delete t1 (timers s2)) s2))
      as (s3 & -> & _ & Hscr & Hman & Htim & _).
    exists s3. split_and!; try done.
    + rewrite Hscr. unfold manager_overlays. cbn [managers set_timers].
      rewrite Hm1. cbn [from_option overlays world set_timers].
      change (world s2) with w4. rewrite (closed_all b1 w4 w5 Hcl).
      change (screen (set_timers _ s2)) with ((screen s ++ b1) ++ b2).
      rewrite <- app_assoc. subst b1. apply sift_batch.
      * intros o Ho. apply Hfresh in Ho. lia.
      * intros o Ho. apply batch_ids in Ho. subst m2 t1. lia.
    + unfold manager_overlays. rewrite Hman. apply manager_cleared.
    + unfold manager_overlays. rewrite Hman. cbn [managers set_timers].
      rewrite lookup_alter_ne by done. subst s2. cbn.
      by rewrite lookup_insert_eq.
    + unfold manager_timer. rewrite Hman. cbn [managers set_timers].
      by rewrite lookup_alter_ne.
Qed.

End OverlaysMore.

(** * Startup *)

Section StartupFacts.
Context {W : Type} `{Windows W} `{Startup W}.

Implicit Types (a : App W) (f : DodoFrame).

(** *** Reading the journal *)

Lemma attempts_app (l1 l2 : list StartupCall) :
  attempts (l1 ++ l2) = attempts l1 ++ attempts l2.
Proof.
  induction l1 as [|c l1 IH]; [done|]. destruct c; cbn; by rewrite ?IH.
Qed.

Lemma granted_app (l1 l2 : list StartupCall) :
  granted (l1 ++ l2) = granted l1 ++ granted l2.
Proof.
  induction l1 as [|c l1 IH]; [done|].
  destruct c as [| |? ? ? [[|]|]]; cbn; by rewrite ?IH.
Qed.

Lemma raised_app (l1 l2 : list StartupCall) :
  raised (l1 ++ l2) = raised l1 || raised l2.
Proof.
  induction l1 as [|c l1 IH]; [done|].
  destruct c as [| |? ? ? [[|]|]]; cbn; by rewrite ?IH.
Qed.

Lemma created_app (l1 l2 : list StartupCall) :
  created (l1 ++ l2) = (created l1 + created l2)%nat.
Proof.
  induction l1 as [|c l1 IH]; [done|]. destruct c; cbn; by rewrite ?IH.
Qed.

(** *** Rules for the startup monad *)

Lemma triple_ret {A : Type} (P : App W → Prop) (x : A)
  (Q : A → App W → Prop) (E : exn → App W → Prop) :
  (∀ a, P a → Q x a) → triple P (mret x) Q E.
Proof. intros HQ a HP. by apply HQ. Qed.

Lemma triple_bind {A C : Type} (P : App W → Prop) (m : B W A)
  (k : A → B W C) (Q1 : A → App W → Prop) (Q : C → App W → Prop)
  (E : exn → App W → Prop) :
  triple P m Q1 E → (∀ x, triple (Q1 x) (k x) Q E) →
  triple P (m ≫= k) Q E.
Proof.
  intros Hm Hk a HP. unfold mbind, B_bind. specialize (Hm a HP).
  destruct (m a) as [[x|e] a1]; [by apply Hk|done].
Qed.

Lemma triple_guarded {A : Type} (P : App W → Prop) (body : B W A)
  (handler : exn → B W A) (Q : A → App W → Prop)
  (E1 E : exn → App W → Prop) :
  triple P body Q E1 → (∀ e, triple (E1 e) (handler e) Q E) →
  triple P (guarded body handler) Q E.
Proof.
  intros Hb Hh a HP. unfold guarded. specialize (Hb a HP).
  destruct (body a) as [[x|e] a1]; [done|by apply Hh].
Qed.

Lemma triple_pure {A : Type} (φ : Prop) (P : App W → Prop) (m : B W A)
  (Q : A → App W → Prop) (E : exn → App W → Prop) :
  (φ → triple P m Q E) → triple (λ a, φ ∧ P a) m Q E.
Proof. intros Hm a [Hφ HP]. by apply Hm. Qed.

(** *** One registration *)

Lemma take_next {A : Type} (l : list A) (k : nat) (x : A) :
  l !! k = Some x → take (S k) l = take k l ++ [x].
Proof. intros Hk. by apply take_S_r. Qed.

Lemma if_registered_step a0 (k : nat) hotkey_id modifiers key
  (g : DodoFrame → DodoFrame) (msg : StartupMsg) :
  plan !! k = Some (hotkey_id, modifiers, key) →
  (∀ f, tables_ok f → tables_ok (with_hotkey_id hotkey_id (g f))) →
  (∀ f, hotkey_ids (g f) = hotkey_ids f) →
  (∀ f, running (g f) = running f ∧ destroyed (g f) = destroyed f ∧
        dodo_thread (g f) = dodo_thread f) →
  triple (registering a0 k)
    (if_registered hotkey_id modifiers key
       (change_frame g;;
        change_frame (with_hotkey_id hotkey_id);;
        say msg))
    (λ _, registering a0 (S k))
    (λ _, registration_raised a0).
Proof.
  intros Hk Hg Hids Hflags a
    (Hatt & Hr & Hgr & Htab & Hb & Hout & Hv & Ho & Hn & Hq & Hc & Hs & Hrun & Hd
     & Hth).
  unfold if_registered, change_frame, lift, modify, say, mbind, B_bind,
    set_core.
  destruct (register_hot_key hotkey_id modifiers key (world (core a)))
    as [[[|]|e] w]; cbn -[plan take].
  - unfold registering, only_tables. cbn -[plan take].
    rewrite attempts_app, granted_app, raised_app, Hatt, Hr, Hids, Hgr.
    cbn -[plan take]. rewrite (take_next _ _ _ Hk).
    destruct (Hflags (gui (core a))) as (-> & -> & ->).
    split_and!; try done.
    + by apply Hg.
    + by apply prefix_app_r.
  - unfold registering, only_tables. cbn -[plan take].
    rewrite attempts_app, granted_app, raised_app, Hatt, Hr, Hgr.
    cbn -[plan take]. rewrite (take_next _ _ _ Hk), app_nil_r.
    split_and!; done.
  - unfold registration_raised, only_tables. cbn -[plan take].
    rewrite attempts_app, granted_app, raised_app, Hatt, Hr, Hgr.
    cbn -[plan take]. rewrite <- (take_next _ _ _ Hk), app_nil_r.
    split_and!; try done. by exists (S k).
Qed.

(** *** The tables stay within the scheme *)

Lemma tables_ok_desktop f (hotkey_id i : Z) :
  1 <= i <= 10 → hotkey_id = 99 + i → tables_ok f →
  tables_ok (with_hotkey_id hotkey_id (with_desktop_hotkey hotkey_id i f)).
Proof.
  intros Hi Hid (Hd & Hm & Hp & Hpin & Hin).
  unfold tables_ok. cbn. split_and!; try done.
  - intros j d. rewrite lookup_insert. case_decide; [|by apply Hd].
    intros [= <-]. by subst.
  - intros j. rewrite elem_of_app, list_elem_of_singleton, Hin,
      lookup_insert_is_Some.
    destruct (decide (hotkey_id = j)); [subst j; tauto|].
    intuition congruence.
Qed.

Lemma tables_ok_move f (hotkey_id i : Z) :
  1 <= i <= 10 → hotkey_id = 110 + i → tables_ok f →
  tables_ok (with_hotkey_id hotkey_id (with_move_hotkey hotkey_id i f)).
Proof.
  intros Hi Hid (Hd & Hm & Hp & Hpin & Hin).
  unfold tables_ok. cbn. split_and!; try done.
  - intros j d. rewrite lookup_insert. case_decide; [|by apply Hm].
    intros [= <-]. by subst.
  - intros j. rewrite elem_of_app, list_elem_of_singleton, Hin,
      lookup_insert_is_Some.
    destruct (decide (hotkey_id = j)); [subst j; tauto|].
    intuition congruence.
Qed.

Lemma tables_ok_previous f :
  tables_ok f →
  tables_ok (with_hotkey_id 110 (with_previous_hotkey 110 f)).
Proof.
  intros (Hd & Hm & Hp & Hpin & Hin).
  unfold tables_ok. cbn. split_and!; try done.
  - by intros j [= <-].
  - intros j. rewrite elem_of_app, list_elem_of_singleton, Hin.
    split.
    + intros [[?|[?|[Hj|?]]] | ->]; try tauto.
      apply Hp in Hj as ->. tauto.
    + intros [?|[?|[[= <-]|?]]]; tauto.
Qed.

Lemma tables_ok_pin f :
  tables_ok f →
  tables_ok (with_hotkey_id 121 (with_pin_hotkey 121 f)).
Proof.
  intros (Hd & Hm & Hp & Hpin & Hin).
  unfold tables_ok. cbn. split_and!; try done.
  - by intros j [= <-].
  - intros j. rewrite elem_of_app, list_elem_of_singleton, Hin.
    split.
    + intros [[?|[?|[?|Hj]]] | ->]; try tauto.
      apply Hpin in Hj as ->. tauto.
    + intros [?|[?|[?|[= <-]]]]; tauto.
Qed.

Lemma no_hotkeys_tables_ok f : no_hotkeys f → tables_ok f.
Proof.
  intros (Hids & Hd & Hm & Hp & Hpin). unfold tables_ok.
  rewrite Hids, Hd, Hm, Hp, Hpin. split_and!.
  - intros j d. by rewrite lookup_empty.
  - intros j d. by rewrite lookup_empty.
  - done.
  - done.
  - intros j. rewrite elem_of_nil, !lookup_empty.
    split; [done|]. intros [[? ?]|[[? ?]|[?|?]]]; done.
Qed.

(** *** The registrations in a row *)

Lemma register_desktop_step a0 (k : nat) (i hotkey_id : Z) key :
  plan !! k = Some (hotkey_id, MOD_ALT, key) →
  1 <= i <= 10 → hotkey_id = 99 + i →
  triple (registering a0 k) (register_desktop i hotkey_id key)
    (λ _, registering a0 (S k)) (λ _, registration_raised a0).
Proof.
  intros Hk Hi Hid. apply if_registered_step; try done.
  intros f. by apply tables_ok_desktop.
Qed.

Lemma register_move_step a0 (k : nat) (i hotkey_id : Z) key :
  plan !! k = Some (hotkey_id, MOD_ALT_SHIFT, key) →
  1 <= i <= 10 → hotkey_id = 110 + i →
  triple (registering a0 k) (register_move i hotkey_id key)
    (λ _, registering a0 (S k)) (λ _, registration_raised a0).
Proof.
  intros Hk Hi Hid. apply if_registered_step; try done.
  intros f. by apply tables_ok_move.
Qed.

Lemma desktop_loop a0 :
  triple (registering a0 0)
    (for_hotkeys one_to_nine 100
       (fun i hotkey_id => register_desktop i hotkey_id (Digit i)))
    (λ hotkey_id a, hotkey_id = 109 ∧ registering a0 9 a)
    (λ _, registration_raised a0).
Proof.
  unfold one_to_nine. cbn [for_hotkeys].
  repeat (eapply triple_bind;
    [apply register_desktop_step; [reflexivity|lia|lia]|intros ?]).
  apply triple_ret. intros a Ha. split; [reflexivity|done].
Qed.

Lemma move_loop a0 :
  triple (registering a0 11)
    (for_hotkeys one_to_nine 111
       (fun i hotkey_id => register_move i hotkey_id (Digit i)))
    (λ hotkey_id a, hotkey_id = 120 ∧ registering a0 20 a)
    (λ _, registration_raised a0).
Proof.
  unfold one_to_nine. cbn [for_hotkeys].
  repeat (eapply triple_bind;
    [apply register_move_step; [reflexivity|lia|lia]|intros ?]).
  apply triple_ret. intros a Ha. split; [reflexivity|done].
Qed.

Lemma no_attempts (log : list StartupCall) :
  attempts log = [] → raised log = false ∧ granted log = [].
Proof.
  induction log as [|c log IH]; [done|].
  destruct c as [| |? ? ? [[|]|]]; cbn; try done.
Qed.

Lemma register_outcome a0 :
  no_hotkeys (gui (core a0)) → attempts (startup_calls a0) = [] →
  ∃ a, register_hotkeys a0 = (Ok tt, a) ∧ register_ended a0 a.
Proof.
  intros Hno Hatt.
  assert (triple (registering a0 0) register_hotkeys
            (λ _ a, register_ended a0 a) (λ _ _, False)) as Ht.
  { unfold register_hotkeys.
    eapply triple_guarded with (E1 := λ _, registration_raised a0).
    - eapply triple_bind; [apply desktop_loop|intros hotkey_id].
      apply triple_pure. intros ->.
      eapply triple_bind;
        [apply register_desktop_step; [reflexivity|lia|lia]|intros ?].
      cbv zeta.
      eapply triple_bind.
      { apply (if_registered_step a0 10); [reflexivity| |done|done].
        intros f. apply tables_ok_previous. }
      intros ?.
      eapply triple_bind; [apply move_loop|intros hotkey_id].
      apply triple_pure. intros ->.
      eapply triple_bind;
        [apply register_move_step; [reflexivity|lia|lia]|intros ?].
      eapply triple_bind.
      { apply (if_registered_step a0 21); [reflexivity| |done|done].
        intros f. apply tables_ok_pin. }
      intros ? a (Ha & Hr & Hg & Htab & _ & Hout & Hrest).
      unfold mbind, B_bind, lift, gets, say, set_core. cbn -[plan take].
      destruct (hotkey_ids (gui (core a))) as [|first_id ids] eqn:Hids;
        cbn -[plan take]; unfold register_ended; cbn -[plan take];
        rewrite Hids, ?last_snoc; split_and!; try done; left; done.
    - intros e a (Hk & Hr & Hg & Htab & Hb & Hout & Hrest).
      unfold say. cbn. unfold register_ended. cbn.
      rewrite last_snoc. split_and!; try done. right. eauto. }
  destruct (no_attempts _ Hatt) as [Hr Hg].
  assert (registering a0 0 a0) as Hstart.
  { unfold registering, only_tables. rewrite Hatt, Hr, Hg.
    split_and!; try done; [by destruct Hno|by apply no_hotkeys_tables_ok]. }
  specialize (Ht a0 Hstart).
  destruct (register_hotkeys a0) as [[[]|e] a]; [|done].
  by exists a.
Qed.

(** *** Dispatch against the scheme *)

Lemma on_hotkey_reads_tables (hotkey_id : Z) (s : State W) :
  on_hotkey hotkey_id s =
  match hotkey_desktop_map (gui s) !! hotkey_id with
  | Some desktop_num => switch_desktop_by_number desktop_num s
  | None =>
      match hotkey_move_map (gui s) !! hotkey_id with
      | Some desktop_num => move_window_to_desktop desktop_num s
      | None =>
          if bool_decide (Some hotkey_id = hotkey_previous_desktop_id (gui s))
          then switch_to_previous_desktop s
          else if bool_decide (Some hotkey_id = hotkey_pin_id (gui s))
          then pin_window s
          else (Ok tt, s)
      end
  end.
Proof.
  unfold on_hotkey, gets. unfold mbind at 1. unfold M_bind at 1. cbn.
  destruct (hotkey_desktop_map (gui s) !! hotkey_id); [done|].
  destruct (hotkey_move_map (gui s) !! hotkey_id); [done|].
  by repeat case_bool_decide.
Qed.

(** With tables within the scheme, a hotkey event does what the scheme
    means it to do, or nothing. *)
Lemma dispatch_within_scheme (hotkey_id : Z) (s : State W) :
  tables_ok (gui s) →
  on_hotkey hotkey_id s = intended hotkey_id s ∨
  on_hotkey hotkey_id s = (Ok tt, s).
Proof.
  intros (Hd & Hm & Hp & Hpin & _).
  rewrite on_hotkey_reads_tables. unfold intended.
  destruct (hotkey_desktop_map (gui s) !! hotkey_id) as [d|] eqn:Ed.
  { apply Hd in Ed as [Hr ->]. left.
    replace (99 + d - 99) with d by lia.
    destruct (Z.leb_spec 100 (99 + d)), (Z.leb_spec (99 + d) 109);
      (lia || done). }
  destruct (hotkey_move_map (gui s) !! hotkey_id) as [d|] eqn:Em.
  { apply Hm in Em as [Hr ->]. left.
    replace (110 + d - 110) with d by lia.
    destruct (Z.leb_spec 100 (110 + d)), (Z.leb_spec (110 + d) 109),
      (Z.eqb_spec (110 + d) 110), (Z.leb_spec 111 (110 + d)),
      (Z.leb_spec (110 + d) 120); (lia || done). }
  case_bool_decide as Eprev.
  { symmetry in Eprev. apply Hp in Eprev as ->. by left. }
  case_bool_decide as Epin.
  { symmetry in Epin. apply Hpin in Epin as ->. by left. }
  by right.
Qed.

(** Every granted identity comes from an attempt that did not raise. *)
Lemma granted_bound (log : list StartupCall) :
  (length (granted log) + (if raised log then 1 else 0)
   ≤ length (attempts log))%nat.
Proof.
  induction log as [|c log IH]; [done|].
  destruct c as [| |? ? ? [[|]|]]; cbn; try done.
  - lia.
  - destruct (raised log); lia.
  - destruct (raised log); lia.
Qed.

(** X19.  Whatever Windows answers to the registrations, granted,
    refused or raising, [register_hotkeys] on a frame without hotkeys
    returns, asks for the hotkeys of the fixed scheme in order, and leaves
    tables within the scheme: a refused hotkey does not shift the
    identities of the later ones.  So every hotkey event afterwards does
    what the scheme means its identity to do, or nothing; and
    [hotkey_ids] lists exactly the identities Windows granted. *)
Theorem registration_keeps_scheme a0 :
  no_hotkeys (gui (core a0)) → attempts (startup_calls a0) = [] →
  ∃ a,
    register_hotkeys a0 = (Ok tt, a) ∧
    (∃ k, attempts (startup_calls a) = take k plan) ∧
    hotkey_ids (gui (core a)) = granted (startup_calls a) ∧
    tables_ok (gui (core a)) ∧
    vda (core a) = vda (core a0) ∧
    overlay_state (core a) = overlay_state (core a0) ∧
    ∀ hotkey_id,
      on_hotkey hotkey_id (core a) = intended hotkey_id (core a) ∨
      on_hotkey hotkey_id (core a) = (Ok tt, core a).
Proof.
  intros Hno Hatt.
  destruct (register_outcome a0 Hno Hatt)
    as (a & E & Hids & Htab & (Hv & Ho & _) & Hend).
  exists a. split_and!; try done.
  - destruct Hend as [(_ & -> & _)|(_ & Hk & _)]; [by exists 22%nat|done].
  - intros hotkey_id. by apply dispatch_within_scheme.
Qed.

(** X20.  When Windows grants all 22 registrations, the handler is bound
    and the tables are the whole scheme: 100..109 switch to desktops
    1..10, 110 goes back, 111..120 move to desktops 1..10 and 121 pins, so
    every delivered hotkey event does what the scheme means it to do. *)
Theorem all_granted_binds_whole_scheme a0 a :
  no_hotkeys (gui (core a0)) → attempts (startup_calls a0) = [] →
  register_hotkeys a0 = (Ok tt, a) →
  granted (startup_calls a) = (λ x, x.1.1) <$> plan →
  hotkey_bound a = true ∧
  hotkey_ids (gui (core a)) = (λ x, x.1.1) <$> plan ∧
  (∀ d, 1 <= d <= 10 →
        hotkey_desktop_map (gui (core a)) !! (99 + d) = Some d ∧
        hotkey_move_map (gui (core a)) !! (110 + d) = Some d) ∧
  hotkey_previous_desktop_id (gui (core a)) = Some 110 ∧
  hotkey_pin_id (gui (core a)) = Some 121 ∧
  last (startup_out a) = Some (Registered_total 22) ∧
  ∀ hotkey_id, deliver_hotkey hotkey_id a = lift (intended hotkey_id) a.
Proof.
  intros Hno Hatt E Hall.
  destruct (register_outcome a0 Hno Hatt)
    as (a' & E' & Hids & Htab & _ & Hend).
  rewrite E in E'. injection E' as <-.
  destruct Hend as [(Hr & Hplan & Hb & Hlast)|(Hr & (k & Hk) & _)]; cycle 1.
  { pose proof (granted_bound (startup_calls a)) as Hbound.
    rewrite Hr, Hall, Hk, length_take, length_fmap in Hbound.
    change (length plan) with 22%nat in Hbound. lia. }
  rewrite Hall in Hids.
  destruct Htab as (Hd & Hm & Hp & Hpin & Hin).
  assert (∀ j, 100 <= j <= 121 →
            is_Some (hotkey_desktop_map (gui (core a)) !! j) ∨
            is_Some (hotkey_move_map (gui (core a)) !! j) ∨
            hotkey_previous_desktop_id (gui (core a)) = Some j ∨
            hotkey_pin_id (gui (core a)) = Some j) as Hbindings.
  { intros j Hj. apply Hin. rewrite Hids. apply list_elem_of_In.
    assert (∃ n : nat, (n < 22)%nat ∧ j = 100 + Z.of_nat n) as (n & Hn & ->).
    { exists (Z.to_nat (j - 100)). lia. }
    do 22 (destruct n as [|n]; [vm_compute; tauto|]). lia. }
  assert (∀ d, 1 <= d <= 10 →
            hotkey_desktop_map (gui (core a)) !! (99 + d) = Some d) as Hdesk.
  { intros d Hd'.
    destruct (Hbindings (99 + d)) as [[x Hx]|[[x Hx]|[Hx|Hx]]]; [lia|..].
    - rewrite Hx. f_equal. apply Hd in Hx. lia.
    - apply Hm in Hx. lia.
    - apply Hp in Hx. lia.
    - apply Hpin in Hx. lia. }
  assert (∀ d, 1 <= d <= 10 →
            hotkey_move_map (gui (core a)) !! (110 + d) = Some d) as Hmove.
  { intros d Hd'.
    destruct (Hbindings (110 + d)) as [[x Hx]|[[x Hx]|[Hx|Hx]]]; [lia|..].
    - apply Hd in Hx. lia.
    - rewrite Hx. f_equal. apply Hm in Hx. lia.
    - apply Hp in Hx. lia.
    - apply Hpin in Hx. lia. }
  assert (hotkey_previous_desktop_id (gui (core a)) = Some 110) as Hprev.
  { destruct (Hbindings 110) as [[x Hx]|[[x Hx]|[Hx|Hx]]]; [lia|..].
    - apply Hd in Hx. lia.
    - apply Hm in Hx. lia.
    - done.
    - apply Hpin in Hx. lia. }
  assert (hotkey_pin_id (gui (core a)) = Some 121) as Hpin'.
  { destruct (Hbindings 121) as [[x Hx]|[[x Hx]|[Hx|Hx]]]; [lia|..].
    - apply Hd in Hx. lia.
    - apply Hm in Hx. lia.
    - apply Hp in Hx. lia.
    - done. }
  split_and!; try done.
  - intros d Hd'. split; [by apply Hdesk|by apply Hmove].
  - by rewrite Hlast, Hids.
  - intros hotkey_id. unfold deliver_hotkey. rewrite Hb.
    unfold lift. rewrite on_hotkey_reads_tables. unfold intended, skip.
    destruct (Z.leb_spec 100 hotkey_id), (Z.leb_spec hotkey_id 109); cbn.
    { replace hotkey_id with (99 + (hotkey_id - 99)) at 1 by lia.
      by rewrite Hdesk by lia. }
    all: destruct (hotkey_desktop_map (gui (core a)) !! hotkey_id)
      as [d|] eqn:Ed; [apply Hd in Ed; lia|].
    all: destruct (Z.eqb_spec hotkey_id 110) as [->|Hne].
    all: try (destruct (hotkey_move_map (gui (core a)) !! 110)
                as [d|] eqn:Em; [apply Hm in Em; lia|];
              by rewrite Hprev, bool_decide_eq_true_2).
    all: destruct (Z.leb_spec 111 hotkey_id), (Z.leb_spec hotkey_id 120);
      cbn.
    all: try (replace hotkey_id with (110 + (hotkey_id - 110)) at 1 by lia;
              by rewrite Hmove by lia).
    all: destruct (hotkey_move_map (gui (core a)) !! hotkey_id)
      as [d|] eqn:Em; [apply Hm in Em; lia|].
    all: rewrite Hprev, Hpin'.
    all: rewrite (bool_decide_eq_false_2 (Some hotkey_id = Some 110))
      by congruence.
    all: destruct (Z.eqb_spec hotkey_id 121) as [->|Hne'];
      [by rewrite bool_decide_eq_true_2|].
    all: by rewrite bool_decide_eq_false_2 by congruence.
Qed.

(** X21.  When a registration raises, [register_hotkeys] prints the
    error and never binds the handler: the identities Windows granted
    before stay in [hotkey_ids] (and registered with Windows), but no
    hotkey event is handled, each delivered event leaves the state as it
    is. *)
Theorem raised_registration_leaves_hotkeys_dead a0 a :
  no_hotkeys (gui (core a0)) → attempts (startup_calls a0) = [] →
  hotkey_bound a0 = false →
  register_hotkeys a0 = (Ok tt, a) →
  raised (startup_calls a) = true →
  hotkey_bound a = false ∧
  (∃ e, last (startup_out a) = Some (Error_registering e)) ∧
  hotkey_ids (gui (core a)) = granted (startup_calls a) ∧
  ∀ hotkey_id, deliver_hotkey hotkey_id a = (Ok tt, a).
Proof.
  intros Hno Hatt Hb0 E Hraised.
  destruct (register_outcome a0 Hno Hatt)
    as (a' & E' & Hids & Htab & _ & Hend).
  rewrite E in E'. injection E' as <-.
  destruct Hend as [(Hr & _)|(_ & _ & Hb & He)]; [congruence|].
  rewrite Hb0 in Hb. split_and!; try done.
  intros hotkey_id. unfold deliver_hotkey. by rewrite Hb.
Qed.

(** X22.  What is registered at startup is unregistered at shutdown:
    whatever Windows answers, when [on_close] follows [register_hotkeys]
    it calls [UnregisterHotKey] exactly for the identities Windows
    granted, once each and in the order they were granted; refused
    identities, and the one whose registration raised, are not
    unregistered.  The only calls after these are the join of the thread
    and [Destroy], as far as [on_close] gets. *)
Theorem granted_hotkeys_are_unregistered a0 a :
  no_hotkeys (gui (core a0)) → attempts (startup_calls a0) = [] →
  register_hotkeys a0 = (Ok tt, a) →
  ∃ r a' rest,
    close_frame a = (r, a') ∧
    calls (core a') =
      calls (core a0) ++ (UnregisterHotKey <$> granted (startup_calls a))
        ++ rest ∧
    (rest = [JoinThread] ∨ rest = [JoinThread; DestroyFrame] ∨
     rest = [DestroyFrame]) ∧
    startup_calls a' = startup_calls a.
Proof.
  intros Hno Hatt E.
  destruct (register_outcome a0 Hno Hatt)
    as (a1 & E' & Hids & _ & (_ & _ & _ & _ & Hc & _) & _).
  rewrite E in E'. injection E' as <-.
  destruct (on_close_calls (core a)) as (r & s' & rest & Hr & Hcalls & Hrest).
  unfold close_frame, lift. rewrite Hr.
  exists r, (set_core s' a), rest. split_and!; try done.
  cbn. by rewrite Hcalls, Hc, Hids.
Qed.

(** *** The ten desktops *)

(** The loop of [ensure_ten_desktops]: it stops at the first creation
    that raises. *)
Lemma create_loop_counts (l : list nat) : ∀ a,
  ∃ r a',
    repeat_for l (fun _ => ask CreateDesktop vd_create) a = (r, a') ∧
    (created (startup_calls a') ≤ created (startup_calls a) + length l)%nat ∧
    (r = Ok tt →
     created (startup_calls a') =
       (created (startup_calls a) + length l)%nat) ∧
    attempts (startup_calls a') = attempts (startup_calls a) ∧
    startup_out a' = startup_out a ∧
    hotkey_bound a' = hotkey_bound a ∧
    vda (core a') = vda (core a) ∧
    gui (core a') = gui (core a) ∧
    overlay_state (core a') = overlay_state (core a).
Proof.
  induction l as [|x l IH]; intros a.
  - exists (Ok tt), a. cbn. split_and!; try done; lia.
  - cbn [repeat_for]. unfold mbind at 1. unfold B_bind at 1.
    unfold ask at 1.
    destruct (vd_create (world (core a))) as [[[]|e] w1]; cbn.
    + edestruct IH as (r & a' & -> & Hle & Heq & Hatt & Hout & Hb & Hv & Hg & Ho).
      exists r, a'. cbn in *.
      rewrite created_app, attempts_app in *. cbn in *.
      rewrite app_nil_r in Hatt.
      split_and!; try done; [lia|]. intros Hr. rewrite (Heq Hr). lia.
    + eexists _, _. split; [done|]. cbn.
      rewrite created_app, attempts_app. cbn. rewrite app_nil_r.
      split_and!; try done; lia.
Qed.

(** [ensure_ten_desktops], whatever Windows answers. *)
Lemma ensure_runs a :
  ∃ a',
    ensure_ten_desktops a = (Ok tt, a') ∧
    attempts (startup_calls a') = attempts (startup_calls a) ∧
    hotkey_bound a' = hotkey_bound a ∧
    vda (core a') = vda (core a) ∧
    gui (core a') = gui (core a) ∧
    overlay_state (core a') = overlay_state (core a) ∧
    startup_out a `prefix_of` startup_out a' ∧
    match get_virtual_desktops (world (core a)) with
    | (Raise e, _) =>
        created (startup_calls a') = created (startup_calls a) ∧
        startup_out a' = startup_out a ++ [Error_ensuring e]
    | (Ok desktops, _) =>
        let n := length desktops in
        if (n <? 10)%nat then
          (created (startup_calls a') ≤
             created (startup_calls a) + (10 - n))%nat ∧
          ((startup_out a' =
              startup_out a ++ [Creating_desktops (10 - n) n; Now_have_ten] ∧
            created (startup_calls a') =
              (created (startup_calls a) + (10 - n))%nat) ∨
           (∃ e, startup_out a' =
                   startup_out a ++ [Creating_desktops (10 - n) n;
                                     Error_ensuring e]))
        else
          created (startup_calls a') = created (startup_calls a) ∧
          startup_out a' = startup_out a ++ [Already_have n]
    end.
Proof.
  unfold ensure_ten_desktops, guarded.
  unfold mbind at 1. unfold B_bind at 1. unfold ask at 1.
  destruct (get_virtual_desktops (world (core a))) as [[desktops|e] w1];
    cbn -[Nat.ltb]; cycle 1.
  { eexists. split; [done|]. cbn.
    rewrite created_app, attempts_app. cbn. rewrite app_nil_r.
    split_and!; try done; try (by apply prefix_app_r); try lia. }
  destruct (length desktops <? 10)%nat eqn:Hlt; cbn -[Nat.ltb]; cycle 1.
  { eexists. split; [done|]. cbn.
    rewrite created_app, attempts_app. cbn. rewrite app_nil_r.
    split_and!; try done; try (by apply prefix_app_r); try lia. }
  unfold mbind at 1. unfold B_bind at 1. unfold say at 1. cbn beta iota.
  unfold mbind at 1. unfold B_bind at 1.
  match goal with
  | |- context [repeat_for ?l ?body ?st] =>
      destruct (create_loop_counts l st)
        as (r & a1 & -> & Hle & Heq & Hatt & Hout & Hb & Hv & Hg & Ho)
  end.
  cbn in Hle, Heq, Hatt, Hout, Hb, Hv, Hg, Ho.
  rewrite created_app, attempts_app, length_seq in *. cbn in Hle, Heq, Hatt.
  rewrite app_nil_r in Hatt.
  destruct r as [[]|e]; cbn.
  - eexists. split; [done|]. cbn. rewrite Hout.
    split_and!; try done.
    + rewrite <- app_assoc. by apply prefix_app_r.
    + lia.
    + left. rewrite <- app_assoc. split; [done|]. rewrite Heq by done. lia.
  - eexists. split; [done|]. cbn. rewrite Hout.
    split_and!; try done.
    + rewrite <- app_assoc. by apply prefix_app_r.
    + lia.
    + right. exists e. by rewrite <- app_assoc.
Qed.

(** The loop of [ensure_ten_desktops] and the world: every creation is
    asked of the world the one before left, and the first that raises is
    the last that is asked. *)
Lemma create_loop_stops (l : list nat) : ∀ a,
  ∃ r a',
    repeat_for l (fun _ => ask CreateDesktop vd_create) a = (r, a') ∧
    startup_out a' = startup_out a ∧
    vda (core a') = vda (core a) ∧
    match r with
    | Ok _ =>
        os_creates_desktops (length l) (world (core a)) (world (core a')) ∧
        startup_calls a' =
          startup_calls a ++ replicate (length l) CreateDesktop
    | Raise e =>
        ∃ (j : nat) w2,
          (j < length l)%nat ∧
          os_creates_desktops j (world (core a)) w2 ∧
          vd_create w2 = (Raise e, world (core a')) ∧
          startup_calls a' = startup_calls a ++ replicate (S j) CreateDesktop
    end.
Proof.
  induction l as [|x l IH]; intros a.
  - exists (Ok tt), a. cbn. by rewrite app_nil_r.
  - cbn [repeat_for]. unfold mbind at 1. unfold B_bind at 1.
    unfold ask at 1.
    destruct (vd_create (world (core a))) as [[[]|e] w1] eqn:Hcreate;
      cbn beta iota.
    + edestruct IH as (r & a' & -> & Hout & Hv & Hr).
      exists r, a'. cbn in Hout, Hv, Hr. split_and!; try done.
      destruct r as [[]|e].
      * destruct Hr as [Hos ->]. split.
        -- cbn. by exists w1.
        -- by rewrite <- app_assoc.
      * destruct Hr as (j & w2 & Hj & Hos & Hraise & ->).
        exists (S j), w2. split_and!; try done.
        -- cbn. lia.
        -- cbn. by exists w1.
        -- by rewrite <- app_assoc.
    + eexists _, _. split; [done|]. cbn. split_and!; try done.
      exists 0%nat, (world (core a)). split_and!; try done. lia.
Qed.

(** X23.  [ensure_ten_desktops] cannot fail and creates only what is
    missing, whatever Windows answers.  When the query raises, or reports
    ten desktops or more, nothing is created.  With [n < 10] desktops
    reported, either all [10 - n] creations succeed, one after the other,
    exactly these are asked for and "now have 10" is printed; or the
    first [j] succeed and the next raises: then exactly [j + 1] creations
    have been asked for, the world is as the one that raised left it, so
    that nothing was asked after it, and the error is printed in place of
    "now have 10".  The accessor's fields are unchanged. *)
Theorem ensure_creates_only_missing a :
  ∃ a',
    ensure_ten_desktops a = (Ok tt, a') ∧
    vda (core a') = vda (core a) ∧
    match get_virtual_desktops (world (core a)) with
    | (Raise e, w1) =>
        world (core a') = w1 ∧
        startup_calls a' = startup_calls a ++ [GetVirtualDesktops] ∧
        startup_out a' = startup_out a ++ [Error_ensuring e]
    | (Ok desktops, w1) =>
        let n := length desktops in
        if (n <? 10)%nat then
          (os_creates_desktops (10 - n) w1 (world (core a')) ∧
           startup_calls a' =
             startup_calls a
               ++ GetVirtualDesktops :: replicate (10 - n) CreateDesktop ∧
           startup_out a' =
             startup_out a ++ [Creating_desktops (10 - n) n; Now_have_ten]) ∨
          (∃ (j : nat) w2 e,
             (j < 10 - n)%nat ∧
             os_creates_desktops j w1 w2 ∧
             vd_create w2 = (Raise e, world (core a')) ∧
             startup_calls a' =
               startup_calls a
                 ++ GetVirtualDesktops :: replicate (S j) CreateDesktop ∧
             startup_out a' =
               startup_out a ++ [Creating_desktops (10 - n) n;
                                 Error_ensuring e])
        else
          world (core a') = w1 ∧
          startup_calls a' = startup_calls a ++ [GetVirtualDesktops] ∧
          startup_out a' = startup_out a ++ [Already_have n]
    end.
Proof.
  unfold ensure_ten_desktops, guarded.
  unfold mbind at 1. unfold B_bind at 1. unfold ask at 1.
  destruct (get_virtual_desktops (world (core a))) as [[desktops|e] w1];
    cbn -[Nat.ltb]; cycle 1.
  { eexists. split; [done|]. by cbn. }
  destruct (length desktops <? 10)%nat eqn:Hlt; cbn -[Nat.ltb]; cycle 1.
  { eexists. split; [done|]. by cbn. }
  unfold mbind at 1. unfold B_bind at 1. unfold say at 1. cbn beta iota.
  unfold mbind at 1. unfold B_bind at 1.
  match goal with
  | |- context [repeat_for ?l ?body ?st] =>
      destruct (create_loop_stops l st) as (r & a1 & -> & Hout & Hv & Hr)
  end.
  rewrite length_seq in Hr. cbn in Hout, Hv, Hr.
  destruct r as [[]|e]; cbn.
  - destruct Hr as [Hos Hcalls].
    eexists. split; [done|]. cbn. split; [done|]. left.
    rewrite Hout, Hcalls, <- !app_assoc. by cbn.
  - destruct Hr as (j & w2 & Hj & Hos & Hraise & Hcalls).
    eexists. split; [done|]. cbn. split; [done|]. right.
    exists j, w2, e. rewrite Hout, Hcalls, <- !app_assoc. by cbn.
Qed.

(** *** The constructor of the accessor *)

Lemma previous_unset (s : State W) :
  previous_desktop_number (vda s) = None →
  switch_to_previous_desktop s =
    (Ok tt, after s (world s) (vda s) [] [] [No_previous_desktop]).
Proof.
  intros Hp. unfold switch_to_previous_desktop, gets, print, modify, after.
  unfold mbind, M_bind. cbn. rewrite Hp. cbn. by rewrite !app_nil_r.
Qed.

(** X24.  [VirtualDesktopAccessor(frame)] cannot fail and always starts
    without a previous desktop.  When the query for the current desktop
    succeeds, [current] is the number Windows reported; when it raises,
    [current] stays [None], the two lines of the failure are printed and
    the ten desktops are not looked at.  Either way a "previous desktop"
    request right after startup only prints that none is recorded. *)
Theorem accessor_starts_without_previous (has_frame : bool) a :
  ∃ a',
    new_accessor has_frame a = (Ok tt, a') ∧
    previous_desktop_number (vda (core a')) = None ∧
    frame (vda (core a')) = has_frame ∧
    match vd_current (world (core a)) with
    | (Ok number, _) =>
        current_desktop_number (vda (core a')) = Some number ∧
        (startup_out a ++ [Manager_initialized number])
          `prefix_of` startup_out a'
    | (Raise e, _) =>
        current_desktop_number (vda (core a')) = None ∧
        startup_calls a' = startup_calls a ∧
        startup_out a' =
          startup_out a ++ [Failed_to_initialize e; Requires_windows]
    end ∧
    switch_to_previous_desktop (core a') =
      (Ok tt, after (core a') (world (core a')) (vda (core a')) [] []
                [No_previous_desktop]).
Proof.
  unfold new_accessor.
  unfold mbind at 1. unfold B_bind at 1. unfold lift at 1, modify at 1.
  cbn beta iota zeta. unfold guarded.
  unfold mbind at 1. unfold B_bind at 1. unfold lift at 1, os at 1.
  cbn [core set_core world set_vda].
  destruct (vd_current (world (core a))) as [[number|e] w1];
    cbn beta iota zeta.
  - unfold mbind at 1. unfold B_bind at 1.
    unfold lift at 1, set_current_desktop_number, modify.
    cbn beta iota zeta.
    unfold mbind at 1. unfold B_bind at 1. unfold say at 1.
    cbn beta iota zeta.
    match goal with
    | |- context [ensure_ten_desktops ?st] =>
        destruct (ensure_runs st)
          as (a' & -> & _ & _ & Hv & _ & _ & Hout & _)
    end.
    cbn in Hv, Hout. exists a'.
    split_and!; try (by rewrite Hv); try done.
    apply previous_unset. by rewrite Hv.
  - unfold mbind, B_bind, say. cbn.
    eexists. split_and!; try done.
    + by rewrite <- app_assoc.
    + by apply previous_unset.
Qed.

End StartupFacts.

(** * The further properties at work in the simulated worlds *)

(** X1 when virtual desktops are not supported. *)
Lemma switch_query_fails_changes_nothing_witness :
  switch_desktop_by_number 5
    (Faulty.start (Faulty.make 3 (Some "desktops unsupported") None 0)
                  (Some 3)) =
  (Ok tt,
   after (Faulty.start (Faulty.make 3 (Some "desktops unsupported") None 0)
                       (Some 3))
     (Faulty.make 3 (Some "desktops unsupported") None 0)
     {| current_desktop_number := Some 3; previous_desktop_number := None;
        frame := true |}
     [] [CurrentDesktop] [Error_switching 5 "desktops unsupported"]).
Proof.
  apply (switch_query_fails_changes_nothing 5 "desktops unsupported"
           (Faulty.start (Faulty.make 3 (Some "desktops unsupported") None 0)
                         (Some 3))).
  - lia.
  - reflexivity.
Defined.

(** X3 from desktop 11 to desktop 5. *)
Lemma no_return_beyond_ten_witness :
  ∃ s1,
    switch_desktop_by_number 5 (Sim.start (Sim.world0 11) (Some 11))
      = (Ok tt, s1) ∧
    previous_desktop_number (vda s1) = Some 11 ∧
    switch_to_previous_desktop s1 =
      (Ok tt, after s1 (world s1) (vda s1) [] []
                [Invalid_desktop_number 11]).
Proof.
  apply (no_return_beyond_ten 11 5 (Sim.start (Sim.world0 11) (Some 11))
           (Sim.world0 5)).
  - right. lia.
  - lia.
  - exists (Sim.world0 11), (Sim.world0 11). repeat split; reflexivity.
Defined.

(** X4 with no window in the foreground. *)
Lemma no_window_no_action_witness :
  move_window_to_desktop 4 (Sim.start no_window (Some 3)) =
    (Ok tt, after (Sim.start no_window (Some 3)) no_window
              (vda (Sim.start no_window (Some 3))) []
              [GetForegroundWindow] [No_active_window]) ∧
  pin_window (Sim.start no_window (Some 3)) =
    (Ok tt, after (Sim.start no_window (Some 3)) no_window
              (vda (Sim.start no_window (Some 3))) []
              [GetForegroundWindow] [No_active_window]).
Proof.
  apply (no_window_no_action 4 (Sim.start no_window (Some 3)) no_window).
  - lia.
  - reflexivity.
Defined.

(** X5 for window 42 and desktop 4. *)
Lemma move_moves_foreground_window_witness :
  move_window_to_desktop 4 (Sim.start (Sim.world0 3) (Some 3)) =
    (Ok tt, after (Sim.start (Sim.world0 3) (Some 3)) (Sim.world0 3)
              (vda (Sim.start (Sim.world0 3) (Some 3))) []
              [GetForegroundWindow; GetWindowText 42; MakeAppView 42;
               MakeDesktop 4; Move 42 4]
              [Moving_window "Notepad"; Moved_window 4]).
Proof.
  apply (move_moves_foreground_window 4 42 "Notepad"
           (Sim.start (Sim.world0 3) (Some 3))
           (Sim.world0 3) (Sim.world0 3) (Sim.world0 3) (Sim.world0 3)
           (Sim.world0 3)).
  - lia.
  - lia.
  - reflexivity.
  - reflexivity.
  - reflexivity.
  - reflexivity.
  - reflexivity.
Defined.

(** X6 when the first pin call is denied. *)
Lemma failed_pin_can_be_retried_witness :
  ∃ s1 s2,
    pin_window (Faulty.start (Faulty.make 3 None None 1) (Some 3))
      = (Ok tt, s1) ∧
    stdout s1 = [Error_pinning "pin: access denied"] ∧
    vda s1 = vda (Faulty.start (Faulty.make 3 None None 1) (Some 3)) ∧
    pin_window s1 = (Ok tt, s2) ∧
    stdout s2 = stdout s1 ++ [Pinned_window "Notepad"] ∧
    List.filter is_pin (calls s2) = [Pin 42; Pin 42].
Proof.
  apply (failed_pin_can_be_retried 42 "Notepad" "Notepad"
           "pin: access denied"
           (Faulty.start (Faulty.make 3 None None 1) (Some 3))
           (Faulty.make 3 None None 1) (Faulty.make 3 None None 0)
           (Faulty.make 3 None None 0)
           {| Faulty.base := Sim.pinned42 3; Faulty.query_error := None;
              Faulty.enum_error := None; Faulty.pin_failures := 0 |}).
  - lia.
  - exists (Faulty.make 3 None None 1), (Faulty.make 3 None None 1),
      (Faulty.make 3 None None 1). repeat split; reflexivity.
  - reflexivity.
  - exists (Faulty.make 3 None None 0), (Faulty.make 3 None None 0),
      (Faulty.make 3 None None 0). repeat split; reflexivity.
  - reflexivity.
Defined.

(** X7 for an identity no hotkey was registered with. *)
Lemma unknown_hotkey_is_ignored_witness :
  on_hotkey 999 (Sim.start (Sim.world0 3) (Some 3)) =
    (Ok tt, Sim.start (Sim.world0 3) (Some 3)).
Proof.
  apply (unknown_hotkey_is_ignored 999 (Sim.start (Sim.world0 3) (Some 3))).
  - reflexivity.
  - reflexivity.
  - discriminate.
  - discriminate.
Defined.

(** X25 when the thread sleeps through the join and [Destroy] raises. *)
Lemma shutdown_line_is_printed_twice_witness :
  ∃ r s1 s2,
    on_close
      (Exit.start (Exit.make (Ok false) (Some "wx: dead object"%string)))
      = (r, s1) ∧
    run_loop_wakes s1 = (Ok tt, s2) ∧
    stdout s1 =
      stdout
        (Exit.start (Exit.make (Ok false) (Some "wx: dead object"%string)))
        ++ (if false then [Dodo_shutting_down; Dodo_shutting_down]
            else [Dodo_shutting_down]) ∧
    dodo_thread (gui s1) = Some (if false then Ended else InLoop) ∧
    stdout s2 =
      stdout
        (Exit.start (Exit.make (Ok false) (Some "wx: dead object"%string)))
        ++ [Dodo_shutting_down; Dodo_shutting_down] ∧
    dodo_thread (gui s2) = Some Ended ∧
    run_loop_wakes s2 = (Ok tt, s2).
Proof.
  apply (shutdown_line_is_printed_twice
           (Exit.start (Exit.make (Ok false) (Some "wx: dead object"%string)))
           false
           (Exit.make (Ok false) (Some "wx: dead object"%string))).
  - reflexivity.
  - reflexivity.
Defined.

(** X12 for the second of two monitors. *)
Lemma monitor_keeps_rectangle_witness :
  ∃ m, enumerated [(1, (0, 0, 1920, 1080)); (2, (1920, 0, 3840, 1080))]
         !! 1%nat = Some m ∧
       index m = 1%nat ∧ handle m = 2 ∧
       left m = 1920 ∧ top m = 0 ∧
       right m = 3840 ∧ bottom m = 1080 ∧
       width m = 3840 - 1920 ∧
       height m = 1080 - 0.
Proof.
  apply (monitor_keeps_rectangle
           [(1, (0, 0, 1920, 1080)); (2, (1920, 0, 3840, 1080))]
           1 2 1920 0 3840 1080).
  reflexivity.
Defined.

(** X13 at desktop 10 against itself. *)
Lemma overlay_text_tells_desktops_apart_witness :
  overlay_text 10 = "0" ∧ 10 = 10.
Proof.
  split; [reflexivity|].
  apply (overlay_text_tells_desktops_apart 10 10); [lia|lia|reflexivity].
Defined.

(** X16 when the monitors cannot be enumerated. *)
Lemma failed_enumeration_shows_nothing_witness :
  ∃ s',
    show_desktop_overlay 7
      (Faulty.start (Faulty.make 3 None (Some "no display") 0) (Some 3))
      = (Ok tt, s') ∧
    stdout s' = [Error_showing_overlay "no display"] ∧
    calls s' = [EnumDisplayMonitors] ∧
    screen s' = [] ∧
    timers s' = ∅ ∧
    vda s' =
      vda (Faulty.start (Faulty.make 3 None (Some "no display") 0) (Some 3)).
Proof.
  apply (failed_enumeration_shows_nothing 7 "no display"
           (Faulty.start (Faulty.make 3 None (Some "no display") 0) (Some 3))
           (Faulty.make 3 None (Some "no display") 0)).
  reflexivity.
Defined.

(** X17 from desktop 3 to desktop 5 on one monitor. *)
Lemma switch_then_overlay_witness :
  ∃ s1 s2,
    switch_desktop_by_number 5 (Sim.start (Sim.world0 3) (Some 3))
      = (Ok tt, s1) ∧
    screen s1 = [] ∧
    call_after s1 = [5] ∧
    run_call_after s1 = (Ok tt, s2) ∧
    call_after s2 = [] ∧
    screen s2 = [{| oid := 1; desktop_number := 5; position := (20, 20) |}] ∧
    current_desktop_number (vda s2) = Some 5 ∧
    previous_desktop_number (vda s2) = Some 3 ∧
    stdout s2 = [].
Proof.
  apply (switch_then_overlay 5 3 (Sim.start (Sim.world0 3) (Some 3))
           [(1, (0, 0, 1920, 1080))]
           (Sim.world0 5) (Sim.world0 5) (Sim.world0 5)).
  - lia.
  - lia.
  - reflexivity.
  - reflexivity.
  - exists (Sim.world0 3), (Sim.world0 3). repeat split; reflexivity.
  - reflexivity.
  - exists (Sim.world0 5). split; reflexivity.
Defined.

Lemma start_fresh_ids (w : Sim.World) (current : option Z) :
  fresh_ids (Sim.start w current).
Proof.
  split_and!; cbn.
  - intros o Ho. by apply elem_of_nil in Ho.
  - intros i [m Hm]. by rewrite lookup_empty in Hm.
  - intros i [m Hm]. by rewrite lookup_empty in Hm.
Defined.

(** X18 for the overlays of desktops 5 and 7 on one monitor. *)
Lemma overlapping_batches_are_independent_witness :
  ∃ m1 s1 m2 s2 t1 b1 b2,
    new_manager 5 (Sim.start (Sim.world0 3) (Some 3)) = (Ok m1, s1) ∧
    new_manager 7 s1 = (Ok m2, s2) ∧
    manager_overlays m1 s2 = b1 ∧
    manager_overlays m2 s2 = b2 ∧
    length b1 = 1%nat ∧
    length b2 = 1%nat ∧
    screen s2 = b1 ++ b2 ∧
    manager_timer m1 s2 = Some t1 ∧
    ∀ w5, os_closes b1 (Sim.world0 3) w5 →
      ∃ s3,
        fire_timer t1 s2 = (Ok tt, s3) ∧
        screen s3 = b2 ∧
        manager_overlays m1 s3 = [] ∧
        manager_overlays m2 s3 = b2 ∧
        manager_timer m2 s3 = manager_timer m2 s2 ∧
        timers s3 = delete t1 (timers s2).
Proof.
  apply (overlapping_batches_are_independent 5 7
           (Sim.start (Sim.world0 3) (Some 3))
           [(1, (0, 0, 1920, 1080))] [(1, (0, 0, 1920, 1080))]
           (Sim.world0 3) (Sim.world0 3) (Sim.world0 3) (Sim.world0 3)).
  - apply start_fresh_ids.
  - discriminate.
  - reflexivity.
  - exists (Sim.world0 3). split; reflexivity.
  - reflexivity.
  - exists (Sim.world0 3). split; reflexivity.
Defined.

(** * Startup at work in the simulated world *)

Lemma boot_no_hotkeys (w : Desk.World) : no_hotkeys (gui (core (Desk.boot w))).
Proof. repeat split. Defined.

(** X19 when Alt+4 and the "previous" hotkey are refused. *)
Lemma registration_keeps_scheme_witness :
  ∃ a,
    register_hotkeys (Desk.boot (Desk.make [103; 110] [])) = (Ok tt, a) ∧
    (∃ k, attempts (startup_calls a) = take k plan) ∧
    hotkey_ids (gui (core a)) = granted (startup_calls a) ∧
    tables_ok (gui (core a)) ∧
    vda (core a) = vda (core (Desk.boot (Desk.make [103; 110] []))) ∧
    overlay_state (core a) =
      overlay_state (core (Desk.boot (Desk.make [103; 110] []))) ∧
    ∀ hotkey_id,
      on_hotkey hotkey_id (core a) = intended hotkey_id (core a) ∨
      on_hotkey hotkey_id (core a) = (Ok tt, core a).
Proof.
  apply (registration_keeps_scheme (Desk.boot (Desk.make [103; 110] []))).
  - apply boot_no_hotkeys.
  - reflexivity.
Defined.

(** X20 when Windows grants every hotkey. *)
Lemma all_granted_binds_whole_scheme_witness :
  let a := (register_hotkeys (Desk.boot (Desk.make [] []))).2 in
  hotkey_bound a = true ∧
  hotkey_ids (gui (core a)) = (λ x, x.1.1) <$> plan ∧
  (∀ d, 1 <= d <= 10 →
        hotkey_desktop_map (gui (core a)) !! (99 + d) = Some d ∧
        hotkey_move_map (gui (core a)) !! (110 + d) = Some d) ∧
  hotkey_previous_desktop_id (gui (core a)) = Some 110 ∧
  hotkey_pin_id (gui (core a)) = Some 121 ∧
  last (startup_out a) = Some (Registered_total 22) ∧
  ∀ hotkey_id, deliver_hotkey hotkey_id a = lift (intended hotkey_id) a.
Proof.
  apply (all_granted_binds_whole_scheme (Desk.boot (Desk.make [] []))).
  - apply boot_no_hotkeys.
  - reflexivity.
  - vm_compute. reflexivity.
  - vm_compute. reflexivity.
Defined.

(** X21 when the registration of Alt+6 raises. *)
Lemma raised_registration_leaves_hotkeys_dead_witness :
  let a := (register_hotkeys (Desk.boot (Desk.make [] [105]))).2 in
  hotkey_bound a = false ∧
  (∃ e, last (startup_out a) = Some (Error_registering e)) ∧
  hotkey_ids (gui (core a)) = granted (startup_calls a) ∧
  ∀ hotkey_id, deliver_hotkey hotkey_id a = (Ok tt, a).
Proof.
  apply (raised_registration_leaves_hotkeys_dead
           (Desk.boot (Desk.make [] [105]))).
  - apply boot_no_hotkeys.
  - reflexivity.
  - reflexivity.
  - vm_compute. reflexivity.
  - vm_compute. reflexivity.
Defined.

(** X22 when Alt+4 is refused and the rest is granted. *)
Lemma granted_hotkeys_are_unregistered_witness :
  ∃ r a' rest,
    close_frame (register_hotkeys (Desk.boot (Desk.make [103] []))).2
      = (r, a') ∧
    calls (core a') =
      calls (core (Desk.boot (Desk.make [103] [])))
        ++ (UnregisterHotKey <$>
              granted (startup_calls
                (register_hotkeys (Desk.boot (Desk.make [103] []))).2))
        ++ rest ∧
    (rest = [JoinThread] ∨ rest = [JoinThread; DestroyFrame] ∨
     rest = [DestroyFrame]) ∧
    startup_calls a' =
      startup_calls (register_hotkeys (Desk.boot (Desk.make [103] []))).2.
Proof.
  apply (granted_hotkeys_are_unregistered (Desk.boot (Desk.make [103] []))).
  - apply boot_no_hotkeys.
  - reflexivity.
  - vm_compute. reflexivity.
Defined.
